(** * Plan/state reconciliation in terraform-provider-m365

    A shallow embedding of the constructor of the conditional access policy
    resource ([conditionalaccesspolicy/construct.go]) and of the CRUD handlers
    of the assignment filter resource, in its two revisions
    ([assignmentFilter/crud.go] and the earlier single-file resource), together
    with the properties the specification states about them. Beside these
    stand the Configure of the two resources that have one, the provider's
    Configure ([provider.go]) and the validators of its schema
    ([validators.go]), with further properties of all this code.

    Go values are modelled as the code has them: a [types.String] is null,
    unknown or known; a pointer is an [option]; a slice is nil or a list; a
    function returning [(value, error)] returns an [outcome], which also
    records a nil dereference as a panic. Code outside the repository (the
    Graph SDK's enum parsers, [encoding/json], the Graph client, the plugin
    framework's state encoder) is taken as a parameter. *)

From Stdlib Require Import String Ascii List Bool Arith ZArith.
Import ListNotations.

#[local] Open Scope string_scope.
#[local] Open Scope list_scope.

(** ** Go strings and [fmt.Errorf] *)

Definition cat (a b : string) : string := String.append a b.
Infix "+++" := cat (right associativity, at level 60).

(** [contains needle hay]: [needle] occurs in [hay]. *)
Definition contains (needle hay : string) : Prop :=
  exists before after, hay = before +++ needle +++ after.

(** An executable test for [contains]. *)
Fixpoint starts_with (needle hay : string) : bool :=
  match needle, hay with
  | EmptyString, _ => true
  | String a needle', String b hay' =>
      Ascii.eqb a b && starts_with needle' hay'
  | String _ _, EmptyString => false
  end.

Fixpoint containsb (needle hay : string) : bool :=
  starts_with needle hay ||
  match hay with
  | EmptyString => false
  | String _ hay' => containsb needle hay'
  end.

(** ** Results of fallible Go code *)

Inductive outcome (A : Type) : Type :=
| Done (a : A)              (* (a, nil) *)
| Failed (err : string)     (* (nil, err), [err] being err.Error() *)
| Panicked.                 (* a nil pointer was dereferenced *)
Arguments Done {A} a.
Arguments Failed {A} err.
Arguments Panicked {A}.

Definition bind {A B} (o : outcome A) (k : A -> outcome B) : outcome B :=
  match o with
  | Done a => k a
  | Failed err => Failed err
  | Panicked => Panicked
  end.

Notation "x <- e ;; k" := (bind e (fun x => k))
  (at level 61, e at next level, right associativity).

(** [if err != nil { return nil, fmt.Errorf(prefix ++ "%s", err) }] *)
Definition Errorf {A} (prefix : string) (o : outcome A) : outcome A :=
  match o with
  | Failed err => Failed (prefix +++ err)
  | other => other
  end.

(** ** Go slices: nil, or a run of elements *)

Definition slice (A : Type) : Type := option (list A).

Definition elems {A} (s : slice A) : list A :=
  match s with Some l => l | None => [] end.

Definition len {A} (s : slice A) : nat := length (elems s).

(** [elementwise conv src dst]: [dst] is as long as [src], and its element
    at every index is the conversion of the element of [src] at that index. *)
Definition elementwise {A B} (conv : A -> B -> Prop)
  (src : list A) (dst : list B) : Prop :=
  length dst = length src /\
  forall i a, nth_error src i = Some a ->
    exists b, nth_error dst i = Some b /\ conv a b.

(** [carried conv src dst]: a nil or empty source slice leaves the target
    unset; any other is converted element by element. *)
Definition carried {A B} (conv : A -> B -> Prop)
  (src : slice A) (dst : slice B) : Prop :=
  match src with
  | None => dst = None
  | Some [] => dst = None
  | Some ((_ :: _) as l) => exists out, dst = Some out /\ elementwise conv l out
  end.

(** [nested R m s]: a nil source pointer leaves the target unset; any other
    yields a target related to it by [R]. *)
Definition nested {M S} (R : M -> S -> Prop) (m : option M) (s : option S)
  : Prop :=
  match m with
  | None => s = None
  | Some m => exists s', s = Some s' /\ R m s'
  end.

(** ** Terraform Plugin Framework values *)

Module types.

Inductive String : Type :=
| StringNull
| StringUnknown
| StringValue (s : string).

Inductive Bool : Type :=
| BoolNull
| BoolUnknown
| BoolValue (b : bool).

Inductive Int32 : Type :=
| Int32Null
| Int32Unknown
| Int32Value (z : Z).

End types.

Class Nullable (T : Type) := IsNull : T -> bool.

#[global] Instance String_Nullable : Nullable types.String :=
  fun v => match v with types.StringNull => true | _ => false end.
#[global] Instance Bool_Nullable : Nullable types.Bool :=
  fun v => match v with types.BoolNull => true | _ => false end.
#[global] Instance Int32_Nullable : Nullable types.Int32 :=
  fun v => match v with types.Int32Null => true | _ => false end.

(** The [Value*] accessors return the Go zero value for null and unknown. *)
Definition ValueString (v : types.String) : string :=
  match v with types.StringValue s => s | _ => EmptyString end.

Definition ValueBool (v : types.Bool) : bool :=
  match v with types.BoolValue b => b | _ => false end.

Definition ValueInt32 (v : types.Int32) : Z :=
  match v with types.Int32Value z => z | _ => 0%Z end.

(** *** Diagnostics *)

Inductive Severity : Type := SeverityError | SeverityWarning.

Record Diagnostic : Type := {
  severity : Severity;
  summary : string;
  detail : string
}.

Definition Diagnostics : Type := list Diagnostic.

Definition is_error (d : Diagnostic) : bool :=
  match severity d with SeverityError => true | SeverityWarning => false end.

Definition is_warning (d : Diagnostic) : bool :=
  match severity d with SeverityWarning => true | SeverityError => false end.

Definition HasError (ds : Diagnostics) : bool := existsb is_error ds.

Definition Append (ds more : Diagnostics) : Diagnostics := ds ++ more.

Definition AddError (ds : Diagnostics) (s d : string) : Diagnostics :=
  ds ++ [{| severity := SeverityError; summary := s; detail := d |}].

Definition AddWarning (ds : Diagnostics) (s d : string) : Diagnostics :=
  ds ++ [{| severity := SeverityWarning; summary := s; detail := d |}].

(** ** Graph SDK enumerations

    Every SDK enumeration is a Go [int] type with a [Parse...] function from
    the wire name. The parsers belong to the SDK and are a parameter below. A
    parser answers with a value, with an error, or with [(nil, nil)]. *)

Module models.

Inductive EnumType : Type :=
| ConditionalAccessPolicyState
| ConditionalAccessClientApp
| ConditionalAccessInsiderRiskLevels
| RiskLevel
| ConditionalAccessGuestOrExternalUserTypes
| ConditionalAccessGrantControlOperator
| ConditionalAccessGrantControl
| ContinuousAccessEvaluationMode
| PersistentBrowserSessionMode
| SigninFrequencyType
| SignInFrequencyInterval
| SignInFrequencyAuthenticationType.

Definition enum (t : EnumType) : Type := Z.

End models.

Inductive parsed (A : Type) : Type :=
| ParseValue (a : A)
| ParseNil
| ParseError (err : string).
Arguments ParseValue {A} a.
Arguments ParseNil {A}.
Arguments ParseError {A} err.

(** Nested objects of the conditions block whose constructors are named in
    construct.go (lines 405-410) but not defined there. *)
Inductive Nested : Type :=
| AuthenticationFlows
| Devices
| DeviceStates
| Locations
| Platforms.

(** ** Facts about the above *)

Lemma cat_assoc (a b c : string) : (a +++ b) +++ c = a +++ (b +++ c).
Proof.
  unfold cat. induction a as [|ch a IH]; simpl; [reflexivity|].
  now rewrite IH.
Qed.

Lemma contains_prefixed needle p hay :
  contains needle hay -> contains needle (p +++ hay).
Proof.
  intros (b & a & ->). exists (p +++ b), a. now rewrite cat_assoc.
Qed.

Lemma contains_suffixed needle hay s :
  contains needle hay -> contains needle (hay +++ s).
Proof.
  intros (b & a & ->). exists b, (a +++ s). now rewrite !cat_assoc.
Qed.

Lemma contains_here needle s : contains needle (needle +++ s).
Proof. exists EmptyString, s. reflexivity. Qed.

Lemma starts_with_sound needle hay :
  starts_with needle hay = true -> exists after, hay = needle +++ after.
Proof.
  revert hay. induction needle as [|a needle IH]; intros hay H.
  - now exists hay.
  - destruct hay as [|b hay]; simpl in H; [discriminate|].
    apply andb_true_iff in H as [Hab H].
    apply Ascii.eqb_eq in Hab as ->.
    destruct (IH _ H) as [after ->]. now exists after.
Qed.

Lemma containsb_sound needle hay :
  containsb needle hay = true -> contains needle hay.
Proof.
  induction hay as [|b hay IH]; simpl; intros H.
  - rewrite orb_false_r in H.
    destruct (starts_with_sound _ _ H) as [after ->]. apply contains_here.
  - apply orb_true_iff in H as [H|H].
    + destruct (starts_with_sound _ _ H) as [after ->]. apply contains_here.
    + destruct (IH H) as (before & after & ->).
      now exists (String b before), after.
Qed.

Lemma elementwise_map {A B} (f : A -> B) (l : list A) :
  elementwise (fun a b => b = f a) l (map f l).
Proof.
  split; [apply length_map|].
  intros i a H. exists (f a). split; [|reflexivity].
  now rewrite nth_error_map, H.
Qed.

Lemma elementwise_cons {A B} (conv : A -> B -> Prop) a b l out :
  conv a b -> elementwise conv l out -> elementwise conv (a :: l) (b :: out).
Proof.
  intros Hab [Hlen Hnth]. split; [simpl; now rewrite Hlen|].
  intros [|i] x H; simpl in *.
  - injection H as <-. now exists b.
  - now apply Hnth.
Qed.

Lemma bind_Done {A B} (o : outcome A) (k : A -> outcome B) b :
  (x <- o ;; k x) = Done b -> exists a, o = Done a /\ k a = Done b.
Proof. destruct o; simpl; intros H; [now eexists | discriminate..]. Qed.

Lemma HasError_AddError ds s d : HasError (AddError ds s d) = true.
Proof.
  unfold HasError, AddError. rewrite existsb_app. simpl.
  now rewrite orb_true_r.
Qed.

Lemma HasError_AddWarning ds s d : HasError (AddWarning ds s d) = HasError ds.
Proof.
  unfold HasError, AddWarning. rewrite existsb_app. simpl.
  now rewrite orb_false_r.
Qed.

(** * Package graphBetaConditionalAccessPolicy *)

Module graphBetaConditionalAccessPolicy.

(** ** Attribute models of the conditional access policy

    The Terraform-side structs, with the fields construct.go reads. Their
    declarations are not in the sources: the fields and their types are the
    ones construct.go uses, and the structs of the session controls, which it
    never names, are called after their fields. A field of pointer type is an
    [option]; a field of type [[]types.String] is a [slice]. *)

Record ConditionalAccessApplicationsModel : Type := {
  Apps_IncludeApplications : slice types.String;
  Apps_ExcludeApplications : slice types.String;
  Apps_IncludeUserActions : slice types.String
}.

Record ConditionalAccessExternalTenantsModel : Type := {
  Tenants_TenantIds : slice types.String
}.

Record ConditionalAccessGuestsOrExternalUsersModel : Type := {
  Guests_GuestOrExternalUserTypes : types.String;
  Guests_ExternalTenants : option ConditionalAccessExternalTenantsModel
}.

Record ConditionalAccessUsersModel : Type := {
  Users_IncludeUsers : slice types.String;
  Users_ExcludeUsers : slice types.String;
  Users_IncludeGroups : slice types.String;
  Users_ExcludeGroups : slice types.String;
  Users_IncludeRoles : slice types.String;
  Users_ExcludeRoles : slice types.String;
  Users_IncludeGuestsOrExternalUsers : option ConditionalAccessGuestsOrExternalUsersModel;
  Users_ExcludeGuestsOrExternalUsers : option ConditionalAccessGuestsOrExternalUsersModel
}.

Record ConditionalAccessClientApplicationsModel : Type := {
  ClientApps_IncludeServicePrincipals : slice types.String;
  ClientApps_ExcludeServicePrincipals : slice types.String
}.

Record AuthenticationStrengthPolicyModel : Type := {
  Strength_DisplayName : types.String;
  Strength_Description : types.String;
  Strength_PolicyType : types.String;
  Strength_RequirementsSatisfied : types.String;
  Strength_AllowedCombinations : slice types.String
}.

Record ConditionalAccessGrantControlsModel : Type := {
  Grant_Operator : types.String;
  Grant_BuiltInControls : slice types.String;
  Grant_CustomAuthenticationFactors : slice types.String;
  Grant_TermsOfUse : slice types.String;
  Grant_AuthenticationStrength : option AuthenticationStrengthPolicyModel
}.

Record ApplicationEnforcedRestrictionsModel : Type := {
  AppRestr_IsEnabled : types.Bool
}.

Record ContinuousAccessEvaluationModel : Type := {
  Cae_Mode : types.String
}.

Record PersistentBrowserModel : Type := {
  Pb_IsEnabled : types.Bool;
  Pb_Mode : types.String
}.

Record SignInFrequencyModel : Type := {
  Sif_IsEnabled : types.Bool;
  Sif_Type : types.String;
  Sif_Value : types.Int32;
  Sif_FrequencyInterval : types.String;
  Sif_AuthenticationType : types.String
}.

Record SecureSignInSessionModel : Type := {
  Secure_IsEnabled : types.Bool
}.

Record ConditionalAccessSessionControlsModel : Type := {
  Session_ApplicationEnforcedRestrictions : option ApplicationEnforcedRestrictionsModel;
  Session_ContinuousAccessEvaluation : option ContinuousAccessEvaluationModel;
  Session_PersistentBrowser : option PersistentBrowserModel;
  Session_SignInFrequency : option SignInFrequencyModel;
  Session_SecureSignInSession : option SecureSignInSessionModel;
  Session_DisableResilienceDefaults : types.Bool
}.
(** ** Graph SDK request models

    Each SDK model is a record of its backing fields, every one of them unset
    after [New...]. A projection plays the getter, a [_Set] function the
    setter. *)

Record ConditionalAccessApplications : Type := {
  apps_GetIncludeApplications : slice string;
  apps_GetExcludeApplications : slice string;
  apps_GetIncludeUserActions : slice string
}.

Definition NewConditionalAccessApplications : ConditionalAccessApplications :=
  {| apps_GetIncludeApplications := None; apps_GetExcludeApplications := None;
     apps_GetIncludeUserActions := None |}.

Definition apps_SetIncludeApplications (v : slice string)
  (m : ConditionalAccessApplications) : ConditionalAccessApplications :=
  {| apps_GetIncludeApplications := v; apps_GetExcludeApplications :=
     apps_GetExcludeApplications m; apps_GetIncludeUserActions :=
     apps_GetIncludeUserActions m |}.
Definition apps_SetExcludeApplications (v : slice string)
  (m : ConditionalAccessApplications) : ConditionalAccessApplications :=
  {| apps_GetIncludeApplications := apps_GetIncludeApplications m;
     apps_GetExcludeApplications := v; apps_GetIncludeUserActions :=
     apps_GetIncludeUserActions m |}.
Definition apps_SetIncludeUserActions (v : slice string)
  (m : ConditionalAccessApplications) : ConditionalAccessApplications :=
  {| apps_GetIncludeApplications := apps_GetIncludeApplications m;
     apps_GetExcludeApplications := apps_GetExcludeApplications m;
     apps_GetIncludeUserActions := v |}.

Record ConditionalAccessExternalTenants : Type := {
  tenants_GetTenantIds : slice string
}.

Definition NewConditionalAccessExternalTenants : ConditionalAccessExternalTenants :=
  {| tenants_GetTenantIds := None |}.

Definition tenants_SetTenantIds (v : slice string)
  (m : ConditionalAccessExternalTenants) : ConditionalAccessExternalTenants :=
  {| tenants_GetTenantIds := v |}.

Record ConditionalAccessGuestsOrExternalUsers : Type := {
  guests_GetGuestOrExternalUserTypes : option (models.enum models.ConditionalAccessGuestOrExternalUserTypes);
  guests_GetExternalTenants : option ConditionalAccessExternalTenants
}.

Definition NewConditionalAccessGuestsOrExternalUsers : ConditionalAccessGuestsOrExternalUsers :=
  {| guests_GetGuestOrExternalUserTypes := None; guests_GetExternalTenants :=
     None |}.

Definition guests_SetGuestOrExternalUserTypes (v : option (models.enum models.ConditionalAccessGuestOrExternalUserTypes))
  (m : ConditionalAccessGuestsOrExternalUsers) : ConditionalAccessGuestsOrExternalUsers :=
  {| guests_GetGuestOrExternalUserTypes := v; guests_GetExternalTenants :=
     guests_GetExternalTenants m |}.
Definition guests_SetExternalTenants (v : option ConditionalAccessExternalTenants)
  (m : ConditionalAccessGuestsOrExternalUsers) : ConditionalAccessGuestsOrExternalUsers :=
  {| guests_GetGuestOrExternalUserTypes := guests_GetGuestOrExternalUserTypes
     m; guests_GetExternalTenants := v |}.

Record ConditionalAccessUsers : Type := {
  users_GetIncludeUsers : slice string;
  users_GetExcludeUsers : slice string;
  users_GetIncludeGroups : slice string;
  users_GetExcludeGroups : slice string;
  users_GetIncludeRoles : slice string;
  users_GetExcludeRoles : slice string;
  users_GetIncludeGuestsOrExternalUsers : option ConditionalAccessGuestsOrExternalUsers;
  users_GetExcludeGuestsOrExternalUsers : option ConditionalAccessGuestsOrExternalUsers
}.

Definition NewConditionalAccessUsers : ConditionalAccessUsers :=
  {| users_GetIncludeUsers := None; users_GetExcludeUsers := None;
     users_GetIncludeGroups := None; users_GetExcludeGroups := None;
     users_GetIncludeRoles := None; users_GetExcludeRoles := None;
     users_GetIncludeGuestsOrExternalUsers := None;
     users_GetExcludeGuestsOrExternalUsers := None |}.

Definition users_SetIncludeUsers (v : slice string)
  (m : ConditionalAccessUsers) : ConditionalAccessUsers :=
  {| users_GetIncludeUsers := v; users_GetExcludeUsers :=
     users_GetExcludeUsers m; users_GetIncludeGroups := users_GetIncludeGroups
     m; users_GetExcludeGroups := users_GetExcludeGroups m;
     users_GetIncludeRoles := users_GetIncludeRoles m; users_GetExcludeRoles
     := users_GetExcludeRoles m; users_GetIncludeGuestsOrExternalUsers :=
     users_GetIncludeGuestsOrExternalUsers m;
     users_GetExcludeGuestsOrExternalUsers :=
     users_GetExcludeGuestsOrExternalUsers m |}.
Definition users_SetExcludeUsers (v : slice string)
  (m : ConditionalAccessUsers) : ConditionalAccessUsers :=
  {| users_GetIncludeUsers := users_GetIncludeUsers m; users_GetExcludeUsers
     := v; users_GetIncludeGroups := users_GetIncludeGroups m;
     users_GetExcludeGroups := users_GetExcludeGroups m; users_GetIncludeRoles
     := users_GetIncludeRoles m; users_GetExcludeRoles :=
     users_GetExcludeRoles m; users_GetIncludeGuestsOrExternalUsers :=
     users_GetIncludeGuestsOrExternalUsers m;
     users_GetExcludeGuestsOrExternalUsers :=
     users_GetExcludeGuestsOrExternalUsers m |}.
Definition users_SetIncludeGroups (v : slice string)
  (m : ConditionalAccessUsers) : ConditionalAccessUsers :=
  {| users_GetIncludeUsers := users_GetIncludeUsers m; users_GetExcludeUsers
     := users_GetExcludeUsers m; users_GetIncludeGroups := v;
     users_GetExcludeGroups := users_GetExcludeGroups m; users_GetIncludeRoles
     := users_GetIncludeRoles m; users_GetExcludeRoles :=
     users_GetExcludeRoles m; users_GetIncludeGuestsOrExternalUsers :=
     users_GetIncludeGuestsOrExternalUsers m;
     users_GetExcludeGuestsOrExternalUsers :=
     users_GetExcludeGuestsOrExternalUsers m |}.
Definition users_SetExcludeGroups (v : slice string)
  (m : ConditionalAccessUsers) : ConditionalAccessUsers :=
  {| users_GetIncludeUsers := users_GetIncludeUsers m; users_GetExcludeUsers
     := users_GetExcludeUsers m; users_GetIncludeGroups :=
     users_GetIncludeGroups m; users_GetExcludeGroups := v;
     users_GetIncludeRoles := users_GetIncludeRoles m; users_GetExcludeRoles
     := users_GetExcludeRoles m; users_GetIncludeGuestsOrExternalUsers :=
     users_GetIncludeGuestsOrExternalUsers m;
     users_GetExcludeGuestsOrExternalUsers :=
     users_GetExcludeGuestsOrExternalUsers m |}.
Definition users_SetIncludeRoles (v : slice string)
  (m : ConditionalAccessUsers) : ConditionalAccessUsers :=
  {| users_GetIncludeUsers := users_GetIncludeUsers m; users_GetExcludeUsers
     := users_GetExcludeUsers m; users_GetIncludeGroups :=
     users_GetIncludeGroups m; users_GetExcludeGroups :=
     users_GetExcludeGroups m; users_GetIncludeRoles := v;
     users_GetExcludeRoles := users_GetExcludeRoles m;
     users_GetIncludeGuestsOrExternalUsers :=
     users_GetIncludeGuestsOrExternalUsers m;
     users_GetExcludeGuestsOrExternalUsers :=
     users_GetExcludeGuestsOrExternalUsers m |}.
Definition users_SetExcludeRoles (v : slice string)
  (m : ConditionalAccessUsers) : ConditionalAccessUsers :=
  {| users_GetIncludeUsers := users_GetIncludeUsers m; users_GetExcludeUsers
     := users_GetExcludeUsers m; users_GetIncludeGroups :=
     users_GetIncludeGroups m; users_GetExcludeGroups :=
     users_GetExcludeGroups m; users_GetIncludeRoles := users_GetIncludeRoles
     m; users_GetExcludeRoles := v; users_GetIncludeGuestsOrExternalUsers :=
     users_GetIncludeGuestsOrExternalUsers m;
     users_GetExcludeGuestsOrExternalUsers :=
     users_GetExcludeGuestsOrExternalUsers m |}.
Definition users_SetIncludeGuestsOrExternalUsers (v : option ConditionalAccessGuestsOrExternalUsers)
  (m : ConditionalAccessUsers) : ConditionalAccessUsers :=
  {| users_GetIncludeUsers := users_GetIncludeUsers m; users_GetExcludeUsers
     := users_GetExcludeUsers m; users_GetIncludeGroups :=
     users_GetIncludeGroups m; users_GetExcludeGroups :=
     users_GetExcludeGroups m; users_GetIncludeRoles := users_GetIncludeRoles
     m; users_GetExcludeRoles := users_GetExcludeRoles m;
     users_GetIncludeGuestsOrExternalUsers := v;
     users_GetExcludeGuestsOrExternalUsers :=
     users_GetExcludeGuestsOrExternalUsers m |}.
Definition users_SetExcludeGuestsOrExternalUsers (v : option ConditionalAccessGuestsOrExternalUsers)
  (m : ConditionalAccessUsers) : ConditionalAccessUsers :=
  {| users_GetIncludeUsers := users_GetIncludeUsers m; users_GetExcludeUsers
     := users_GetExcludeUsers m; users_GetIncludeGroups :=
     users_GetIncludeGroups m; users_GetExcludeGroups :=
     users_GetExcludeGroups m; users_GetIncludeRoles := users_GetIncludeRoles
     m; users_GetExcludeRoles := users_GetExcludeRoles m;
     users_GetIncludeGuestsOrExternalUsers :=
     users_GetIncludeGuestsOrExternalUsers m;
     users_GetExcludeGuestsOrExternalUsers := v |}.

Record ConditionalAccessClientApplications : Type := {
  clientApps_GetIncludeServicePrincipals : slice string;
  clientApps_GetExcludeServicePrincipals : slice string
}.

Definition NewConditionalAccessClientApplications : ConditionalAccessClientApplications :=
  {| clientApps_GetIncludeServicePrincipals := None;
     clientApps_GetExcludeServicePrincipals := None |}.

Definition clientApps_SetIncludeServicePrincipals (v : slice string)
  (m : ConditionalAccessClientApplications) : ConditionalAccessClientApplications :=
  {| clientApps_GetIncludeServicePrincipals := v;
     clientApps_GetExcludeServicePrincipals :=
     clientApps_GetExcludeServicePrincipals m |}.
Definition clientApps_SetExcludeServicePrincipals (v : slice string)
  (m : ConditionalAccessClientApplications) : ConditionalAccessClientApplications :=
  {| clientApps_GetIncludeServicePrincipals :=
     clientApps_GetIncludeServicePrincipals m;
     clientApps_GetExcludeServicePrincipals := v |}.

Record AuthenticationStrengthPolicy : Type := {
  strength_GetDisplayName : option string;
  strength_GetDescription : option string;
  strength_GetPolicyType : option string;
  strength_GetRequirementsSatisfied : option string;
  strength_GetAllowedCombinations : slice string
}.

Definition NewAuthenticationStrengthPolicy : AuthenticationStrengthPolicy :=
  {| strength_GetDisplayName := None; strength_GetDescription := None;
     strength_GetPolicyType := None; strength_GetRequirementsSatisfied :=
     None; strength_GetAllowedCombinations := None |}.

Definition strength_SetDisplayName (v : option string)
  (m : AuthenticationStrengthPolicy) : AuthenticationStrengthPolicy :=
  {| strength_GetDisplayName := v; strength_GetDescription :=
     strength_GetDescription m; strength_GetPolicyType :=
     strength_GetPolicyType m; strength_GetRequirementsSatisfied :=
     strength_GetRequirementsSatisfied m; strength_GetAllowedCombinations :=
     strength_GetAllowedCombinations m |}.
Definition strength_SetDescription (v : option string)
  (m : AuthenticationStrengthPolicy) : AuthenticationStrengthPolicy :=
  {| strength_GetDisplayName := strength_GetDisplayName m;
     strength_GetDescription := v; strength_GetPolicyType :=
     strength_GetPolicyType m; strength_GetRequirementsSatisfied :=
     strength_GetRequirementsSatisfied m; strength_GetAllowedCombinations :=
     strength_GetAllowedCombinations m |}.
Definition strength_SetPolicyType (v : option string)
  (m : AuthenticationStrengthPolicy) : AuthenticationStrengthPolicy :=
  {| strength_GetDisplayName := strength_GetDisplayName m;
     strength_GetDescription := strength_GetDescription m;
     strength_GetPolicyType := v; strength_GetRequirementsSatisfied :=
     strength_GetRequirementsSatisfied m; strength_GetAllowedCombinations :=
     strength_GetAllowedCombinations m |}.
Definition strength_SetRequirementsSatisfied (v : option string)
  (m : AuthenticationStrengthPolicy) : AuthenticationStrengthPolicy :=
  {| strength_GetDisplayName := strength_GetDisplayName m;
     strength_GetDescription := strength_GetDescription m;
     strength_GetPolicyType := strength_GetPolicyType m;
     strength_GetRequirementsSatisfied := v; strength_GetAllowedCombinations
     := strength_GetAllowedCombinations m |}.
Definition strength_SetAllowedCombinations (v : slice string)
  (m : AuthenticationStrengthPolicy) : AuthenticationStrengthPolicy :=
  {| strength_GetDisplayName := strength_GetDisplayName m;
     strength_GetDescription := strength_GetDescription m;
     strength_GetPolicyType := strength_GetPolicyType m;
     strength_GetRequirementsSatisfied := strength_GetRequirementsSatisfied m;
     strength_GetAllowedCombinations := v |}.

Record ConditionalAccessGrantControls : Type := {
  grant_GetOperator : option (models.enum models.ConditionalAccessGrantControlOperator);
  grant_GetBuiltInControls : slice (models.enum models.ConditionalAccessGrantControl);
  grant_GetCustomAuthenticationFactors : slice string;
  grant_GetTermsOfUse : slice string;
  grant_GetAuthenticationStrength : option AuthenticationStrengthPolicy
}.

Definition NewConditionalAccessGrantControls : ConditionalAccessGrantControls :=
  {| grant_GetOperator := None; grant_GetBuiltInControls := None;
     grant_GetCustomAuthenticationFactors := None; grant_GetTermsOfUse :=
     None; grant_GetAuthenticationStrength := None |}.

Definition grant_SetOperator (v : option (models.enum models.ConditionalAccessGrantControlOperator))
  (m : ConditionalAccessGrantControls) : ConditionalAccessGrantControls :=
  {| grant_GetOperator := v; grant_GetBuiltInControls :=
     grant_GetBuiltInControls m; grant_GetCustomAuthenticationFactors :=
     grant_GetCustomAuthenticationFactors m; grant_GetTermsOfUse :=
     grant_GetTermsOfUse m; grant_GetAuthenticationStrength :=
     grant_GetAuthenticationStrength m |}.
Definition grant_SetBuiltInControls (v : slice (models.enum models.ConditionalAccessGrantControl))
  (m : ConditionalAccessGrantControls) : ConditionalAccessGrantControls :=
  {| grant_GetOperator := grant_GetOperator m; grant_GetBuiltInControls := v;
     grant_GetCustomAuthenticationFactors :=
     grant_GetCustomAuthenticationFactors m; grant_GetTermsOfUse :=
     grant_GetTermsOfUse m; grant_GetAuthenticationStrength :=
     grant_GetAuthenticationStrength m |}.
Definition grant_SetCustomAuthenticationFactors (v : slice string)
  (m : ConditionalAccessGrantControls) : ConditionalAccessGrantControls :=
  {| grant_GetOperator := grant_GetOperator m; grant_GetBuiltInControls :=
     grant_GetBuiltInControls m; grant_GetCustomAuthenticationFactors := v;
     grant_GetTermsOfUse := grant_GetTermsOfUse m;
     grant_GetAuthenticationStrength := grant_GetAuthenticationStrength m |}.
Definition grant_SetTermsOfUse (v : slice string)
  (m : ConditionalAccessGrantControls) : ConditionalAccessGrantControls :=
  {| grant_GetOperator := grant_GetOperator m; grant_GetBuiltInControls :=
     grant_GetBuiltInControls m; grant_GetCustomAuthenticationFactors :=
     grant_GetCustomAuthenticationFactors m; grant_GetTermsOfUse := v;
     grant_GetAuthenticationStrength := grant_GetAuthenticationStrength m |}.
Definition grant_SetAuthenticationStrength (v : option AuthenticationStrengthPolicy)
  (m : ConditionalAccessGrantControls) : ConditionalAccessGrantControls :=
  {| grant_GetOperator := grant_GetOperator m; grant_GetBuiltInControls :=
     grant_GetBuiltInControls m; grant_GetCustomAuthenticationFactors :=
     grant_GetCustomAuthenticationFactors m; grant_GetTermsOfUse :=
     grant_GetTermsOfUse m; grant_GetAuthenticationStrength := v |}.

Record ApplicationEnforcedRestrictionsSessionControl : Type := {
  appRestr_GetIsEnabled : option bool
}.

Definition NewApplicationEnforcedRestrictionsSessionControl : ApplicationEnforcedRestrictionsSessionControl :=
  {| appRestr_GetIsEnabled := None |}.

Definition appRestr_SetIsEnabled (v : option bool)
  (m : ApplicationEnforcedRestrictionsSessionControl) : ApplicationEnforcedRestrictionsSessionControl :=
  {| appRestr_GetIsEnabled := v |}.

Record ContinuousAccessEvaluationSessionControl : Type := {
  cae_GetMode : option (models.enum models.ContinuousAccessEvaluationMode)
}.

Definition NewContinuousAccessEvaluationSessionControl : ContinuousAccessEvaluationSessionControl :=
  {| cae_GetMode := None |}.

Definition cae_SetMode (v : option (models.enum models.ContinuousAccessEvaluationMode))
  (m : ContinuousAccessEvaluationSessionControl) : ContinuousAccessEvaluationSessionControl :=
  {| cae_GetMode := v |}.

Record PersistentBrowserSessionControl : Type := {
  pb_GetIsEnabled : option bool;
  pb_GetMode : option (models.enum models.PersistentBrowserSessionMode)
}.

Definition NewPersistentBrowserSessionControl : PersistentBrowserSessionControl :=
  {| pb_GetIsEnabled := None; pb_GetMode := None |}.

Definition pb_SetIsEnabled (v : option bool)
  (m : PersistentBrowserSessionControl) : PersistentBrowserSessionControl :=
  {| pb_GetIsEnabled := v; pb_GetMode := pb_GetMode m |}.
Definition pb_SetMode (v : option (models.enum models.PersistentBrowserSessionMode))
  (m : PersistentBrowserSessionControl) : PersistentBrowserSessionControl :=
  {| pb_GetIsEnabled := pb_GetIsEnabled m; pb_GetMode := v |}.

Record SignInFrequencySessionControl : Type := {
  sif_GetIsEnabled : option bool;
  sif_GetTypeEscaped : option (models.enum models.SigninFrequencyType);
  sif_GetValue : option Z;
  sif_GetFrequencyInterval : option (models.enum models.SignInFrequencyInterval);
  sif_GetAuthenticationType : option (models.enum models.SignInFrequencyAuthenticationType)
}.

Definition NewSignInFrequencySessionControl : SignInFrequencySessionControl :=
  {| sif_GetIsEnabled := None; sif_GetTypeEscaped := None; sif_GetValue :=
     None; sif_GetFrequencyInterval := None; sif_GetAuthenticationType := None
     |}.

Definition sif_SetIsEnabled (v : option bool)
  (m : SignInFrequencySessionControl) : SignInFrequencySessionControl :=
  {| sif_GetIsEnabled := v; sif_GetTypeEscaped := sif_GetTypeEscaped m;
     sif_GetValue := sif_GetValue m; sif_GetFrequencyInterval :=
     sif_GetFrequencyInterval m; sif_GetAuthenticationType :=
     sif_GetAuthenticationType m |}.
Definition sif_SetTypeEscaped (v : option (models.enum models.SigninFrequencyType))
  (m : SignInFrequencySessionControl) : SignInFrequencySessionControl :=
  {| sif_GetIsEnabled := sif_GetIsEnabled m; sif_GetTypeEscaped := v;
     sif_GetValue := sif_GetValue m; sif_GetFrequencyInterval :=
     sif_GetFrequencyInterval m; sif_GetAuthenticationType :=
     sif_GetAuthenticationType m |}.
Definition sif_SetValue (v : option Z)
  (m : SignInFrequencySessionControl) : SignInFrequencySessionControl :=
  {| sif_GetIsEnabled := sif_GetIsEnabled m; sif_GetTypeEscaped :=
     sif_GetTypeEscaped m; sif_GetValue := v; sif_GetFrequencyInterval :=
     sif_GetFrequencyInterval m; sif_GetAuthenticationType :=
     sif_GetAuthenticationType m |}.
Definition sif_SetFrequencyInterval (v : option (models.enum models.SignInFrequencyInterval))
  (m : SignInFrequencySessionControl) : SignInFrequencySessionControl :=
  {| sif_GetIsEnabled := sif_GetIsEnabled m; sif_GetTypeEscaped :=
     sif_GetTypeEscaped m; sif_GetValue := sif_GetValue m;
     sif_GetFrequencyInterval := v; sif_GetAuthenticationType :=
     sif_GetAuthenticationType m |}.
Definition sif_SetAuthenticationType (v : option (models.enum models.SignInFrequencyAuthenticationType))
  (m : SignInFrequencySessionControl) : SignInFrequencySessionControl :=
  {| sif_GetIsEnabled := sif_GetIsEnabled m; sif_GetTypeEscaped :=
     sif_GetTypeEscaped m; sif_GetValue := sif_GetValue m;
     sif_GetFrequencyInterval := sif_GetFrequencyInterval m;
     sif_GetAuthenticationType := v |}.

Record SecureSignInSessionControl : Type := {
  secure_GetIsEnabled : option bool
}.

Definition NewSecureSignInSessionControl : SecureSignInSessionControl :=
  {| secure_GetIsEnabled := None |}.

Definition secure_SetIsEnabled (v : option bool)
  (m : SecureSignInSessionControl) : SecureSignInSessionControl :=
  {| secure_GetIsEnabled := v |}.

Record ConditionalAccessSessionControls : Type := {
  session_GetApplicationEnforcedRestrictions : option ApplicationEnforcedRestrictionsSessionControl;
  session_GetContinuousAccessEvaluation : option ContinuousAccessEvaluationSessionControl;
  session_GetPersistentBrowser : option PersistentBrowserSessionControl;
  session_GetSignInFrequency : option SignInFrequencySessionControl;
  session_GetSecureSignInSession : option SecureSignInSessionControl;
  session_GetDisableResilienceDefaults : option bool
}.

Definition NewConditionalAccessSessionControls : ConditionalAccessSessionControls :=
  {| session_GetApplicationEnforcedRestrictions := None;
     session_GetContinuousAccessEvaluation := None;
     session_GetPersistentBrowser := None; session_GetSignInFrequency := None;
     session_GetSecureSignInSession := None;
     session_GetDisableResilienceDefaults := None |}.

Definition session_SetApplicationEnforcedRestrictions (v : option ApplicationEnforcedRestrictionsSessionControl)
  (m : ConditionalAccessSessionControls) : ConditionalAccessSessionControls :=
  {| session_GetApplicationEnforcedRestrictions := v;
     session_GetContinuousAccessEvaluation :=
     session_GetContinuousAccessEvaluation m; session_GetPersistentBrowser :=
     session_GetPersistentBrowser m; session_GetSignInFrequency :=
     session_GetSignInFrequency m; session_GetSecureSignInSession :=
     session_GetSecureSignInSession m; session_GetDisableResilienceDefaults :=
     session_GetDisableResilienceDefaults m |}.
Definition session_SetContinuousAccessEvaluation (v : option ContinuousAccessEvaluationSessionControl)
  (m : ConditionalAccessSessionControls) : ConditionalAccessSessionControls :=
  {| session_GetApplicationEnforcedRestrictions :=
     session_GetApplicationEnforcedRestrictions m;
     session_GetContinuousAccessEvaluation := v; session_GetPersistentBrowser
     := session_GetPersistentBrowser m; session_GetSignInFrequency :=
     session_GetSignInFrequency m; session_GetSecureSignInSession :=
     session_GetSecureSignInSession m; session_GetDisableResilienceDefaults :=
     session_GetDisableResilienceDefaults m |}.
Definition session_SetPersistentBrowser (v : option PersistentBrowserSessionControl)
  (m : ConditionalAccessSessionControls) : ConditionalAccessSessionControls :=
  {| session_GetApplicationEnforcedRestrictions :=
     session_GetApplicationEnforcedRestrictions m;
     session_GetContinuousAccessEvaluation :=
     session_GetContinuousAccessEvaluation m; session_GetPersistentBrowser :=
     v; session_GetSignInFrequency := session_GetSignInFrequency m;
     session_GetSecureSignInSession := session_GetSecureSignInSession m;
     session_GetDisableResilienceDefaults :=
     session_GetDisableResilienceDefaults m |}.
Definition session_SetSignInFrequency (v : option SignInFrequencySessionControl)
  (m : ConditionalAccessSessionControls) : ConditionalAccessSessionControls :=
  {| session_GetApplicationEnforcedRestrictions :=
     session_GetApplicationEnforcedRestrictions m;
     session_GetContinuousAccessEvaluation :=
     session_GetContinuousAccessEvaluation m; session_GetPersistentBrowser :=
     session_GetPersistentBrowser m; session_GetSignInFrequency := v;
     session_GetSecureSignInSession := session_GetSecureSignInSession m;
     session_GetDisableResilienceDefaults :=
     session_GetDisableResilienceDefaults m |}.
Definition session_SetSecureSignInSession (v : option SecureSignInSessionControl)
  (m : ConditionalAccessSessionControls) : ConditionalAccessSessionControls :=
  {| session_GetApplicationEnforcedRestrictions :=
     session_GetApplicationEnforcedRestrictions m;
     session_GetContinuousAccessEvaluation :=
     session_GetContinuousAccessEvaluation m; session_GetPersistentBrowser :=
     session_GetPersistentBrowser m; session_GetSignInFrequency :=
     session_GetSignInFrequency m; session_GetSecureSignInSession := v;
     session_GetDisableResilienceDefaults :=
     session_GetDisableResilienceDefaults m |}.
Definition session_SetDisableResilienceDefaults (v : option bool)
  (m : ConditionalAccessSessionControls) : ConditionalAccessSessionControls :=
  {| session_GetApplicationEnforcedRestrictions :=
     session_GetApplicationEnforcedRestrictions m;
     session_GetContinuousAccessEvaluation :=
     session_GetContinuousAccessEvaluation m; session_GetPersistentBrowser :=
     session_GetPersistentBrowser m; session_GetSignInFrequency :=
     session_GetSignInFrequency m; session_GetSecureSignInSession :=
     session_GetSecureSignInSession m; session_GetDisableResilienceDefaults :=
     v |}.
Section ConditionalAccessPolicy.

(** The attribute models and the SDK models of the nested objects of
    [Nested], which construct.go uses without defining them. *)
Variable NestedModel : Nested -> Type.
Variable Nestedable : Nested -> Type.

Record ConditionalAccessConditionsModel : Type := {
  Cond_Applications : option ConditionalAccessApplicationsModel;
  Cond_AuthenticationFlows : option (NestedModel AuthenticationFlows);
  Cond_ClientApplications : option ConditionalAccessClientApplicationsModel;
  Cond_ClientAppTypes : slice types.String;
  Cond_Devices : option (NestedModel Devices);
  Cond_DeviceStates : option (NestedModel DeviceStates);
  Cond_InsiderRiskLevels : types.String;
  Cond_Locations : option (NestedModel Locations);
  Cond_Platforms : option (NestedModel Platforms);
  Cond_ServicePrincipalRiskLevels : slice types.String;
  Cond_SignInRiskLevels : slice types.String;
  Cond_UserRiskLevels : slice types.String;
  Cond_Users : option ConditionalAccessUsersModel
}.

Record ConditionalAccessPolicyResourceModel : Type := {
  Policy_DisplayName : types.String;
  Policy_Description : types.String;
  Policy_State : types.String;
  Policy_Conditions : option ConditionalAccessConditionsModel;
  Policy_GrantControls : option ConditionalAccessGrantControlsModel;
  Policy_SessionControls : option ConditionalAccessSessionControlsModel
}.
Record ConditionalAccessConditionSet : Type := {
  cond_GetApplications : option ConditionalAccessApplications;
  cond_GetAuthenticationFlows : option (Nestedable AuthenticationFlows);
  cond_GetClientApplications : option ConditionalAccessClientApplications;
  cond_GetClientAppTypes : slice (models.enum models.ConditionalAccessClientApp);
  cond_GetDevices : option (Nestedable Devices);
  cond_GetDeviceStates : option (Nestedable DeviceStates);
  cond_GetInsiderRiskLevels : option (models.enum models.ConditionalAccessInsiderRiskLevels);
  cond_GetLocations : option (Nestedable Locations);
  cond_GetPlatforms : option (Nestedable Platforms);
  cond_GetServicePrincipalRiskLevels : slice (models.enum models.RiskLevel);
  cond_GetSignInRiskLevels : slice (models.enum models.RiskLevel);
  cond_GetUserRiskLevels : slice (models.enum models.RiskLevel);
  cond_GetUsers : option ConditionalAccessUsers
}.

Definition NewConditionalAccessConditionSet : ConditionalAccessConditionSet :=
  {| cond_GetApplications := None; cond_GetAuthenticationFlows := None;
     cond_GetClientApplications := None; cond_GetClientAppTypes := None;
     cond_GetDevices := None; cond_GetDeviceStates := None;
     cond_GetInsiderRiskLevels := None; cond_GetLocations := None;
     cond_GetPlatforms := None; cond_GetServicePrincipalRiskLevels := None;
     cond_GetSignInRiskLevels := None; cond_GetUserRiskLevels := None;
     cond_GetUsers := None |}.

Definition cond_SetApplications (v : option ConditionalAccessApplications)
  (m : ConditionalAccessConditionSet) : ConditionalAccessConditionSet :=
  {| cond_GetApplications := v; cond_GetAuthenticationFlows :=
     cond_GetAuthenticationFlows m; cond_GetClientApplications :=
     cond_GetClientApplications m; cond_GetClientAppTypes :=
     cond_GetClientAppTypes m; cond_GetDevices := cond_GetDevices m;
     cond_GetDeviceStates := cond_GetDeviceStates m; cond_GetInsiderRiskLevels
     := cond_GetInsiderRiskLevels m; cond_GetLocations := cond_GetLocations m;
     cond_GetPlatforms := cond_GetPlatforms m;
     cond_GetServicePrincipalRiskLevels := cond_GetServicePrincipalRiskLevels
     m; cond_GetSignInRiskLevels := cond_GetSignInRiskLevels m;
     cond_GetUserRiskLevels := cond_GetUserRiskLevels m; cond_GetUsers :=
     cond_GetUsers m |}.
Definition cond_SetAuthenticationFlows (v : option (Nestedable AuthenticationFlows))
  (m : ConditionalAccessConditionSet) : ConditionalAccessConditionSet :=
  {| cond_GetApplications := cond_GetApplications m;
     cond_GetAuthenticationFlows := v; cond_GetClientApplications :=
     cond_GetClientApplications m; cond_GetClientAppTypes :=
     cond_GetClientAppTypes m; cond_GetDevices := cond_GetDevices m;
     cond_GetDeviceStates := cond_GetDeviceStates m; cond_GetInsiderRiskLevels
     := cond_GetInsiderRiskLevels m; cond_GetLocations := cond_GetLocations m;
     cond_GetPlatforms := cond_GetPlatforms m;
     cond_GetServicePrincipalRiskLevels := cond_GetServicePrincipalRiskLevels
     m; cond_GetSignInRiskLevels := cond_GetSignInRiskLevels m;
     cond_GetUserRiskLevels := cond_GetUserRiskLevels m; cond_GetUsers :=
     cond_GetUsers m |}.
Definition cond_SetClientApplications (v : option ConditionalAccessClientApplications)
  (m : ConditionalAccessConditionSet) : ConditionalAccessConditionSet :=
  {| cond_GetApplications := cond_GetApplications m;
     cond_GetAuthenticationFlows := cond_GetAuthenticationFlows m;
     cond_GetClientApplications := v; cond_GetClientAppTypes :=
     cond_GetClientAppTypes m; cond_GetDevices := cond_GetDevices m;
     cond_GetDeviceStates := cond_GetDeviceStates m; cond_GetInsiderRiskLevels
     := cond_GetInsiderRiskLevels m; cond_GetLocations := cond_GetLocations m;
     cond_GetPlatforms := cond_GetPlatforms m;
     cond_GetServicePrincipalRiskLevels := cond_GetServicePrincipalRiskLevels
     m; cond_GetSignInRiskLevels := cond_GetSignInRiskLevels m;
     cond_GetUserRiskLevels := cond_GetUserRiskLevels m; cond_GetUsers :=
     cond_GetUsers m |}.
Definition cond_SetClientAppTypes (v : slice (models.enum models.ConditionalAccessClientApp))
  (m : ConditionalAccessConditionSet) : ConditionalAccessConditionSet :=
  {| cond_GetApplications := cond_GetApplications m;
     cond_GetAuthenticationFlows := cond_GetAuthenticationFlows m;
     cond_GetClientApplications := cond_GetClientApplications m;
     cond_GetClientAppTypes := v; cond_GetDevices := cond_GetDevices m;
     cond_GetDeviceStates := cond_GetDeviceStates m; cond_GetInsiderRiskLevels
     := cond_GetInsiderRiskLevels m; cond_GetLocations := cond_GetLocations m;
     cond_GetPlatforms := cond_GetPlatforms m;
     cond_GetServicePrincipalRiskLevels := cond_GetServicePrincipalRiskLevels
     m; cond_GetSignInRiskLevels := cond_GetSignInRiskLevels m;
     cond_GetUserRiskLevels := cond_GetUserRiskLevels m; cond_GetUsers :=
     cond_GetUsers m |}.
Definition cond_SetDevices (v : option (Nestedable Devices))
  (m : ConditionalAccessConditionSet) : ConditionalAccessConditionSet :=
  {| cond_GetApplications := cond_GetApplications m;
     cond_GetAuthenticationFlows := cond_GetAuthenticationFlows m;
     cond_GetClientApplications := cond_GetClientApplications m;
     cond_GetClientAppTypes := cond_GetClientAppTypes m; cond_GetDevices := v;
     cond_GetDeviceStates := cond_GetDeviceStates m; cond_GetInsiderRiskLevels
     := cond_GetInsiderRiskLevels m; cond_GetLocations := cond_GetLocations m;
     cond_GetPlatforms := cond_GetPlatforms m;
     cond_GetServicePrincipalRiskLevels := cond_GetServicePrincipalRiskLevels
     m; cond_GetSignInRiskLevels := cond_GetSignInRiskLevels m;
     cond_GetUserRiskLevels := cond_GetUserRiskLevels m; cond_GetUsers :=
     cond_GetUsers m |}.
Definition cond_SetDeviceStates (v : option (Nestedable DeviceStates))
  (m : ConditionalAccessConditionSet) : ConditionalAccessConditionSet :=
  {| cond_GetApplications := cond_GetApplications m;
     cond_GetAuthenticationFlows := cond_GetAuthenticationFlows m;
     cond_GetClientApplications := cond_GetClientApplications m;
     cond_GetClientAppTypes := cond_GetClientAppTypes m; cond_GetDevices :=
     cond_GetDevices m; cond_GetDeviceStates := v; cond_GetInsiderRiskLevels
     := cond_GetInsiderRiskLevels m; cond_GetLocations := cond_GetLocations m;
     cond_GetPlatforms := cond_GetPlatforms m;
     cond_GetServicePrincipalRiskLevels := cond_GetServicePrincipalRiskLevels
     m; cond_GetSignInRiskLevels := cond_GetSignInRiskLevels m;
     cond_GetUserRiskLevels := cond_GetUserRiskLevels m; cond_GetUsers :=
     cond_GetUsers m |}.
Definition cond_SetInsiderRiskLevels (v : option (models.enum models.ConditionalAccessInsiderRiskLevels))
  (m : ConditionalAccessConditionSet) : ConditionalAccessConditionSet :=
  {| cond_GetApplications := cond_GetApplications m;
     cond_GetAuthenticationFlows := cond_GetAuthenticationFlows m;
     cond_GetClientApplications := cond_GetClientApplications m;
     cond_GetClientAppTypes := cond_GetClientAppTypes m; cond_GetDevices :=
     cond_GetDevices m; cond_GetDeviceStates := cond_GetDeviceStates m;
     cond_GetInsiderRiskLevels := v; cond_GetLocations := cond_GetLocations m;
     cond_GetPlatforms := cond_GetPlatforms m;
     cond_GetServicePrincipalRiskLevels := cond_GetServicePrincipalRiskLevels
     m; cond_GetSignInRiskLevels := cond_GetSignInRiskLevels m;
     cond_GetUserRiskLevels := cond_GetUserRiskLevels m; cond_GetUsers :=
     cond_GetUsers m |}.
Definition cond_SetLocations (v : option (Nestedable Locations))
  (m : ConditionalAccessConditionSet) : ConditionalAccessConditionSet :=
  {| cond_GetApplications := cond_GetApplications m;
     cond_GetAuthenticationFlows := cond_GetAuthenticationFlows m;
     cond_GetClientApplications := cond_GetClientApplications m;
     cond_GetClientAppTypes := cond_GetClientAppTypes m; cond_GetDevices :=
     cond_GetDevices m; cond_GetDeviceStates := cond_GetDeviceStates m;
     cond_GetInsiderRiskLevels := cond_GetInsiderRiskLevels m;
     cond_GetLocations := v; cond_GetPlatforms := cond_GetPlatforms m;
     cond_GetServicePrincipalRiskLevels := cond_GetServicePrincipalRiskLevels
     m; cond_GetSignInRiskLevels := cond_GetSignInRiskLevels m;
     cond_GetUserRiskLevels := cond_GetUserRiskLevels m; cond_GetUsers :=
     cond_GetUsers m |}.
Definition cond_SetPlatforms (v : option (Nestedable Platforms))
  (m : ConditionalAccessConditionSet) : ConditionalAccessConditionSet :=
  {| cond_GetApplications := cond_GetApplications m;
     cond_GetAuthenticationFlows := cond_GetAuthenticationFlows m;
     cond_GetClientApplications := cond_GetClientApplications m;
     cond_GetClientAppTypes := cond_GetClientAppTypes m; cond_GetDevices :=
     cond_GetDevices m; cond_GetDeviceStates := cond_GetDeviceStates m;
     cond_GetInsiderRiskLevels := cond_GetInsiderRiskLevels m;
     cond_GetLocations := cond_GetLocations m; cond_GetPlatforms := v;
     cond_GetServicePrincipalRiskLevels := cond_GetServicePrincipalRiskLevels
     m; cond_GetSignInRiskLevels := cond_GetSignInRiskLevels m;
     cond_GetUserRiskLevels := cond_GetUserRiskLevels m; cond_GetUsers :=
     cond_GetUsers m |}.
Definition cond_SetServicePrincipalRiskLevels (v : slice (models.enum models.RiskLevel))
  (m : ConditionalAccessConditionSet) : ConditionalAccessConditionSet :=
  {| cond_GetApplications := cond_GetApplications m;
     cond_GetAuthenticationFlows := cond_GetAuthenticationFlows m;
     cond_GetClientApplications := cond_GetClientApplications m;
     cond_GetClientAppTypes := cond_GetClientAppTypes m; cond_GetDevices :=
     cond_GetDevices m; cond_GetDeviceStates := cond_GetDeviceStates m;
     cond_GetInsiderRiskLevels := cond_GetInsiderRiskLevels m;
     cond_GetLocations := cond_GetLocations m; cond_GetPlatforms :=
     cond_GetPlatforms m; cond_GetServicePrincipalRiskLevels := v;
     cond_GetSignInRiskLevels := cond_GetSignInRiskLevels m;
     cond_GetUserRiskLevels := cond_GetUserRiskLevels m; cond_GetUsers :=
     cond_GetUsers m |}.
Definition cond_SetSignInRiskLevels (v : slice (models.enum models.RiskLevel))
  (m : ConditionalAccessConditionSet) : ConditionalAccessConditionSet :=
  {| cond_GetApplications := cond_GetApplications m;
     cond_GetAuthenticationFlows := cond_GetAuthenticationFlows m;
     cond_GetClientApplications := cond_GetClientApplications m;
     cond_GetClientAppTypes := cond_GetClientAppTypes m; cond_GetDevices :=
     cond_GetDevices m; cond_GetDeviceStates := cond_GetDeviceStates m;
     cond_GetInsiderRiskLevels := cond_GetInsiderRiskLevels m;
     cond_GetLocations := cond_GetLocations m; cond_GetPlatforms :=
     cond_GetPlatforms m; cond_GetServicePrincipalRiskLevels :=
     cond_GetServicePrincipalRiskLevels m; cond_GetSignInRiskLevels := v;
     cond_GetUserRiskLevels := cond_GetUserRiskLevels m; cond_GetUsers :=
     cond_GetUsers m |}.
Definition cond_SetUserRiskLevels (v : slice (models.enum models.RiskLevel))
  (m : ConditionalAccessConditionSet) : ConditionalAccessConditionSet :=
  {| cond_GetApplications := cond_GetApplications m;
     cond_GetAuthenticationFlows := cond_GetAuthenticationFlows m;
     cond_GetClientApplications := cond_GetClientApplications m;
     cond_GetClientAppTypes := cond_GetClientAppTypes m; cond_GetDevices :=
     cond_GetDevices m; cond_GetDeviceStates := cond_GetDeviceStates m;
     cond_GetInsiderRiskLevels := cond_GetInsiderRiskLevels m;
     cond_GetLocations := cond_GetLocations m; cond_GetPlatforms :=
     cond_GetPlatforms m; cond_GetServicePrincipalRiskLevels :=
     cond_GetServicePrincipalRiskLevels m; cond_GetSignInRiskLevels :=
     cond_GetSignInRiskLevels m; cond_GetUserRiskLevels := v; cond_GetUsers :=
     cond_GetUsers m |}.
Definition cond_SetUsers (v : option ConditionalAccessUsers)
  (m : ConditionalAccessConditionSet) : ConditionalAccessConditionSet :=
  {| cond_GetApplications := cond_GetApplications m;
     cond_GetAuthenticationFlows := cond_GetAuthenticationFlows m;
     cond_GetClientApplications := cond_GetClientApplications m;
     cond_GetClientAppTypes := cond_GetClientAppTypes m; cond_GetDevices :=
     cond_GetDevices m; cond_GetDeviceStates := cond_GetDeviceStates m;
     cond_GetInsiderRiskLevels := cond_GetInsiderRiskLevels m;
     cond_GetLocations := cond_GetLocations m; cond_GetPlatforms :=
     cond_GetPlatforms m; cond_GetServicePrincipalRiskLevels :=
     cond_GetServicePrincipalRiskLevels m; cond_GetSignInRiskLevels :=
     cond_GetSignInRiskLevels m; cond_GetUserRiskLevels :=
     cond_GetUserRiskLevels m; cond_GetUsers := v |}.

Record ConditionalAccessPolicy : Type := {
  cap_GetDisplayName : option string;
  cap_GetDescription : option string;
  cap_GetState : option (models.enum models.ConditionalAccessPolicyState);
  cap_GetConditions : option ConditionalAccessConditionSet;
  cap_GetGrantControls : option ConditionalAccessGrantControls;
  cap_GetSessionControls : option ConditionalAccessSessionControls
}.

Definition NewConditionalAccessPolicy : ConditionalAccessPolicy :=
  {| cap_GetDisplayName := None; cap_GetDescription := None; cap_GetState :=
     None; cap_GetConditions := None; cap_GetGrantControls := None;
     cap_GetSessionControls := None |}.

Definition cap_SetDisplayName (v : option string)
  (m : ConditionalAccessPolicy) : ConditionalAccessPolicy :=
  {| cap_GetDisplayName := v; cap_GetDescription := cap_GetDescription m;
     cap_GetState := cap_GetState m; cap_GetConditions := cap_GetConditions m;
     cap_GetGrantControls := cap_GetGrantControls m; cap_GetSessionControls :=
     cap_GetSessionControls m |}.
Definition cap_SetDescription (v : option string)
  (m : ConditionalAccessPolicy) : ConditionalAccessPolicy :=
  {| cap_GetDisplayName := cap_GetDisplayName m; cap_GetDescription := v;
     cap_GetState := cap_GetState m; cap_GetConditions := cap_GetConditions m;
     cap_GetGrantControls := cap_GetGrantControls m; cap_GetSessionControls :=
     cap_GetSessionControls m |}.
Definition cap_SetState (v : option (models.enum models.ConditionalAccessPolicyState))
  (m : ConditionalAccessPolicy) : ConditionalAccessPolicy :=
  {| cap_GetDisplayName := cap_GetDisplayName m; cap_GetDescription :=
     cap_GetDescription m; cap_GetState := v; cap_GetConditions :=
     cap_GetConditions m; cap_GetGrantControls := cap_GetGrantControls m;
     cap_GetSessionControls := cap_GetSessionControls m |}.
Definition cap_SetConditions (v : option ConditionalAccessConditionSet)
  (m : ConditionalAccessPolicy) : ConditionalAccessPolicy :=
  {| cap_GetDisplayName := cap_GetDisplayName m; cap_GetDescription :=
     cap_GetDescription m; cap_GetState := cap_GetState m; cap_GetConditions
     := v; cap_GetGrantControls := cap_GetGrantControls m;
     cap_GetSessionControls := cap_GetSessionControls m |}.
Definition cap_SetGrantControls (v : option ConditionalAccessGrantControls)
  (m : ConditionalAccessPolicy) : ConditionalAccessPolicy :=
  {| cap_GetDisplayName := cap_GetDisplayName m; cap_GetDescription :=
     cap_GetDescription m; cap_GetState := cap_GetState m; cap_GetConditions
     := cap_GetConditions m; cap_GetGrantControls := v; cap_GetSessionControls
     := cap_GetSessionControls m |}.
Definition cap_SetSessionControls (v : option ConditionalAccessSessionControls)
  (m : ConditionalAccessPolicy) : ConditionalAccessPolicy :=
  {| cap_GetDisplayName := cap_GetDisplayName m; cap_GetDescription :=
     cap_GetDescription m; cap_GetState := cap_GetState m; cap_GetConditions
     := cap_GetConditions m; cap_GetGrantControls := cap_GetGrantControls m;
     cap_GetSessionControls := v |}.
(** ** The constructor (construct.go)

    What the file takes from elsewhere: the SDK's enum parsers, the
    constructors of the nested objects of [Nested], and [json.MarshalIndent]
    applied to the map of the request body's six getters. *)

Variable Parse : forall t : models.EnumType, string -> parsed (models.enum t).
Variable constructNested :
  forall n : Nested, option (NestedModel n) -> outcome (option (Nestedable n)).
Variable MarshalIndent : ConditionalAccessPolicy -> string + string.

Definition constructAuthenticationFlows := constructNested AuthenticationFlows.
Definition constructDevices := constructNested Devices.
Definition constructDeviceStates := constructNested DeviceStates.
Definition constructLocations := constructNested Locations.
Definition constructPlatforms := constructNested Platforms.

(** *** The statement patterns of the file *)

(** [out := make([]string, len(src)); for i, x := range src { out[i] =
    x.ValueString() }] *)
Definition valueStrings (src : slice types.String) : slice string :=
  Some (map ValueString (elems src)).

(** [if len(src) > 0 { out := ...; obj.Set(out) }] *)
Definition whenLen {O} (src : slice types.String)
  (set : slice string -> O -> O) (obj : O) : O :=
  if Nat.ltb 0 (len src) then set (valueStrings src) obj else obj.

(** [for i, x := range src { v, err := Parse(x.ValueString()); if err != nil
    { return nil, fmt.Errorf(what, err) }; out[i] = *v }] *)
Fixpoint parseEach (t : models.EnumType) (what : string)
  (src : list types.String) : outcome (list (models.enum t)) :=
  match src with
  | [] => Done []
  | x :: rest =>
      match Parse t (ValueString x) with
      | ParseError err => Failed (what +++ err)
      | ParseNil => Panicked
      | ParseValue v => out <- parseEach t what rest ;; Done (v :: out)
      end
  end.

(** [if len(src) > 0 { out := make(...); for ... ; obj.Set(out) }] *)
Definition whenLenParse {O} (t : models.EnumType) (src : slice types.String)
  (what : string) (set : slice (models.enum t) -> O -> O) (obj : O)
  : outcome O :=
  if Nat.ltb 0 (len src)
  then out <- parseEach t what (elems src) ;; Done (set (Some out) obj)
  else Done obj.

(** [v, err := Parse(s); if err != nil { return nil, fmt.Errorf(what, err) }],
    [v] being the pointer handed to the setter. *)
Definition parsePointer (t : models.EnumType) (what : string) (s : string)
  : outcome (option (models.enum t)) :=
  match Parse t s with
  | ParseError err => Failed (what +++ err)
  | ParseNil => Done None
  | ParseValue v => Done (Some v)
  end.

(** [if !field.IsNull() { v, err := Parse(field.ValueString()); ...;
    obj.Set(v) }] *)
Definition whenNotNullParse {O} (t : models.EnumType) (field : types.String)
  (what : string) (set : option (models.enum t) -> O -> O) (obj : O)
  : outcome O :=
  if negb (IsNull field)
  then v <- parsePointer t what (ValueString field) ;; Done (set v obj)
  else Done obj.

(** [if !field.IsNull() { s := field.ValueString(); obj.Set(&s) }] *)
Definition whenNotNull {O} (field : types.String)
  (set : option string -> O -> O) (obj : O) : O :=
  if negb (IsNull field) then set (Some (ValueString field)) obj else obj.

(** [if field != nil { x, err := construct(field); if err != nil { return nil,
    fmt.Errorf(what, err) }; obj.Set(x) }] *)
Definition whenPresent {M S O} (field : option M)
  (construct : option M -> outcome (option S)) (what : string)
  (set : option S -> O -> O) (obj : O) : outcome O :=
  match field with
  | None => Done obj
  | Some _ => x <- Errorf what (construct field) ;; Done (set x obj)
  end.

(** *** construct.go, lines 225-257 *)
Definition constructApplications (data : option ConditionalAccessApplicationsModel)
  : outcome (option ConditionalAccessApplications) :=
  match data with
  | None => Done None
  | Some data =>
      let applications := NewConditionalAccessApplications in
      let applications :=
        whenLen (Apps_IncludeApplications data)
          apps_SetIncludeApplications applications in
      let applications :=
        whenLen (Apps_ExcludeApplications data)
          apps_SetExcludeApplications applications in
      let applications :=
        whenLen (Apps_IncludeUserActions data)
          apps_SetIncludeUserActions applications in
      Done (Some applications)
  end.

(** *** construct.go, lines 359-377. The model's membership kind is not
    carried over: the SDK has no such property (line 366). *)
Definition constructConditionalAccessExternalTenants
  (data : option ConditionalAccessExternalTenantsModel)
  : outcome (option ConditionalAccessExternalTenants) :=
  match data with
  | None => Done None
  | Some data =>
      let externalTenants := NewConditionalAccessExternalTenants in
      let externalTenants :=
        whenLen (Tenants_TenantIds data) tenants_SetTenantIds externalTenants in
      Done (Some externalTenants)
  end.

(** *** construct.go, lines 333-357 *)
Definition constructGuestsOrExternalUsers
  (data : option ConditionalAccessGuestsOrExternalUsersModel)
  : outcome (option ConditionalAccessGuestsOrExternalUsers) :=
  match data with
  | None => Done None
  | Some data =>
      let guestsOrExternalUsers := NewConditionalAccessGuestsOrExternalUsers in
      guestsOrExternalUsers <-
        whenNotNullParse models.ConditionalAccessGuestOrExternalUserTypes
          (Guests_GuestOrExternalUserTypes data)
          "error parsing guest or external user types: "
          guests_SetGuestOrExternalUserTypes guestsOrExternalUsers ;;
      guestsOrExternalUsers <-
        whenPresent (Guests_ExternalTenants data)
          constructConditionalAccessExternalTenants
          "error constructing external tenants: "
          guests_SetExternalTenants guestsOrExternalUsers ;;
      Done (Some guestsOrExternalUsers)
  end.

(** *** construct.go, lines 259-331 *)
Definition constructUsers (data : option ConditionalAccessUsersModel)
  : outcome (option ConditionalAccessUsers) :=
  match data with
  | None => Done None
  | Some data =>
      let users := NewConditionalAccessUsers in
      let users := whenLen (Users_IncludeUsers data) users_SetIncludeUsers users in
      let users := whenLen (Users_ExcludeUsers data) users_SetExcludeUsers users in
      let users := whenLen (Users_IncludeGroups data) users_SetIncludeGroups users in
      let users := whenLen (Users_ExcludeGroups data) users_SetExcludeGroups users in
      let users := whenLen (Users_IncludeRoles data) users_SetIncludeRoles users in
      let users := whenLen (Users_ExcludeRoles data) users_SetExcludeRoles users in
      users <-
        whenPresent (Users_IncludeGuestsOrExternalUsers data)
          constructGuestsOrExternalUsers
          "error constructing include guests or external users: "
          users_SetIncludeGuestsOrExternalUsers users ;;
      users <-
        whenPresent (Users_ExcludeGuestsOrExternalUsers data)
          constructGuestsOrExternalUsers
          "error constructing exclude guests or external users: "
          users_SetExcludeGuestsOrExternalUsers users ;;
      Done (Some users)
  end.

(** *** construct.go, lines 379-403 *)
Definition constructClientApplications
  (data : option ConditionalAccessClientApplicationsModel)
  : outcome (option ConditionalAccessClientApplications) :=
  match data with
  | None => Done None
  | Some data =>
      let clientApps := NewConditionalAccessClientApplications in
      let clientApps :=
        whenLen (ClientApps_IncludeServicePrincipals data)
          clientApps_SetIncludeServicePrincipals clientApps in
      let clientApps :=
        whenLen (ClientApps_ExcludeServicePrincipals data)
          clientApps_SetExcludeServicePrincipals clientApps in
      Done (Some clientApps)
  end.

(** *** construct.go, lines 82-223 *)
Definition constructConditions (data : option ConditionalAccessConditionsModel)
  : outcome (option ConditionalAccessConditionSet) :=
  match data with
  | None => Done None
  | Some data =>
      let conditions := NewConditionalAccessConditionSet in
      conditions <-
        whenPresent (Cond_Applications data) constructApplications
          "error constructing applications: "
          cond_SetApplications conditions ;;
      conditions <-
        whenPresent (Cond_AuthenticationFlows data) constructAuthenticationFlows
          "error constructing authentication flows: "
          cond_SetAuthenticationFlows conditions ;;
      conditions <-
        whenPresent (Cond_ClientApplications data) constructClientApplications
          "error constructing client applications: "
          cond_SetClientApplications conditions ;;
      conditions <-
        whenLenParse models.ConditionalAccessClientApp (Cond_ClientAppTypes data)
          "error parsing client app type: "
          cond_SetClientAppTypes conditions ;;
      conditions <-
        whenPresent (Cond_Devices data) constructDevices
          "error constructing devices: "
          cond_SetDevices conditions ;;
      conditions <-
        whenPresent (Cond_DeviceStates data) constructDeviceStates
          "error constructing device states: "
          cond_SetDeviceStates conditions ;;
      conditions <-
        whenNotNullParse models.ConditionalAccessInsiderRiskLevels
          (Cond_InsiderRiskLevels data)
          "error parsing insider risk level: "
          cond_SetInsiderRiskLevels conditions ;;
      conditions <-
        whenPresent (Cond_Locations data) constructLocations
          "error constructing locations: "
          cond_SetLocations conditions ;;
      conditions <-
        whenPresent (Cond_Platforms data) constructPlatforms
          "error constructing platforms: "
          cond_SetPlatforms conditions ;;
      conditions <-
        whenLenParse models.RiskLevel (Cond_ServicePrincipalRiskLevels data)
          "error parsing service principal risk level: "
          cond_SetServicePrincipalRiskLevels conditions ;;
      conditions <-
        whenLenParse models.RiskLevel (Cond_SignInRiskLevels data)
          "error parsing sign-in risk level: "
          cond_SetSignInRiskLevels conditions ;;
      conditions <-
        whenLenParse models.RiskLevel (Cond_UserRiskLevels data)
          "error parsing user risk level: "
          cond_SetUserRiskLevels conditions ;;
      conditions <-
        whenPresent (Cond_Users data) constructUsers
          "error constructing users: "
          cond_SetUsers conditions ;;
      Done (Some conditions)
  end.

(** *** construct.go, lines 466-502 *)
Definition constructAuthenticationStrength
  (data : option AuthenticationStrengthPolicyModel)
  : outcome (option AuthenticationStrengthPolicy) :=
  match data with
  | None => Done None
  | Some data =>
      let authStrength := NewAuthenticationStrengthPolicy in
      let authStrength :=
        whenNotNull (Strength_DisplayName data)
          strength_SetDisplayName authStrength in
      let authStrength :=
        whenNotNull (Strength_Description data)
          strength_SetDescription authStrength in
      let authStrength :=
        whenNotNull (Strength_PolicyType data)
          strength_SetPolicyType authStrength in
      let authStrength :=
        whenNotNull (Strength_RequirementsSatisfied data)
          strength_SetRequirementsSatisfied authStrength in
      let authStrength :=
        whenLen (Strength_AllowedCombinations data)
          strength_SetAllowedCombinations authStrength in
      Done (Some authStrength)
  end.

(** *** construct.go, lines 412-464 *)
Definition constructGrantControls
  (data : option ConditionalAccessGrantControlsModel)
  : outcome (option ConditionalAccessGrantControls) :=
  match data with
  | None => Done None
  | Some data =>
      let grantControls := NewConditionalAccessGrantControls in
      grantControls <-
        whenNotNullParse models.ConditionalAccessGrantControlOperator
          (Grant_Operator data)
          "error parsing grant control operator: "
          grant_SetOperator grantControls ;;
      grantControls <-
        whenLenParse models.ConditionalAccessGrantControl
          (Grant_BuiltInControls data)
          "error parsing built-in control: "
          grant_SetBuiltInControls grantControls ;;
      let grantControls :=
        whenLen (Grant_CustomAuthenticationFactors data)
          grant_SetCustomAuthenticationFactors grantControls in
      let grantControls :=
        whenLen (Grant_TermsOfUse data) grant_SetTermsOfUse grantControls in
      grantControls <-
        whenPresent (Grant_AuthenticationStrength data)
          constructAuthenticationStrength
          "error constructing authentication strength: "
          grant_SetAuthenticationStrength grantControls ;;
      Done (Some grantControls)
  end.

(** *** construct.go, lines 504-605. The block for the application enforced
    restrictions stands twice in the source (lines 511-516 and 518-523). *)
Definition constructSessionControls
  (data : option ConditionalAccessSessionControlsModel)
  : outcome (option ConditionalAccessSessionControls) :=
  match data with
  | None => Done None
  | Some data =>
      let sessionControls := NewConditionalAccessSessionControls in
      let sessionControls :=
        match Session_ApplicationEnforcedRestrictions data with
        | Some restrictions =>
            let appRestrictions :=
              NewApplicationEnforcedRestrictionsSessionControl in
            let isEnabled := ValueBool (AppRestr_IsEnabled restrictions) in
            let appRestrictions :=
              appRestr_SetIsEnabled (Some isEnabled) appRestrictions in
            session_SetApplicationEnforcedRestrictions
              (Some appRestrictions) sessionControls
        | None => sessionControls
        end in
      let sessionControls :=
        match Session_ApplicationEnforcedRestrictions data with
        | Some restrictions =>
            let appRestrictions :=
              NewApplicationEnforcedRestrictionsSessionControl in
            let isEnabled := ValueBool (AppRestr_IsEnabled restrictions) in
            let appRestrictions :=
              appRestr_SetIsEnabled (Some isEnabled) appRestrictions in
            session_SetApplicationEnforcedRestrictions
              (Some appRestrictions) sessionControls
        | None => sessionControls
        end in
      sessionControls <-
        match Session_ContinuousAccessEvaluation data with
        | Some evaluation =>
            let continuousAccessEvaluation :=
              NewContinuousAccessEvaluationSessionControl in
            continuousAccessEvaluation <-
              whenNotNullParse models.ContinuousAccessEvaluationMode
                (Cae_Mode evaluation)
                "error parsing continuous access evaluation mode: "
                cae_SetMode continuousAccessEvaluation ;;
            Done (session_SetContinuousAccessEvaluation
                    (Some continuousAccessEvaluation) sessionControls)
        | None => Done sessionControls
        end ;;
      sessionControls <-
        match Session_PersistentBrowser data with
        | Some browser =>
            let persistentBrowser := NewPersistentBrowserSessionControl in
            let isEnabled := ValueBool (Pb_IsEnabled browser) in
            let persistentBrowser :=
              pb_SetIsEnabled (Some isEnabled) persistentBrowser in
            persistentBrowser <-
              whenNotNullParse models.PersistentBrowserSessionMode
                (Pb_Mode browser)
                "error parsing persistent browser session mode: "
                pb_SetMode persistentBrowser ;;
            Done (session_SetPersistentBrowser
                    (Some persistentBrowser) sessionControls)
        | None => Done sessionControls
        end ;;
      sessionControls <-
        match Session_SignInFrequency data with
        | Some frequency =>
            let signInFrequency := NewSignInFrequencySessionControl in
            let isEnabled := ValueBool (Sif_IsEnabled frequency) in
            let signInFrequency :=
              sif_SetIsEnabled (Some isEnabled) signInFrequency in
            signInFrequency <-
              whenNotNullParse models.SigninFrequencyType
                (Sif_Type frequency)
                "error parsing sign-in frequency type: "
                sif_SetTypeEscaped signInFrequency ;;
            let signInFrequency :=
              if negb (IsNull (Sif_Value frequency))
              then sif_SetValue (Some (ValueInt32 (Sif_Value frequency)))
                     signInFrequency
              else signInFrequency in
            signInFrequency <-
              whenNotNullParse models.SignInFrequencyInterval
                (Sif_FrequencyInterval frequency)
                "error parsing sign-in frequency interval: "
                sif_SetFrequencyInterval signInFrequency ;;
            signInFrequency <-
              whenNotNullParse models.SignInFrequencyAuthenticationType
                (Sif_AuthenticationType frequency)
                "error parsing sign-in frequency authentication type: "
                sif_SetAuthenticationType signInFrequency ;;
            Done (session_SetSignInFrequency
                    (Some signInFrequency) sessionControls)
        | None => Done sessionControls
        end ;;
      let sessionControls :=
        match Session_SecureSignInSession data with
        | Some secure =>
            let secureSignInSession := NewSecureSignInSessionControl in
            let secureSignInSession :=
              secure_SetIsEnabled (Some (ValueBool (Secure_IsEnabled secure)))
                secureSignInSession in
            session_SetSecureSignInSession
              (Some secureSignInSession) sessionControls
        | None => sessionControls
        end in
      let sessionControls :=
        session_SetDisableResilienceDefaults
          (Some (ValueBool (Session_DisableResilienceDefaults data)))
          sessionControls in
      Done (Some sessionControls)
  end.

(** *** construct.go, lines 14-79. The SDK parser is typed here, so the type
    assertion of line 32 cannot fail and its [!ok] branch has no counterpart.
    The marshalled text only goes to [tflog.Debug]. *)
Definition constructResource (data : ConditionalAccessPolicyResourceModel)
  : outcome ConditionalAccessPolicy :=
  let requestBody := NewConditionalAccessPolicy in
  let displayName := ValueString (Policy_DisplayName data) in
  let requestBody := cap_SetDisplayName (Some displayName) requestBody in
  let requestBody :=
    whenNotNull (Policy_Description data) cap_SetDescription requestBody in
  requestBody <-
    (if negb (IsNull (Policy_State data))
     then
       let stateStr := ValueString (Policy_State data) in
       match Parse models.ConditionalAccessPolicyState stateStr with
       | ParseError err => Failed ("invalid state: " +++ err)
       | ParseNil => Done requestBody
       | ParseValue state => Done (cap_SetState (Some state) requestBody)
       end
     else Done requestBody) ;;
  requestBody <-
    whenPresent (Policy_Conditions data) constructConditions
      "error constructing conditions: " cap_SetConditions requestBody ;;
  requestBody <-
    whenPresent (Policy_GrantControls data) constructGrantControls
      "error constructing grant controls: " cap_SetGrantControls requestBody ;;
  requestBody <-
    whenPresent (Policy_SessionControls data) constructSessionControls
      "error constructing session controls: "
      cap_SetSessionControls requestBody ;;
  match MarshalIndent requestBody with
  | inr err => Failed ("error marshalling request body to JSON: " +++ err)
  | inl requestBodyJSON => Done requestBody
  end.

(** ** The fallible steps of the constructor

    The constructor can fail in two kinds of places: where it hands the string
    of an enum-typed field to the SDK's parser, and where it calls the
    constructor of a nested object. [steps] lists these places for a given
    attribute model, in the order the code reaches them; [first_failure] says
    how far the code gets. *)

Inductive EnumField : Type :=
| F_State
| F_ClientAppTypes
| F_InsiderRiskLevels
| F_ServicePrincipalRiskLevels
| F_SignInRiskLevels
| F_UserRiskLevels
| F_IncludeGuestOrExternalUserTypes
| F_ExcludeGuestOrExternalUserTypes
| F_Operator
| F_BuiltInControls
| F_ContinuousAccessEvaluationMode
| F_PersistentBrowserMode
| F_SignInFrequencyType
| F_SignInFrequencyInterval
| F_SignInFrequencyAuthenticationType.

(** The SDK enumeration a field is parsed against. *)
Definition enum_type (f : EnumField) : models.EnumType :=
  match f with
  | F_State => models.ConditionalAccessPolicyState
  | F_ClientAppTypes => models.ConditionalAccessClientApp
  | F_InsiderRiskLevels => models.ConditionalAccessInsiderRiskLevels
  | F_ServicePrincipalRiskLevels => models.RiskLevel
  | F_SignInRiskLevels => models.RiskLevel
  | F_UserRiskLevels => models.RiskLevel
  | F_IncludeGuestOrExternalUserTypes =>
      models.ConditionalAccessGuestOrExternalUserTypes
  | F_ExcludeGuestOrExternalUserTypes =>
      models.ConditionalAccessGuestOrExternalUserTypes
  | F_Operator => models.ConditionalAccessGrantControlOperator
  | F_BuiltInControls => models.ConditionalAccessGrantControl
  | F_ContinuousAccessEvaluationMode => models.ContinuousAccessEvaluationMode
  | F_PersistentBrowserMode => models.PersistentBrowserSessionMode
  | F_SignInFrequencyType => models.SigninFrequencyType
  | F_SignInFrequencyInterval => models.SignInFrequencyInterval
  | F_SignInFrequencyAuthenticationType =>
      models.SignInFrequencyAuthenticationType
  end.

(** The fields whose parsed pointer the code dereferences ([out[i] = *v]). *)
Definition dereferenced (f : EnumField) : bool :=
  match f with
  | F_ClientAppTypes | F_ServicePrincipalRiskLevels | F_SignInRiskLevels
  | F_UserRiskLevels | F_BuiltInControls => true
  | _ => false
  end.

(** How the error messages of the file call a field. *)
Definition field_name (f : EnumField) : string :=
  match f with
  | F_State => "state"
  | F_ClientAppTypes => "client app type"
  | F_InsiderRiskLevels => "insider risk level"
  | F_ServicePrincipalRiskLevels => "service principal risk level"
  | F_SignInRiskLevels => "sign-in risk level"
  | F_UserRiskLevels => "user risk level"
  | F_IncludeGuestOrExternalUserTypes => "guest or external user types"
  | F_ExcludeGuestOrExternalUserTypes => "guest or external user types"
  | F_Operator => "grant control operator"
  | F_BuiltInControls => "built-in control"
  | F_ContinuousAccessEvaluationMode => "continuous access evaluation mode"
  | F_PersistentBrowserMode => "persistent browser session mode"
  | F_SignInFrequencyType => "sign-in frequency type"
  | F_SignInFrequencyInterval => "sign-in frequency interval"
  | F_SignInFrequencyAuthenticationType =>
      "sign-in frequency authentication type"
  end.

(** What precedes the parser's own error in the message [constructResource]
    returns for a field. *)
Definition error_prefix (f : EnumField) : string :=
  match f with
  | F_State => "invalid state: "
  | F_ClientAppTypes =>
      "error constructing conditions: " +++ "error parsing client app type: "
  | F_InsiderRiskLevels =>
      "error constructing conditions: " +++ "error parsing insider risk level: "
  | F_ServicePrincipalRiskLevels =>
      "error constructing conditions: "
      +++ "error parsing service principal risk level: "
  | F_SignInRiskLevels =>
      "error constructing conditions: " +++ "error parsing sign-in risk level: "
  | F_UserRiskLevels =>
      "error constructing conditions: " +++ "error parsing user risk level: "
  | F_IncludeGuestOrExternalUserTypes =>
      "error constructing conditions: " +++ "error constructing users: "
      +++ "error constructing include guests or external users: "
      +++ "error parsing guest or external user types: "
  | F_ExcludeGuestOrExternalUserTypes =>
      "error constructing conditions: " +++ "error constructing users: "
      +++ "error constructing exclude guests or external users: "
      +++ "error parsing guest or external user types: "
  | F_Operator =>
      "error constructing grant controls: "
      +++ "error parsing grant control operator: "
  | F_BuiltInControls =>
      "error constructing grant controls: "
      +++ "error parsing built-in control: "
  | F_ContinuousAccessEvaluationMode =>
      "error constructing session controls: "
      +++ "error parsing continuous access evaluation mode: "
  | F_PersistentBrowserMode =>
      "error constructing session controls: "
      +++ "error parsing persistent browser session mode: "
  | F_SignInFrequencyType =>
      "error constructing session controls: "
      +++ "error parsing sign-in frequency type: "
  | F_SignInFrequencyInterval =>
      "error constructing session controls: "
      +++ "error parsing sign-in frequency interval: "
  | F_SignInFrequencyAuthenticationType =>
      "error constructing session controls: "
      +++ "error parsing sign-in frequency authentication type: "
  end.

Inductive Step : Type :=
| ParseStep (f : EnumField) (what : string) (v : string)
| NestedStep (n : Nested) (what : string) (m : option (NestedModel n)).

(** A step of a nested constructor, seen from its caller, which wraps the
    error in [prefix]. *)
Definition under (prefix : string) (s : Step) : Step :=
  match s with
  | ParseStep f what v => ParseStep f (prefix +++ what) v
  | NestedStep n what m => NestedStep n (prefix +++ what) m
  end.

Definition run_step (s : Step) : outcome unit :=
  match s with
  | ParseStep f what v =>
      match Parse (enum_type f) v with
      | ParseError err => Failed (what +++ err)
      | ParseNil => if dereferenced f then Panicked else Done tt
      | ParseValue _ => Done tt
      end
  | NestedStep n what m =>
      match constructNested n m with
      | Done _ => Done tt
      | Failed err => Failed (what +++ err)
      | Panicked => Panicked
      end
  end.

Fixpoint first_failure (l : list Step) : outcome unit :=
  match l with
  | [] => Done tt
  | s :: rest => _ <- run_step s ;; first_failure rest
  end.

Definition stepsNotNull (f : EnumField) (what : string) (field : types.String)
  : list Step :=
  if IsNull field then [] else [ParseStep f what (ValueString field)].

Definition stepsEach (f : EnumField) (what : string) (src : slice types.String)
  : list Step :=
  map (fun x => ParseStep f what (ValueString x)) (elems src).

Definition stepsPresent {M} (what : string) (field : option M)
  (sub : M -> list Step) : list Step :=
  match field with
  | None => []
  | Some m => map (under what) (sub m)
  end.

Definition stepsNested (n : Nested) (what : string)
  (field : option (NestedModel n)) : list Step :=
  match field with
  | None => []
  | Some _ => [NestedStep n what field]
  end.

Definition stepsGuestsOrExternalUsers (included : bool)
  (data : ConditionalAccessGuestsOrExternalUsersModel) : list Step :=
  stepsNotNull
    (if included then F_IncludeGuestOrExternalUserTypes
     else F_ExcludeGuestOrExternalUserTypes)
    "error parsing guest or external user types: "
    (Guests_GuestOrExternalUserTypes data).

Definition stepsUsers (data : ConditionalAccessUsersModel) : list Step :=
  stepsPresent "error constructing include guests or external users: "
    (Users_IncludeGuestsOrExternalUsers data) (stepsGuestsOrExternalUsers true)
  ++ stepsPresent "error constructing exclude guests or external users: "
       (Users_ExcludeGuestsOrExternalUsers data)
       (stepsGuestsOrExternalUsers false).

Definition stepsConditions (data : ConditionalAccessConditionsModel)
  : list Step :=
  stepsNested AuthenticationFlows "error constructing authentication flows: "
    (Cond_AuthenticationFlows data)
  ++ stepsEach F_ClientAppTypes "error parsing client app type: "
       (Cond_ClientAppTypes data)
  ++ stepsNested Devices "error constructing devices: " (Cond_Devices data)
  ++ stepsNested DeviceStates "error constructing device states: "
       (Cond_DeviceStates data)
  ++ stepsNotNull F_InsiderRiskLevels "error parsing insider risk level: "
       (Cond_InsiderRiskLevels data)
  ++ stepsNested Locations "error constructing locations: "
       (Cond_Locations data)
  ++ stepsNested Platforms "error constructing platforms: "
       (Cond_Platforms data)
  ++ stepsEach F_ServicePrincipalRiskLevels
       "error parsing service principal risk level: "
       (Cond_ServicePrincipalRiskLevels data)
  ++ stepsEach F_SignInRiskLevels "error parsing sign-in risk level: "
       (Cond_SignInRiskLevels data)
  ++ stepsEach F_UserRiskLevels "error parsing user risk level: "
       (Cond_UserRiskLevels data)
  ++ stepsPresent "error constructing users: " (Cond_Users data) stepsUsers.

Definition stepsGrantControls (data : ConditionalAccessGrantControlsModel)
  : list Step :=
  stepsNotNull F_Operator "error parsing grant control operator: "
    (Grant_Operator data)
  ++ stepsEach F_BuiltInControls "error parsing built-in control: "
       (Grant_BuiltInControls data).

Definition stepsWhen {M} (field : option M) (sub : M -> list Step)
  : list Step :=
  match field with
  | None => []
  | Some m => sub m
  end.

Definition stepsSessionControls (data : ConditionalAccessSessionControlsModel)
  : list Step :=
  stepsWhen (Session_ContinuousAccessEvaluation data)
    (fun evaluation =>
       stepsNotNull F_ContinuousAccessEvaluationMode
         "error parsing continuous access evaluation mode: "
         (Cae_Mode evaluation))
  ++ stepsWhen (Session_PersistentBrowser data)
       (fun browser =>
          stepsNotNull F_PersistentBrowserMode
            "error parsing persistent browser session mode: "
            (Pb_Mode browser))
  ++ stepsWhen (Session_SignInFrequency data)
       (fun frequency =>
          stepsNotNull F_SignInFrequencyType
            "error parsing sign-in frequency type: " (Sif_Type frequency)
          ++ stepsNotNull F_SignInFrequencyInterval
               "error parsing sign-in frequency interval: "
               (Sif_FrequencyInterval frequency)
          ++ stepsNotNull F_SignInFrequencyAuthenticationType
               "error parsing sign-in frequency authentication type: "
               (Sif_AuthenticationType frequency)).

Definition steps (data : ConditionalAccessPolicyResourceModel) : list Step :=
  stepsNotNull F_State "invalid state: " (Policy_State data)
  ++ stepsPresent "error constructing conditions: " (Policy_Conditions data)
       stepsConditions
  ++ stepsPresent "error constructing grant controls: "
       (Policy_GrantControls data) stepsGrantControls
  ++ stepsPresent "error constructing session controls: "
       (Policy_SessionControls data) stepsSessionControls.

(** ** What the properties are stated with *)

(** [follows o r]: the computation [o] stops where the steps say, with the
    same error, and returns a value if no step fails. *)
Definition follows {A} (o : outcome A) (r : outcome unit) : Prop :=
  match r with
  | Done _ => exists a, o = Done a
  | Failed err => o = Failed err
  | Panicked => o = Panicked
  end.

(** The last statements of [constructResource] (lines 64-78), applied to the
    request body the earlier ones built. *)
Definition marshalled (requestBody : ConditionalAccessPolicy)
  : outcome ConditionalAccessPolicy :=
  match MarshalIndent requestBody with
  | inr err => Failed ("error marshalling request body to JSON: " +++ err)
  | inl _ => Done requestBody
  end.

(** Every parse step of [l], seen from a caller that wraps errors in [path],
    carries the [error_prefix] of its field. *)
Definition labelled (path : string) (l : list Step) : Prop :=
  forall f what v,
    In (ParseStep f what v) l -> path +++ what = error_prefix f.

(** A list of strings is carried through [ValueString], a list of enum names
    through the parser of the enumeration. *)
Definition strings_carried (src : slice types.String) (dst : slice string)
  : Prop :=
  carried (fun a b => b = ValueString a) src dst.

Definition enums_carried (t : models.EnumType) (src : slice types.String)
  (dst : slice (models.enum t)) : Prop :=
  carried (fun a b => Parse t (ValueString a) = ParseValue b) src dst.

(** The lists of each nested object, against those of its SDK model. *)
Definition ApplicationsCarried (m : ConditionalAccessApplicationsModel)
  (s : ConditionalAccessApplications) : Prop :=
  strings_carried (Apps_IncludeApplications m) (apps_GetIncludeApplications s)
  /\ strings_carried (Apps_ExcludeApplications m)
       (apps_GetExcludeApplications s)
  /\ strings_carried (Apps_IncludeUserActions m)
       (apps_GetIncludeUserActions s).

Definition ExternalTenantsCarried (m : ConditionalAccessExternalTenantsModel)
  (s : ConditionalAccessExternalTenants) : Prop :=
  strings_carried (Tenants_TenantIds m) (tenants_GetTenantIds s).

Definition GuestsOrExternalUsersCarried
  (m : ConditionalAccessGuestsOrExternalUsersModel)
  (s : ConditionalAccessGuestsOrExternalUsers) : Prop :=
  nested ExternalTenantsCarried (Guests_ExternalTenants m)
    (guests_GetExternalTenants s).

Definition UsersCarried (m : ConditionalAccessUsersModel)
  (s : ConditionalAccessUsers) : Prop :=
  strings_carried (Users_IncludeUsers m) (users_GetIncludeUsers s)
  /\ strings_carried (Users_ExcludeUsers m) (users_GetExcludeUsers s)
  /\ strings_carried (Users_IncludeGroups m) (users_GetIncludeGroups s)
  /\ strings_carried (Users_ExcludeGroups m) (users_GetExcludeGroups s)
  /\ strings_carried (Users_IncludeRoles m) (users_GetIncludeRoles s)
  /\ strings_carried (Users_ExcludeRoles m) (users_GetExcludeRoles s)
  /\ nested GuestsOrExternalUsersCarried
       (Users_IncludeGuestsOrExternalUsers m)
       (users_GetIncludeGuestsOrExternalUsers s)
  /\ nested GuestsOrExternalUsersCarried
       (Users_ExcludeGuestsOrExternalUsers m)
       (users_GetExcludeGuestsOrExternalUsers s).

Definition ClientApplicationsCarried
  (m : ConditionalAccessClientApplicationsModel)
  (s : ConditionalAccessClientApplications) : Prop :=
  strings_carried (ClientApps_IncludeServicePrincipals m)
    (clientApps_GetIncludeServicePrincipals s)
  /\ strings_carried (ClientApps_ExcludeServicePrincipals m)
       (clientApps_GetExcludeServicePrincipals s).

Definition ConditionsCarried (m : ConditionalAccessConditionsModel)
  (s : ConditionalAccessConditionSet) : Prop :=
  nested ApplicationsCarried (Cond_Applications m) (cond_GetApplications s)
  /\ nested ClientApplicationsCarried (Cond_ClientApplications m)
       (cond_GetClientApplications s)
  /\ enums_carried models.ConditionalAccessClientApp (Cond_ClientAppTypes m)
       (cond_GetClientAppTypes s)
  /\ enums_carried models.RiskLevel (Cond_ServicePrincipalRiskLevels m)
       (cond_GetServicePrincipalRiskLevels s)
  /\ enums_carried models.RiskLevel (Cond_SignInRiskLevels m)
       (cond_GetSignInRiskLevels s)
  /\ enums_carried models.RiskLevel (Cond_UserRiskLevels m)
       (cond_GetUserRiskLevels s)
  /\ nested UsersCarried (Cond_Users m) (cond_GetUsers s).

Definition AuthenticationStrengthCarried
  (m : AuthenticationStrengthPolicyModel) (s : AuthenticationStrengthPolicy)
  : Prop :=
  strings_carried (Strength_AllowedCombinations m)
    (strength_GetAllowedCombinations s).

Definition GrantControlsCarried (m : ConditionalAccessGrantControlsModel)
  (s : ConditionalAccessGrantControls) : Prop :=
  enums_carried models.ConditionalAccessGrantControl (Grant_BuiltInControls m)
    (grant_GetBuiltInControls s)
  /\ strings_carried (Grant_CustomAuthenticationFactors m)
       (grant_GetCustomAuthenticationFactors s)
  /\ strings_carried (Grant_TermsOfUse m) (grant_GetTermsOfUse s)
  /\ nested AuthenticationStrengthCarried (Grant_AuthenticationStrength m)
       (grant_GetAuthenticationStrength s).

(** Every list of the attribute model, at any depth, against the list of the
    request body it is written to. *)
Definition CollectionsCarried (data : ConditionalAccessPolicyResourceModel)
  (requestBody : ConditionalAccessPolicy) : Prop :=
  nested ConditionsCarried (Policy_Conditions data)
    (cap_GetConditions requestBody)
  /\ nested GrantControlsCarried (Policy_GrantControls data)
       (cap_GetGrantControls requestBody).

(** ** The constructor follows its steps *)

Lemma first_failure_app l1 l2 :
  first_failure (l1 ++ l2) = (_ <- first_failure l1 ;; first_failure l2).
Proof.
  induction l1 as [|s l1 IH]; simpl; [reflexivity|].
  destruct (run_step s); simpl; [exact IH | reflexivity | reflexivity].
Qed.

Lemma run_step_under prefix s :
  run_step (under prefix s) = Errorf prefix (run_step s).
Proof.
  destruct s as [f what v|n what m]; simpl.
  - destruct (Parse (enum_type f) v); simpl;
      [reflexivity | destruct (dereferenced f); reflexivity |].
    now rewrite cat_assoc.
  - destruct (constructNested n m); simpl; [reflexivity | | reflexivity].
    now rewrite cat_assoc.
Qed.

Lemma first_failure_under prefix l :
  first_failure (map (under prefix) l) = Errorf prefix (first_failure l).
Proof.
  induction l as [|s l IH]; simpl; [reflexivity|].
  rewrite run_step_under.
  destruct (run_step s); simpl; [exact IH | reflexivity | reflexivity].
Qed.

Lemma follows_Done {A} (a : A) : follows (Done a) (first_failure []).
Proof. simpl. now exists a. Qed.

Lemma follows_bind {A B} (o : outcome A) (k : A -> outcome B) l1 l2 :
  follows o (first_failure l1) ->
  (forall a, o = Done a -> follows (k a) (first_failure l2)) ->
  follows (x <- o ;; k x) (first_failure (l1 ++ l2)).
Proof.
  intros Ho Hk. rewrite first_failure_app.
  destruct (first_failure l1) as [[]| |]; simpl in *.
  - destruct Ho as [a ->]. simpl. now apply Hk.
  - now rewrite Ho.
  - now rewrite Ho.
Qed.

Lemma follows_Errorf {A} prefix (o : outcome A) l :
  follows o (first_failure l) ->
  follows (Errorf prefix o) (first_failure (map (under prefix) l)).
Proof.
  intros Ho. rewrite first_failure_under.
  destruct (first_failure l) as [[]| |]; simpl in *.
  - destruct Ho as [a ->]. now exists a.
  - now rewrite Ho.
  - now rewrite Ho.
Qed.

Lemma follows_whenNotNullParse {O} f what field
  (set : option (models.enum (enum_type f)) -> O -> O) obj :
  dereferenced f = false ->
  follows (whenNotNullParse (enum_type f) field what set obj)
    (first_failure (stepsNotNull f what field)).
Proof.
  intros Hf. unfold whenNotNullParse, stepsNotNull, parsePointer.
  destruct (IsNull field); simpl; [now eexists|].
  rewrite Hf.
  destruct (Parse (enum_type f) (ValueString field)); simpl;
    [now eexists | now eexists | reflexivity].
Qed.

Lemma follows_parseEach f what l :
  dereferenced f = true ->
  follows (parseEach (enum_type f) what l)
    (first_failure (map (fun x => ParseStep f what (ValueString x)) l)).
Proof.
  intros Hf. induction l as [|x l IH]; simpl; [now eexists|].
  rewrite Hf.
  destruct (Parse (enum_type f) (ValueString x)); simpl;
    [| reflexivity | reflexivity].
  destruct (first_failure _) as [[]| |]; simpl in *.
  - destruct IH as [out ->]. simpl. now eexists.
  - now rewrite IH.
  - now rewrite IH.
Qed.

Lemma follows_whenLenParse {O} f what src
  (set : slice (models.enum (enum_type f)) -> O -> O) obj :
  dereferenced f = true ->
  follows (whenLenParse (enum_type f) src what set obj)
    (first_failure (stepsEach f what src)).
Proof.
  intros Hf. unfold whenLenParse, stepsEach, len.
  destruct (elems src) as [|x l] eqn:E; [simpl; now eexists|].
  change (Nat.ltb 0 (length (x :: l))) with true. cbv iota.
  pose proof (follows_parseEach f what (x :: l) Hf) as H.
  destruct (first_failure _) as [[]| |]; simpl in *.
  - destruct H as [out ->]. simpl. now eexists.
  - now rewrite H.
  - now rewrite H.
Qed.

Lemma follows_whenPresent {M S O} (field : option M)
  (construct : option M -> outcome (option S)) what
  (set : option S -> O -> O) obj (sub : M -> list Step) :
  (forall m, follows (construct (Some m)) (first_failure (sub m))) ->
  follows (whenPresent field construct what set obj)
    (first_failure (stepsPresent what field sub)).
Proof.
  intros Hsub. unfold whenPresent, stepsPresent.
  destruct field as [m|]; [|simpl; now eexists].
  pose proof (follows_Errorf what _ _ (Hsub m)) as H.
  destruct (first_failure _) as [[]| |]; simpl in *.
  - destruct H as [x ->]. simpl. now eexists.
  - now rewrite H.
  - now rewrite H.
Qed.

Lemma follows_whenPresent_nested {O} n (field : option (NestedModel n)) what
  (set : option (Nestedable n) -> O -> O) obj :
  follows (whenPresent field (constructNested n) what set obj)
    (first_failure (stepsNested n what field)).
Proof.
  unfold whenPresent, stepsNested.
  destruct field as [m|]; [|simpl; now eexists].
  simpl. destruct (constructNested n (Some m)); simpl;
    [now eexists | reflexivity | reflexivity].
Qed.

Lemma follows_bind_total {A B} (o : outcome A) (k : A -> outcome B) r :
  (exists a, o = Done a) ->
  (forall a, o = Done a -> follows (k a) r) ->
  follows (x <- o ;; k x) r.
Proof. intros [a ->] Hk. simpl. now apply Hk. Qed.

Lemma follows_bind_end {A B} (o : outcome A) (k : A -> outcome B) r :
  follows o r ->
  (forall a, exists b, k a = Done b) ->
  follows (x <- o ;; k x) r.
Proof.
  intros Ho Hk. destruct r as [[]| |]; simpl in *.
  - destruct Ho as [a ->]. simpl. apply Hk.
  - now rewrite Ho.
  - now rewrite Ho.
Qed.

Lemma whenPresent_total {M S O} (field : option M)
  (construct : option M -> outcome (option S)) what
  (set : option S -> O -> O) obj :
  (forall m, exists s, construct (Some m) = Done s) ->
  exists o, whenPresent field construct what set obj = Done o.
Proof.
  intros H. unfold whenPresent. destruct field as [m|]; [|now eexists].
  destruct (H m) as [x ->]. simpl. now eexists.
Qed.

Lemma constructApplications_total m :
  exists s, constructApplications (Some m) = Done s.
Proof. now eexists. Qed.

Lemma constructConditionalAccessExternalTenants_total m :
  exists s, constructConditionalAccessExternalTenants (Some m) = Done s.
Proof. now eexists. Qed.

Lemma constructClientApplications_total m :
  exists s, constructClientApplications (Some m) = Done s.
Proof. now eexists. Qed.

Lemma constructAuthenticationStrength_total m :
  exists s, constructAuthenticationStrength (Some m) = Done s.
Proof. now eexists. Qed.

Lemma constructGuestsOrExternalUsers_follows included m :
  follows (constructGuestsOrExternalUsers (Some m))
    (first_failure (stepsGuestsOrExternalUsers included m)).
Proof.
  unfold constructGuestsOrExternalUsers, stepsGuestsOrExternalUsers.
  cbv zeta. apply follows_bind_end.
  - destruct included.
    + now apply (follows_whenNotNullParse F_IncludeGuestOrExternalUserTypes).
    + now apply (follows_whenNotNullParse F_ExcludeGuestOrExternalUserTypes).
  - intros g.
    destruct (whenPresent_total (Guests_ExternalTenants m)
                constructConditionalAccessExternalTenants
                "error constructing external tenants: "
                guests_SetExternalTenants g
                constructConditionalAccessExternalTenants_total) as [g' ->].
    simpl. now eexists.
Qed.

Lemma constructUsers_follows m :
  follows (constructUsers (Some m)) (first_failure (stepsUsers m)).
Proof.
  unfold constructUsers, stepsUsers. cbv zeta.
  apply follows_bind.
  - apply follows_whenPresent. apply constructGuestsOrExternalUsers_follows.
  - intros users _. apply follows_bind_end.
    + apply follows_whenPresent. apply constructGuestsOrExternalUsers_follows.
    + intros. now eexists.
Qed.

Lemma constructConditions_follows m :
  follows (constructConditions (Some m)) (first_failure (stepsConditions m)).
Proof.
  unfold constructConditions, stepsConditions. cbv zeta.
  apply follows_bind_total;
    [apply whenPresent_total, constructApplications_total | intros c1 _].
  apply follows_bind; [apply follows_whenPresent_nested | intros c2 _].
  apply follows_bind_total;
    [apply whenPresent_total, constructClientApplications_total | intros c3 _].
  apply follows_bind;
    [now apply (follows_whenLenParse F_ClientAppTypes) | intros c4 _].
  apply follows_bind; [apply follows_whenPresent_nested | intros c5 _].
  apply follows_bind; [apply follows_whenPresent_nested | intros c6 _].
  apply follows_bind;
    [now apply (follows_whenNotNullParse F_InsiderRiskLevels) | intros c7 _].
  apply follows_bind; [apply follows_whenPresent_nested | intros c8 _].
  apply follows_bind; [apply follows_whenPresent_nested | intros c9 _].
  apply follows_bind;
    [now apply (follows_whenLenParse F_ServicePrincipalRiskLevels)
    | intros c10 _].
  apply follows_bind;
    [now apply (follows_whenLenParse F_SignInRiskLevels) | intros c11 _].
  apply follows_bind;
    [now apply (follows_whenLenParse F_UserRiskLevels) | intros c12 _].
  apply follows_bind_end.
  - apply follows_whenPresent. apply constructUsers_follows.
  - intros. now eexists.
Qed.

Lemma constructGrantControls_follows m :
  follows (constructGrantControls (Some m))
    (first_failure (stepsGrantControls m)).
Proof.
  unfold constructGrantControls, stepsGrantControls. cbv zeta.
  apply follows_bind;
    [now apply (follows_whenNotNullParse F_Operator) | intros g1 _].
  apply follows_bind_end;
    [now apply (follows_whenLenParse F_BuiltInControls) | intros g2].
  match goal with
  | |- exists b, (x <- whenPresent ?f ?c ?w ?set ?o ;; _) = Done b =>
      destruct (whenPresent_total f c w set o
                  constructAuthenticationStrength_total) as [g3 ->]
  end.
  simpl. now eexists.
Qed.

Lemma constructSessionControls_follows m :
  follows (constructSessionControls (Some m))
    (first_failure (stepsSessionControls m)).
Proof.
  unfold constructSessionControls, stepsSessionControls. cbv zeta.
  apply follows_bind.
  { destruct (Session_ContinuousAccessEvaluation m) as [evaluation|];
      [|apply follows_Done].
    apply follows_bind_end;
      [now apply (follows_whenNotNullParse F_ContinuousAccessEvaluationMode)|].
    intros. now eexists. }
  intros s1 _. apply follows_bind.
  { destruct (Session_PersistentBrowser m) as [browser|];
      [|apply follows_Done].
    apply follows_bind_end;
      [now apply (follows_whenNotNullParse F_PersistentBrowserMode)|].
    intros. now eexists. }
  intros s2 _. apply follows_bind_end; [|intros; now eexists].
  destruct (Session_SignInFrequency m) as [frequency|]; [|apply follows_Done].
  simpl stepsWhen.
  apply follows_bind;
    [now apply (follows_whenNotNullParse F_SignInFrequencyType)|].
  intros f1 _. apply follows_bind;
    [now apply (follows_whenNotNullParse F_SignInFrequencyInterval)|].
  intros f2 _. apply follows_bind_end;
    [now apply (follows_whenNotNullParse F_SignInFrequencyAuthenticationType)|].
  intros. now eexists.
Qed.

(** [constructResource] stops at the first step that fails, with that step's
    error; if none fails it builds a request body and ends with
    [marshalled]. *)
Lemma constructResource_follows data :
  match first_failure (steps data) with
  | Done _ => exists requestBody, constructResource data = marshalled requestBody
  | Failed err => constructResource data = Failed err
  | Panicked => constructResource data = Panicked
  end.
Proof.
  assert (Hbind : forall {A} (o : outcome A) k l1 l2,
             follows o (first_failure l1) ->
             (forall a, match first_failure l2 with
                        | Done _ => exists b, k a = marshalled b
                        | Failed err => k a = Failed err
                        | Panicked => k a = Panicked
                        end) ->
             match first_failure (l1 ++ l2) with
             | Done _ => exists b, (x <- o ;; k x) = marshalled b
             | Failed err => (x <- o ;; k x) = Failed err
             | Panicked => (x <- o ;; k x) = Panicked
             end).
  { intros A o k l1 l2 Ho Hk. rewrite first_failure_app.
    destruct (first_failure l1) as [[]| |]; simpl in *.
    - destruct Ho as [a ->]. simpl. apply Hk.
    - now rewrite Ho.
    - now rewrite Ho. }
  unfold constructResource, steps. cbv zeta.
  apply Hbind.
  { unfold stepsNotNull. destruct (IsNull (Policy_State data)); simpl;
      [now eexists|].
    destruct (Parse models.ConditionalAccessPolicyState
                (ValueString (Policy_State data))); simpl;
      [now eexists | now eexists | reflexivity]. }
  intros r1. apply Hbind.
  { apply follows_whenPresent, constructConditions_follows. }
  intros r2. apply Hbind.
  { apply follows_whenPresent, constructGrantControls_follows. }
  intros r3.
  rewrite <- (app_nil_r (stepsPresent _ _ _)). apply Hbind.
  { apply follows_whenPresent, constructSessionControls_follows. }
  intros r4. simpl. now exists r4.
Qed.

(** *** The message of a parse step is the field's [error_prefix] *)

Lemma labelled_nil path : labelled path [].
Proof. intros f what v []. Qed.

Lemma labelled_app path l1 l2 :
  labelled path l1 -> labelled path l2 -> labelled path (l1 ++ l2).
Proof.
  intros H1 H2 f what v Hin. apply in_app_or in Hin as [Hin|Hin];
    [exact (H1 _ _ _ Hin) | exact (H2 _ _ _ Hin)].
Qed.

Lemma labelled_stepsNotNull path f what field :
  path +++ what = error_prefix f -> labelled path (stepsNotNull f what field).
Proof.
  intros H f' what' v Hin. unfold stepsNotNull in Hin.
  destruct (IsNull field); simpl in Hin; [contradiction|].
  destruct Hin as [Heq|[]]. now inversion Heq; subst.
Qed.

Lemma labelled_stepsEach path f what src :
  path +++ what = error_prefix f -> labelled path (stepsEach f what src).
Proof.
  intros H f' what' v Hin. unfold stepsEach in Hin.
  apply in_map_iff in Hin as (x & Heq & _). now inversion Heq; subst.
Qed.

Lemma labelled_stepsNested path n what field :
  labelled path (stepsNested n what field).
Proof.
  intros f what' v Hin. unfold stepsNested in Hin.
  destruct field; simpl in Hin; [|contradiction].
  destruct Hin as [Heq|[]]. discriminate.
Qed.

Lemma labelled_stepsPresent {M} path what (field : option M) sub :
  (forall m, labelled (path +++ what) (sub m)) ->
  labelled path (stepsPresent what field sub).
Proof.
  intros H f what' v Hin. unfold stepsPresent in Hin.
  destruct field as [m|]; [|contradiction].
  apply in_map_iff in Hin as ([f0 what0 v0|n what0 m0] & Heq & Hin);
    simpl in Heq; [|discriminate].
  inversion Heq; subst. rewrite <- cat_assoc. exact (H m _ _ _ Hin).
Qed.

Lemma labelled_stepsWhen {M} path (field : option M) sub :
  (forall m, labelled path (sub m)) -> labelled path (stepsWhen field sub).
Proof.
  intros H. unfold stepsWhen. destruct field; [apply H | apply labelled_nil].
Qed.

Lemma steps_labelled data : labelled "" (steps data).
Proof.
  unfold steps.
  repeat apply labelled_app.
  - now apply labelled_stepsNotNull.
  - apply labelled_stepsPresent. intros c. unfold stepsConditions.
    repeat apply labelled_app;
      try apply labelled_stepsNested;
      try (now apply labelled_stepsNotNull);
      try (now apply labelled_stepsEach).
    apply labelled_stepsPresent. intros u. unfold stepsUsers.
    apply labelled_app; apply labelled_stepsPresent; intros g;
      now apply labelled_stepsNotNull.
  - apply labelled_stepsPresent. intros g. unfold stepsGrantControls.
    apply labelled_app;
      [now apply labelled_stepsNotNull | now apply labelled_stepsEach].
  - apply labelled_stepsPresent. intros c. unfold stepsSessionControls.
    repeat apply labelled_app; apply labelled_stepsWhen; intros x;
      repeat apply labelled_app; now apply labelled_stepsNotNull.
Qed.

Lemma error_prefix_names_field f : contains (field_name f) (error_prefix f).
Proof. destruct f; apply containsb_sound; reflexivity. Qed.

(** A rejected enum value never lets [constructResource] return a request
    body, and when no earlier step fails the error is the field's prefix
    followed by the parser's error. *)
Lemma constructResource_rejects data pre f what v post err :
  steps data = pre ++ ParseStep f what v :: post ->
  Parse (enum_type f) v = ParseError err ->
  (forall requestBody, constructResource data <> Done requestBody) /\
  (first_failure pre = Done tt ->
   constructResource data = Failed (error_prefix f +++ err)).
Proof.
  intros Hsteps Hparse.
  assert (Hwhat : what = error_prefix f).
  { change (EmptyString +++ what = error_prefix f).
    apply (steps_labelled data) with (v := v). rewrite Hsteps.
    apply in_or_app. right. now left. }
  pose proof (constructResource_follows data) as H.
  rewrite Hsteps, first_failure_app in H. simpl in H. rewrite Hparse in H.
  destruct (first_failure pre) as [[]| |]; simpl in H; rewrite H.
  - split; [discriminate|]. intros _. now rewrite Hwhat.
  - split; [discriminate|]. discriminate.
  - split; [discriminate|]. discriminate.
Qed.

(** ** What a request body that was built holds *)

Lemma whenLen_frame {O X} (g : O -> X) src set obj :
  (forall x o, g (set x o) = g o) -> g (whenLen src set obj) = g obj.
Proof. intros H. unfold whenLen. now destruct (Nat.ltb 0 (len src)). Qed.

Lemma whenNotNull_frame {O X} (g : O -> X) field set obj :
  (forall x o, g (set x o) = g o) -> g (whenNotNull field set obj) = g obj.
Proof. intros H. unfold whenNotNull. now destruct (negb (IsNull field)). Qed.

Lemma whenPresent_frame {M S O X} (g : O -> X) (field : option M)
  (construct : option M -> outcome (option S)) what set obj o :
  (forall x o, g (set x o) = g o) ->
  whenPresent field construct what set obj = Done o -> g o = g obj.
Proof.
  intros Hg H. unfold whenPresent in H. destruct field.
  - apply bind_Done in H as (x & _ & H). injection H as <-. apply Hg.
  - now injection H as <-.
Qed.

Lemma whenLenParse_frame {O X} (g : O -> X) t src what set obj o :
  (forall x o, g (set x o) = g o) ->
  whenLenParse t src what set obj = Done o -> g o = g obj.
Proof.
  intros Hg H. unfold whenLenParse in H. destruct (Nat.ltb 0 (len src)).
  - apply bind_Done in H as (x & _ & H). injection H as <-. apply Hg.
  - now injection H as <-.
Qed.

Lemma whenNotNullParse_frame {O X} (g : O -> X) t field what set obj o :
  (forall x o, g (set x o) = g o) ->
  whenNotNullParse t field what set obj = Done o -> g o = g obj.
Proof.
  intros Hg H. unfold whenNotNullParse in H. destruct (negb (IsNull field)).
  - apply bind_Done in H as (x & _ & H). injection H as <-. apply Hg.
  - now injection H as <-.
Qed.

Lemma whenLen_carried {O} (g : O -> slice string) src set obj :
  (forall x o, g (set x o) = x) -> g obj = None ->
  strings_carried src (g (whenLen src set obj)).
Proof.
  intros Hg Hobj. unfold whenLen, strings_carried, carried, len.
  destruct src as [[|x l]|]; simpl; [exact Hobj | | exact Hobj].
  rewrite Hg. eexists. split; [reflexivity|].
  apply (elementwise_map ValueString (x :: l)).
Qed.

Lemma parseEach_elementwise t what l out :
  parseEach t what l = Done out ->
  elementwise (fun a b => Parse t (ValueString a) = ParseValue b) l out.
Proof.
  revert out. induction l as [|x l IH]; simpl; intros out H.
  - injection H as <-. split; [reflexivity|].
    intros [|i] a Ha; discriminate.
  - destruct (Parse t (ValueString x)) eqn:E; [|discriminate..].
    apply bind_Done in H as (out' & Hout & H). injection H as <-.
    apply elementwise_cons; [exact E | now apply IH].
Qed.

Lemma whenLenParse_carried {O} t (g : O -> slice (models.enum t))
  src what set obj o :
  (forall x o, g (set x o) = x) -> g obj = None ->
  whenLenParse t src what set obj = Done o ->
  enums_carried t src (g o).
Proof.
  intros Hg Hobj H. unfold whenLenParse, len in H.
  unfold enums_carried, carried.
  destruct src as [[|x l]|].
  - simpl in H. now injection H as <-.
  - change (Nat.ltb 0 (length (elems (Some (x :: l))))) with true in H.
    cbv iota in H. change (elems (Some (x :: l))) with (x :: l) in H.
    apply bind_Done in H as (out & Hout & H). injection H as <-.
    rewrite Hg. eexists. split; [reflexivity|].
    now apply parseEach_elementwise in Hout.
  - simpl in H. now injection H as <-.
Qed.

Lemma whenPresent_nested {M S O} (R : M -> S -> Prop) (g : O -> option S)
  (field : option M) construct what set obj o :
  (forall x o, g (set x o) = x) -> g obj = None ->
  (forall m x, construct (Some m) = Done x -> exists s, x = Some s /\ R m s) ->
  whenPresent field construct what set obj = Done o ->
  nested R field (g o).
Proof.
  intros Hg Hobj Hsub H. unfold whenPresent in H. unfold nested.
  destruct field as [m|].
  - apply bind_Done in H as (x & Hx & H). injection H as <-.
    rewrite Hg. apply Hsub.
    destruct (construct (Some m)); simpl in Hx;
      [now injection Hx as <- | discriminate..].
  - now injection H as <-.
Qed.

Ltac frame :=
  repeat match goal with
  | |- context [?g (whenLen ?src ?set ?obj)] =>
      rewrite (whenLen_frame g src set obj (fun _ _ => eq_refl))
  | |- context [?g (whenNotNull ?field ?set ?obj)] =>
      rewrite (whenNotNull_frame g field set obj (fun _ _ => eq_refl))
  | H : whenPresent ?field ?c ?what ?set ?obj = Done ?o
    |- context [?g ?o] =>
      rewrite (whenPresent_frame g field c what set obj o
                 (fun _ _ => eq_refl) H)
  | H : whenLenParse ?t ?src ?what ?set ?obj = Done ?o
    |- context [?g ?o] =>
      rewrite (whenLenParse_frame g t src what set obj o
                 (fun _ _ => eq_refl) H)
  | H : whenNotNullParse ?t ?field ?what ?set ?obj = Done ?o
    |- context [?g ?o] =>
      rewrite (whenNotNullParse_frame g t field what set obj o
                 (fun _ _ => eq_refl) H)
  end.

Ltac unset := frame; simpl; frame; reflexivity.

Ltac carried_strings :=
  frame;
  lazymatch goal with
  | |- strings_carried ?src (?g (whenLen ?src ?set ?obj)) =>
      apply (whenLen_carried g src set obj (fun _ _ => eq_refl)); unset
  end.

Ltac carried_enums :=
  frame;
  lazymatch goal with
  | H : whenLenParse ?t ?src ?what ?set ?obj = Done ?o
    |- enums_carried ?t ?src (?g ?o) =>
      apply (whenLenParse_carried t g src what set obj o
               (fun _ _ => eq_refl)); [unset | exact H]
  end.

Ltac carried_nested sub :=
  frame;
  lazymatch goal with
  | H : whenPresent ?field ?c ?what ?set ?obj = Done ?o
    |- nested ?R ?field (?g ?o) =>
      apply (whenPresent_nested R g field c what set obj o
               (fun _ _ => eq_refl)); [unset | exact sub | exact H]
  end.

Ltac invert_binds H :=
  repeat (apply bind_Done in H; destruct H as (? & ? & H); cbv beta in H);
  injection H as <-.

Lemma constructApplications_carried m x :
  constructApplications (Some m) = Done x ->
  exists s, x = Some s /\ ApplicationsCarried m s.
Proof.
  unfold constructApplications. cbv zeta. intros H. injection H as <-.
  eexists. split; [reflexivity|].
  repeat split; carried_strings.
Qed.

Lemma constructConditionalAccessExternalTenants_carried m x :
  constructConditionalAccessExternalTenants (Some m) = Done x ->
  exists s, x = Some s /\ ExternalTenantsCarried m s.
Proof.
  unfold constructConditionalAccessExternalTenants. cbv zeta.
  intros H. injection H as <-.
  eexists. split; [reflexivity|].
  unfold ExternalTenantsCarried. carried_strings.
Qed.

Lemma constructGuestsOrExternalUsers_carried m x :
  constructGuestsOrExternalUsers (Some m) = Done x ->
  exists s, x = Some s /\ GuestsOrExternalUsersCarried m s.
Proof.
  unfold constructGuestsOrExternalUsers. cbv zeta. intros H.
  invert_binds H. eexists. split; [reflexivity|].
  unfold GuestsOrExternalUsersCarried.
  carried_nested constructConditionalAccessExternalTenants_carried.
Qed.

Lemma constructUsers_carried m x :
  constructUsers (Some m) = Done x ->
  exists s, x = Some s /\ UsersCarried m s.
Proof.
  unfold constructUsers. cbv zeta. intros H.
  invert_binds H. eexists. split; [reflexivity|].
  repeat split;
    first [ carried_strings
          | carried_nested constructGuestsOrExternalUsers_carried ].
Qed.

Lemma constructClientApplications_carried m x :
  constructClientApplications (Some m) = Done x ->
  exists s, x = Some s /\ ClientApplicationsCarried m s.
Proof.
  unfold constructClientApplications. cbv zeta.
  intros H. injection H as <-.
  eexists. split; [reflexivity|].
  repeat split; carried_strings.
Qed.

Lemma constructConditions_carried m x :
  constructConditions (Some m) = Done x ->
  exists s, x = Some s /\ ConditionsCarried m s.
Proof.
  unfold constructConditions. cbv zeta. intros H.
  invert_binds H. eexists. split; [reflexivity|].
  repeat split;
    first [ carried_enums
          | carried_nested constructApplications_carried
          | carried_nested constructClientApplications_carried
          | carried_nested constructUsers_carried ].
Qed.

Lemma constructAuthenticationStrength_carried m x :
  constructAuthenticationStrength (Some m) = Done x ->
  exists s, x = Some s /\ AuthenticationStrengthCarried m s.
Proof.
  unfold constructAuthenticationStrength. cbv zeta.
  intros H. injection H as <-.
  eexists. split; [reflexivity|].
  unfold AuthenticationStrengthCarried. carried_strings.
Qed.

Lemma constructGrantControls_carried m x :
  constructGrantControls (Some m) = Done x ->
  exists s, x = Some s /\ GrantControlsCarried m s.
Proof.
  unfold constructGrantControls. cbv zeta. intros H.
  invert_binds H. eexists. split; [reflexivity|].
  repeat split;
    first [ carried_enums
          | carried_strings
          | carried_nested constructAuthenticationStrength_carried ].
Qed.

(** The statements on the state (lines 25-38) set the state or leave the
    request body as it is. *)
Lemma state_statements (field : types.String) requestBody x :
  (if negb (IsNull field)
   then
     match Parse models.ConditionalAccessPolicyState (ValueString field) with
     | ParseError err => Failed ("invalid state: " +++ err)
     | ParseNil => Done requestBody
     | ParseValue state => Done (cap_SetState (Some state) requestBody)
     end
   else Done requestBody) = Done x ->
  x = requestBody \/ exists state, x = cap_SetState (Some state) requestBody.
Proof.
  destruct (negb (IsNull field)); [|intros H; injection H as <-; now left].
  destruct (Parse _ _) as [state| |]; intros H; [| |discriminate].
  - injection H as <-. right. now exists state.
  - injection H as <-. now left.
Qed.


(** *** Unset optional fields *)

(** Line 602 writes [disableResilienceDefaults] whatever the attribute is. *)
Lemma constructSessionControls_disableResilienceDefaults m x :
  constructSessionControls (Some m) = Done x ->
  exists s, x = Some s /\
    session_GetDisableResilienceDefaults s
    = Some (ValueBool (Session_DisableResilienceDefaults m)).
Proof.
  unfold constructSessionControls. cbv zeta. intros H.
  invert_binds H. eexists. split; reflexivity.
Qed.

Lemma constructResource_disableResilienceDefaults data requestBody :
  constructResource data = Done requestBody ->
  nested (fun m s => session_GetDisableResilienceDefaults s
                     = Some (ValueBool (Session_DisableResilienceDefaults m)))
    (Policy_SessionControls data) (cap_GetSessionControls requestBody).
Proof.
  unfold constructResource. cbv zeta. intros H.
  repeat (apply bind_Done in H; destruct H as (? & ? & H); cbv beta in H).
  destruct (MarshalIndent _); [|discriminate]. injection H as <-.
  match goal with
  | H0 : (if _ then _ else _) = Done _ |- _ =>
      apply state_statements in H0 as [->|[state ->]]
  end;
  carried_nested constructSessionControls_disableResilienceDefaults.
Qed.

(** Lines 20-23 leave the description unset when the attribute is null. *)
Lemma constructResource_null_description data requestBody :
  constructResource data = Done requestBody ->
  IsNull (Policy_Description data) = true ->
  cap_GetDescription requestBody = None.
Proof.
  unfold constructResource. cbv zeta. intros H Hnull.
  repeat (apply bind_Done in H; destruct H as (? & ? & H); cbv beta in H).
  destruct (MarshalIndent _); [|discriminate]. injection H as <-.
  match goal with
  | H0 : (if _ then _ else _) = Done _ |- _ =>
      apply state_statements in H0 as [->|[state ->]]
  end;
  frame; simpl; unfold whenNotNull; now rewrite Hnull.
Qed.

(** ** Properties of the constructor *)

(** C2 (the code breaks it): with session controls in the plan and their
    [disable_resilience_defaults] null, the request body that
    [constructResource] returns carries [disableResilienceDefaults = false]
    instead of leaving it unset (construct.go, line 602). *)
Theorem null_disableResilienceDefaults_is_sent_as_false
  data session requestBody :
  Policy_SessionControls data = Some session ->
  IsNull (Session_DisableResilienceDefaults session) = true ->
  constructResource data = Done requestBody ->
  exists sessionControls,
    cap_GetSessionControls requestBody = Some sessionControls /\
    session_GetDisableResilienceDefaults sessionControls = Some false.
Proof.
  intros Hsession Hnull Hdone.
  pose proof (constructResource_disableResilienceDefaults _ _ Hdone) as H.
  rewrite Hsession in H. destruct H as (sessionControls & Hget & Hvalue).
  exists sessionControls. split; [exact Hget|].
  rewrite Hvalue.
  destruct (Session_DisableResilienceDefaults session);
    [reflexivity | discriminate | discriminate].
Qed.


(** ** Where the constructor stops *)

Lemma first_failure_Failed l msg :
  first_failure l = Failed msg ->
  exists s, In s l /\ run_step s = Failed msg.
Proof.
  induction l as [|s l IH]; simpl; [discriminate|].
  destruct (run_step s) as [[]| |] eqn:Hs; simpl; intros H.
  - destruct (IH H) as (s' & Hin & Hrun). exists s'. now split; [right|].
  - injection H as <-. exists s. now split; [left|].
  - discriminate.
Qed.

Lemma first_failure_Panicked l :
  first_failure l = Panicked ->
  exists s, In s l /\ run_step s = Panicked.
Proof.
  induction l as [|s l IH]; simpl; [discriminate|].
  destruct (run_step s) as [[]| |] eqn:Hs; simpl; intros H.
  - destruct (IH H) as (s' & Hin & Hrun). exists s'. now split; [right|].
  - discriminate.
  - exists s. now split; [left|].
Qed.

Lemma first_failure_Done l :
  first_failure l = Done tt <-> Forall (fun s => run_step s = Done tt) l.
Proof.
  induction l as [|s l IH]; simpl; [now split|].
  split.
  - destruct (run_step s) as [[]| |] eqn:Hs; simpl; intros H;
      try discriminate.
    constructor; [exact Hs | now apply IH].
  - intros H. inversion H as [|? ? Hs Hl]; subst.
    rewrite Hs. simpl. now apply IH.
Qed.

(** X1: every error [constructResource] returns has one of three sources:
    the marshaller refused the request body that was built; the SDK parser
    refused the value of an enum-typed field of the model, and the message
    is that field's prefix, which names the field, followed by the parser's
    error; or the constructor of a nested object failed, and the message is
    its error behind the prefixes of the enclosing blocks. *)
Theorem every_error_has_a_source data msg :
  constructResource data = Failed msg ->
  (exists requestBody err,
     MarshalIndent requestBody = inr err /\
     msg = "error marshalling request body to JSON: " +++ err) \/
  (exists f v err,
     In (ParseStep f (error_prefix f) v) (steps data) /\
     Parse (enum_type f) v = ParseError err /\
     msg = error_prefix f +++ err /\ contains (field_name f) msg) \/
  (exists n what m err,
     In (NestedStep n what m) (steps data) /\
     constructNested n m = Failed err /\ msg = what +++ err).
Proof.
  intros Hfail. pose proof (constructResource_follows data) as H.
  destruct (first_failure (steps data)) as [[]|err|] eqn:Hsteps.
  - left. destruct H as [requestBody H]. rewrite H in Hfail.
    unfold marshalled in Hfail.
    destruct (MarshalIndent requestBody) as [json|err] eqn:Hjson;
      [discriminate|].
    injection Hfail as <-. now exists requestBody, err.
  - right. rewrite H in Hfail. injection Hfail as ->.
    apply first_failure_Failed in Hsteps as (s & Hin & Hrun).
    destruct s as [f what v|n what m]; simpl in Hrun.
    + left.
      assert (Hwhat : what = error_prefix f)
        by exact (steps_labelled data f what v Hin).
      subst what.
      destruct (Parse (enum_type f) v) as [x| |err] eqn:Hparse;
        [discriminate | destruct (dereferenced f); discriminate |].
      injection Hrun as <-. exists f, v, err.
      repeat split; try assumption.
      apply contains_suffixed, error_prefix_names_field.
    + right.
      destruct (constructNested n m) as [x|err|] eqn:Hnested;
        [discriminate | | discriminate].
      injection Hrun as <-. now exists n, what, m, err.
  - rewrite H in Hfail. discriminate.
Qed.

(** X2: [constructResource] itself dereferences a nil pointer in one kind
    of place only: where it copies the parsed elements of an enum list
    ([out[i] = *v]) and the SDK parser has answered with neither a value nor
    an error. Any other crash is that of a nested constructor. *)
Theorem every_crash_has_a_source data :
  constructResource data = Panicked ->
  (exists f what v,
     In (ParseStep f what v) (steps data) /\
     dereferenced f = true /\ Parse (enum_type f) v = ParseNil) \/
  (exists n what m,
     In (NestedStep n what m) (steps data) /\
     constructNested n m = Panicked).
Proof.
  intros Hcrash. pose proof (constructResource_follows data) as H.
  destruct (first_failure (steps data)) as [[]|err|] eqn:Hsteps.
  - destruct H as [requestBody H]. rewrite H in Hcrash.
    unfold marshalled in Hcrash.
    destruct (MarshalIndent requestBody); discriminate.
  - rewrite H in Hcrash. discriminate.
  - apply first_failure_Panicked in Hsteps as (s & Hin & Hrun).
    destruct s as [f what v|n what m]; simpl in Hrun.
    + left. exists f, what, v.
      destruct (Parse (enum_type f) v) as [x| |err] eqn:Hparse;
        [discriminate | | discriminate].
      destruct (dereferenced f); [now repeat split | discriminate].
    + right. exists n, what, m.
      destruct (constructNested n m) as [x|err|]; try discriminate.
      now split.
Qed.


(** ** What the request body holds besides the lists *)

(** A guarded string: nothing for a null attribute, else its
    [ValueString], which is empty for an unknown one. *)
Definition string_written (field : types.String) (got : option string)
  : Prop :=
  got = if IsNull field then None else Some (ValueString field).

(** A guarded enum-typed string: nothing for a null attribute, else the
    pointer the parser returned. *)
Definition enum_written (t : models.EnumType) (field : types.String)
  (got : option (models.enum t)) : Prop :=
  got = if IsNull field then None
        else match Parse t (ValueString field) with
             | ParseValue v => Some v
             | _ => None
             end.

(** A guarded number. *)
Definition number_written (field : types.Int32) (got : option Z) : Prop :=
  got = if IsNull field then None else Some (ValueInt32 field).

(** A flag that is written without a guard. *)
Definition flag_written (field : types.Bool) (got : option bool) : Prop :=
  got = Some (ValueBool field).

(** A nested object built elsewhere: what its constructor returned. *)
Definition object_written (n : Nested) (field : option (NestedModel n))
  (got : option (Nestedable n)) : Prop :=
  match field with
  | None => got = None
  | Some _ => constructNested n field = Done got
  end.

Definition GuestsOrExternalUsersWritten
  (m : ConditionalAccessGuestsOrExternalUsersModel)
  (s : ConditionalAccessGuestsOrExternalUsers) : Prop :=
  enum_written models.ConditionalAccessGuestOrExternalUserTypes
    (Guests_GuestOrExternalUserTypes m)
    (guests_GetGuestOrExternalUserTypes s).

Definition UsersWritten (m : ConditionalAccessUsersModel)
  (s : ConditionalAccessUsers) : Prop :=
  nested GuestsOrExternalUsersWritten (Users_IncludeGuestsOrExternalUsers m)
    (users_GetIncludeGuestsOrExternalUsers s)
  /\ nested GuestsOrExternalUsersWritten
       (Users_ExcludeGuestsOrExternalUsers m)
       (users_GetExcludeGuestsOrExternalUsers s).

Definition ConditionsWritten (m : ConditionalAccessConditionsModel)
  (s : ConditionalAccessConditionSet) : Prop :=
  enum_written models.ConditionalAccessInsiderRiskLevels
    (Cond_InsiderRiskLevels m) (cond_GetInsiderRiskLevels s)
  /\ object_written AuthenticationFlows (Cond_AuthenticationFlows m)
       (cond_GetAuthenticationFlows s)
  /\ object_written Devices (Cond_Devices m) (cond_GetDevices s)
  /\ object_written DeviceStates (Cond_DeviceStates m)
       (cond_GetDeviceStates s)
  /\ object_written Locations (Cond_Locations m) (cond_GetLocations s)
  /\ object_written Platforms (Cond_Platforms m) (cond_GetPlatforms s)
  /\ nested UsersWritten (Cond_Users m) (cond_GetUsers s).

Definition AuthenticationStrengthWritten
  (m : AuthenticationStrengthPolicyModel) (s : AuthenticationStrengthPolicy)
  : Prop :=
  string_written (Strength_DisplayName m) (strength_GetDisplayName s)
  /\ string_written (Strength_Description m) (strength_GetDescription s)
  /\ string_written (Strength_PolicyType m) (strength_GetPolicyType s)
  /\ string_written (Strength_RequirementsSatisfied m)
       (strength_GetRequirementsSatisfied s).

Definition GrantControlsWritten (m : ConditionalAccessGrantControlsModel)
  (s : ConditionalAccessGrantControls) : Prop :=
  enum_written models.ConditionalAccessGrantControlOperator
    (Grant_Operator m) (grant_GetOperator s)
  /\ nested AuthenticationStrengthWritten (Grant_AuthenticationStrength m)
       (grant_GetAuthenticationStrength s).

Definition SignInFrequencyWritten (m : SignInFrequencyModel)
  (s : SignInFrequencySessionControl) : Prop :=
  flag_written (Sif_IsEnabled m) (sif_GetIsEnabled s)
  /\ enum_written models.SigninFrequencyType (Sif_Type m)
       (sif_GetTypeEscaped s)
  /\ number_written (Sif_Value m) (sif_GetValue s)
  /\ enum_written models.SignInFrequencyInterval (Sif_FrequencyInterval m)
       (sif_GetFrequencyInterval s)
  /\ enum_written models.SignInFrequencyAuthenticationType
       (Sif_AuthenticationType m) (sif_GetAuthenticationType s).

Definition SessionControlsWritten (m : ConditionalAccessSessionControlsModel)
  (s : ConditionalAccessSessionControls) : Prop :=
  nested (fun r a => flag_written (AppRestr_IsEnabled r)
                       (appRestr_GetIsEnabled a))
    (Session_ApplicationEnforcedRestrictions m)
    (session_GetApplicationEnforcedRestrictions s)
  /\ nested (fun e c => enum_written models.ContinuousAccessEvaluationMode
                          (Cae_Mode e) (cae_GetMode c))
       (Session_ContinuousAccessEvaluation m)
       (session_GetContinuousAccessEvaluation s)
  /\ nested (fun b p => flag_written (Pb_IsEnabled b) (pb_GetIsEnabled p)
                        /\ enum_written models.PersistentBrowserSessionMode
                             (Pb_Mode b) (pb_GetMode p))
       (Session_PersistentBrowser m) (session_GetPersistentBrowser s)
  /\ nested SignInFrequencyWritten (Session_SignInFrequency m)
       (session_GetSignInFrequency s)
  /\ nested (fun x y => flag_written (Secure_IsEnabled x)
                          (secure_GetIsEnabled y))
       (Session_SecureSignInSession m) (session_GetSecureSignInSession s)
  /\ flag_written (Session_DisableResilienceDefaults m)
       (session_GetDisableResilienceDefaults s).

(** The scalar fields outside the session controls and the nested objects
    built elsewhere, at any depth. *)
Definition ScalarsWritten (data : ConditionalAccessPolicyResourceModel)
  (requestBody : ConditionalAccessPolicy) : Prop :=
  cap_GetDisplayName requestBody
  = Some (ValueString (Policy_DisplayName data))
  /\ string_written (Policy_Description data)
       (cap_GetDescription requestBody)
  /\ enum_written models.ConditionalAccessPolicyState (Policy_State data)
       (cap_GetState requestBody)
  /\ nested ConditionsWritten (Policy_Conditions data)
       (cap_GetConditions requestBody)
  /\ nested GrantControlsWritten (Policy_GrantControls data)
       (cap_GetGrantControls requestBody).

Lemma whenNotNullParse_Done {O} t field what set (obj o : O) :
  whenNotNullParse t field what set obj = Done o ->
  o = if IsNull field then obj
      else set match Parse t (ValueString field) with
               | ParseValue v => Some v
               | _ => None
               end obj.
Proof.
  unfold whenNotNullParse, parsePointer.
  destruct (IsNull field); simpl; [now intros [= <-]|].
  destruct (Parse t (ValueString field)); simpl; intros H;
    [now injection H as <- | now injection H as <- | discriminate].
Qed.

Lemma whenNotNullParse_written {O} t (g : O -> option (models.enum t))
  field what set obj o :
  (forall x o, g (set x o) = x) -> g obj = None ->
  whenNotNullParse t field what set obj = Done o ->
  enum_written t field (g o).
Proof.
  intros Hg Hobj H. apply whenNotNullParse_Done in H as ->.
  unfold enum_written. destruct (IsNull field); [exact Hobj | apply Hg].
Qed.

Lemma whenNotNull_written {O} (g : O -> option string) field set obj :
  (forall x o, g (set x o) = x) -> g obj = None ->
  string_written field (g (whenNotNull field set obj)).
Proof.
  intros Hg Hobj. unfold whenNotNull, string_written.
  destruct (IsNull field); simpl; [exact Hobj | apply Hg].
Qed.

Lemma whenPresent_object {O} n (g : O -> option (Nestedable n))
  (field : option (NestedModel n)) what set obj o :
  (forall x o, g (set x o) = x) -> g obj = None ->
  whenPresent field (constructNested n) what set obj = Done o ->
  object_written n field (g o).
Proof.
  intros Hg Hobj H. unfold whenPresent in H. unfold object_written.
  destruct field as [m|].
  - apply bind_Done in H as (x & Hx & H). injection H as <-. rewrite Hg.
    destruct (constructNested n (Some m)); simpl in Hx;
      [now injection Hx as <- | discriminate..].
  - now injection H as <-.
Qed.

Ltac written_enum :=
  frame;
  lazymatch goal with
  | H : whenNotNullParse ?t ?field ?what ?set ?obj = Done ?o
    |- enum_written ?t ?field (?g ?o) =>
      apply (whenNotNullParse_written t g field what set obj o
               (fun _ _ => eq_refl)); [unset | exact H]
  end.

Ltac written_string :=
  frame;
  lazymatch goal with
  | |- string_written ?field (?g (whenNotNull ?field ?set ?obj)) =>
      apply (whenNotNull_written g field set obj (fun _ _ => eq_refl)); unset
  end.

Ltac written_object :=
  frame;
  lazymatch goal with
  | H : whenPresent ?field ?c ?what ?set ?obj = Done ?o
    |- object_written ?n ?field (?g ?o) =>
      apply (whenPresent_object n g field what set obj o
               (fun _ _ => eq_refl)); [unset | exact H]
  end.

Lemma constructGuestsOrExternalUsers_written m x :
  constructGuestsOrExternalUsers (Some m) = Done x ->
  exists s, x = Some s /\ GuestsOrExternalUsersWritten m s.
Proof.
  unfold constructGuestsOrExternalUsers. cbv zeta. intros H.
  invert_binds H. eexists. split; [reflexivity|].
  unfold GuestsOrExternalUsersWritten. written_enum.
Qed.

Lemma constructUsers_written m x :
  constructUsers (Some m) = Done x ->
  exists s, x = Some s /\ UsersWritten m s.
Proof.
  unfold constructUsers. cbv zeta. intros H.
  invert_binds H. eexists. split; [reflexivity|].
  split; carried_nested constructGuestsOrExternalUsers_written.
Qed.

Lemma constructConditions_written m x :
  constructConditions (Some m) = Done x ->
  exists s, x = Some s /\ ConditionsWritten m s.
Proof.
  unfold constructConditions, constructAuthenticationFlows, constructDevices,
    constructDeviceStates, constructLocations, constructPlatforms.
  cbv zeta. intros H.
  invert_binds H. eexists. split; [reflexivity|].
  repeat split;
    first [ written_enum
          | written_object
          | carried_nested constructUsers_written ].
Qed.

Lemma constructAuthenticationStrength_written m x :
  constructAuthenticationStrength (Some m) = Done x ->
  exists s, x = Some s /\ AuthenticationStrengthWritten m s.
Proof.
  unfold constructAuthenticationStrength. cbv zeta.
  intros H. injection H as <-.
  eexists. split; [reflexivity|].
  repeat split; written_string.
Qed.

Lemma constructGrantControls_written m x :
  constructGrantControls (Some m) = Done x ->
  exists s, x = Some s /\ GrantControlsWritten m s.
Proof.
  unfold constructGrantControls. cbv zeta. intros H.
  invert_binds H. eexists. split; [reflexivity|].
  split;
    first [ written_enum
          | carried_nested constructAuthenticationStrength_written ].
Qed.

Ltac invert_steps :=
  repeat match goal with
  | H : bind _ _ = Done _ |- _ =>
      apply bind_Done in H; destruct H as (? & ? & H); cbv beta in H
  | H : whenNotNullParse _ _ _ _ _ = Done _ |- _ =>
      apply whenNotNullParse_Done in H
  | H : Done _ = Done _ |- _ => injection H as H
  | H : ?x = _ |- _ => is_var x; subst x
  | H : _ = ?x |- _ => is_var x; subst x
  end.

Ltac by_cases_on_null :=
  repeat match goal with
  | |- context [IsNull ?x] => destruct (IsNull x)
  end;
  reflexivity.

Lemma constructSessionControls_written m x :
  constructSessionControls (Some m) = Done x ->
  exists s, x = Some s /\ SessionControlsWritten m s.
Proof.
  unfold constructSessionControls. cbv zeta. intros H.
  destruct m as [restrictions evaluation browser frequency secure disable].
  cbn [Session_ApplicationEnforcedRestrictions
       Session_ContinuousAccessEvaluation Session_PersistentBrowser
       Session_SignInFrequency Session_SecureSignInSession
       Session_DisableResilienceDefaults] in H.
  destruct restrictions, evaluation, browser, frequency, secure;
    invert_steps; (eexists; split; [reflexivity|]);
    unfold SessionControlsWritten, SignInFrequencyWritten, nested,
      enum_written, number_written, flag_written;
    cbn [Session_ApplicationEnforcedRestrictions
         Session_ContinuousAccessEvaluation Session_PersistentBrowser
         Session_SignInFrequency Session_SecureSignInSession
         Session_DisableResilienceDefaults];
    repeat split;
    try (eexists; split; [reflexivity|]);
    repeat split;
    by_cases_on_null.
Qed.

(** X4: the session controls of a request body that [constructResource]
    returns, field by field: each of the five blocks is there exactly when
    the model has it; every [isEnabled] flag and
    [disableResilienceDefaults] is written whatever the attribute is (false
    for a null or unknown one); a mode, type, interval or authentication type
    is left unset for a null attribute and is otherwise what the parser
    returned; the frequency value is left unset for a null attribute and is
    otherwise its [ValueInt32]. *)
Theorem session_controls_are_written data requestBody :
  constructResource data = Done requestBody ->
  nested SessionControlsWritten (Policy_SessionControls data)
    (cap_GetSessionControls requestBody).
Proof.
  unfold constructResource. cbv zeta. intros H.
  repeat (apply bind_Done in H; destruct H as (? & ? & H); cbv beta in H).
  destruct (MarshalIndent _); [|discriminate]. injection H as <-.
  match goal with
  | H0 : (if _ then _ else _) = Done _ |- _ =>
      apply state_statements in H0 as [->|[state ->]]
  end;
  carried_nested constructSessionControls_written.
Qed.

Lemma state_written (field : types.String) requestBody x :
  (if negb (IsNull field)
   then
     match Parse models.ConditionalAccessPolicyState (ValueString field) with
     | ParseError err => Failed ("invalid state: " +++ err)
     | ParseNil => Done requestBody
     | ParseValue state => Done (cap_SetState (Some state) requestBody)
     end
   else Done requestBody) = Done x ->
  cap_GetState requestBody = None ->
  enum_written models.ConditionalAccessPolicyState field (cap_GetState x).
Proof.
  unfold enum_written. destruct (IsNull field); simpl.
  - now intros [= <-].
  - destruct (Parse _ _) as [state| |]; intros H; [| |discriminate];
      now injection H as <-.
Qed.

(** X5: the other fields of a request body that [constructResource]
    returns, at any depth: the display name is always written (empty for a
    null or unknown attribute); the description and the four strings of the
    authentication strength are left unset for a null attribute and are
    otherwise its [ValueString]; the state, the insider risk level, the guest
    or external user types and the grant operator are left unset for a null
    attribute and are otherwise what the parser returned; and each nested
    object built by another constructor is what that constructor returned. *)
Theorem scalars_are_written data requestBody :
  constructResource data = Done requestBody ->
  ScalarsWritten data requestBody.
Proof.
  unfold constructResource. cbv zeta. intros H.
  repeat (apply bind_Done in H; destruct H as (? & ? & H); cbv beta in H).
  destruct (MarshalIndent _); [|discriminate]. injection H as <-.
  match goal with
  | H0 : (if _ then _ else _) = Done ?x |- _ =>
      assert (Hstate : enum_written models.ConditionalAccessPolicyState
                         (Policy_State data) (cap_GetState x))
        by (apply (state_written _ _ _ H0); unset);
      apply state_statements in H0 as [->|[state ->]]
  end;
  (split; [unset|]);
  (split;
     [frame; cbn [cap_GetDescription cap_SetState]; written_string|]);
  (split; [revert Hstate; frame; simpl; frame; exact (fun Hstate => Hstate)|]);
  split;
    first [ carried_nested constructConditions_written
          | carried_nested constructGrantControls_written ].
Qed.
End ConditionalAccessPolicy.

Arguments constructResource {NestedModel Nestedable}
  Parse constructNested MarshalIndent data.
Arguments constructConditions {NestedModel Nestedable}
  Parse constructNested data.
Arguments steps {NestedModel} data.
Arguments first_failure {NestedModel Nestedable} Parse constructNested l.
Arguments run_step {NestedModel Nestedable} Parse constructNested s.
Arguments ParseStep {NestedModel} f what v.
Arguments NestedStep {NestedModel} n what m.
Arguments CollectionsCarried {NestedModel Nestedable} Parse data requestBody.
Arguments ConditionsCarried {NestedModel Nestedable} Parse m s.
Arguments Policy_DisplayName {NestedModel} c.
Arguments Policy_Description {NestedModel} c.
Arguments Policy_State {NestedModel} c.
Arguments Policy_Conditions {NestedModel} c.
Arguments Policy_GrantControls {NestedModel} c.
Arguments Policy_SessionControls {NestedModel} c.
Arguments cap_GetDisplayName {Nestedable} c.
Arguments cap_GetDescription {Nestedable} c.
Arguments cap_GetState {Nestedable} c.
Arguments cap_GetConditions {Nestedable} c.
Arguments cap_GetGrantControls {Nestedable} c.
Arguments cap_GetSessionControls {Nestedable} c.
Arguments cond_GetApplications {Nestedable} c.
Arguments cond_GetAuthenticationFlows {Nestedable} c.
Arguments cond_GetClientAppTypes {Nestedable} c.
Arguments cond_GetClientApplications {Nestedable} c.
Arguments cond_GetDeviceStates {Nestedable} c.
Arguments cond_GetDevices {Nestedable} c.
Arguments cond_GetInsiderRiskLevels {Nestedable} c.
Arguments cond_GetLocations {Nestedable} c.
Arguments cond_GetPlatforms {Nestedable} c.
Arguments cond_GetServicePrincipalRiskLevels {Nestedable} c.
Arguments cond_GetSignInRiskLevels {Nestedable} c.
Arguments cond_GetUserRiskLevels {Nestedable} c.
Arguments cond_GetUsers {Nestedable} c.
Arguments Cond_Applications {NestedModel} c.
Arguments Cond_AuthenticationFlows {NestedModel} c.
Arguments Cond_ClientAppTypes {NestedModel} c.
Arguments Cond_ClientApplications {NestedModel} c.
Arguments Cond_DeviceStates {NestedModel} c.
Arguments Cond_Devices {NestedModel} c.
Arguments Cond_InsiderRiskLevels {NestedModel} c.
Arguments Cond_Locations {NestedModel} c.
Arguments Cond_Platforms {NestedModel} c.
Arguments Cond_ServicePrincipalRiskLevels {NestedModel} c.
Arguments Cond_SignInRiskLevels {NestedModel} c.
Arguments Cond_UserRiskLevels {NestedModel} c.
Arguments Cond_Users {NestedModel} c.

(** *** The marshalling decides between the request body and an error *)

Lemma constructResource_marshalling NestedModel Nestedable Parse constructNested
  (M1 M2 : ConditionalAccessPolicy Nestedable -> string + string)
  (data : ConditionalAccessPolicyResourceModel NestedModel) requestBody :
  constructResource Parse constructNested M1 data = Done requestBody ->
  constructResource Parse constructNested M2 data
  = match M2 requestBody with
    | inr err => Failed ("error marshalling request body to JSON: " +++ err)
    | inl _ => Done requestBody
    end.
Proof.
  unfold constructResource. cbv zeta. intros H.
  repeat (apply bind_Done in H; destruct H as (? & ? & H); cbv beta in H).
  destruct (M1 _); [|discriminate]. injection H as <-.
  repeat match goal with
         | E : ?o = Done _ |- context [bind ?o _] => rewrite E; simpl bind
         end.
  reflexivity.
Qed.

(** C3 (amended): the marshalling of the request body is a step of
    [constructResource] like the others. Once the request body is built, a
    marshalling error makes [constructResource] return that error, prefixed,
    and no request body; otherwise the request body is returned. *)
Theorem marshalling_error_fails_constructResource
  NestedModel Nestedable Parse constructNested
  (MarshalIndent : ConditionalAccessPolicy Nestedable -> string + string)
  (data : ConditionalAccessPolicyResourceModel NestedModel) requestBody :
  constructResource Parse constructNested (fun _ => inl "") data
  = Done requestBody ->
  (forall err,
      MarshalIndent requestBody = inr err ->
      constructResource Parse constructNested MarshalIndent data
      = Failed ("error marshalling request body to JSON: " +++ err))
  /\ (forall json,
      MarshalIndent requestBody = inl json ->
      constructResource Parse constructNested MarshalIndent data
      = Done requestBody).
Proof.
  intros Hbuilt.
  pose proof (constructResource_marshalling _ _ Parse constructNested
                (fun _ => inl "") MarshalIndent data requestBody Hbuilt) as H.
  split; [intros err E | intros json E]; now rewrite E in H.
Qed.

Arguments ScalarsWritten {NestedModel Nestedable} Parse constructNested
  data requestBody.

End graphBetaConditionalAccessPolicy.

(** * Package client

    What the provider hands to the resources once it is configured: the two
    Graph clients, behind the [any] of the framework's requests. *)

Module client.

Record GraphClients (Stable Beta : Type) : Type := {
  StableClient : option Stable;
  BetaClient : option Beta
}.
Arguments StableClient {Stable Beta} _.
Arguments BetaClient {Stable Beta} _.

(** [req.ProviderData]: nil, a [*client.GraphClients] (the pointer may be
    nil), or a value of another type, of which [%T] is kept. *)
Inductive ProviderData (Stable Beta : Type) : Type :=
| NoData
| Clients (clients : option (GraphClients Stable Beta))
| Other (goType : string).
Arguments NoData {Stable Beta}.
Arguments Clients {Stable Beta} clients.
Arguments Other {Stable Beta} goType.

End client.

(** * Package graphBetaAssignmentFilter

    The CRUD handlers of the assignment filter resource. The package is in the
    sources twice: crud.go, and an earlier revision that keeps the handlers
    next to the schema (here [part000]). The handlers take the response the
    framework prepared and return it as they leave it, with the calls they
    made to the Graph API. *)

Module graphBetaAssignmentFilter.

Definition Duration : Type := Z.
Definition Second : Duration := 1000000000%Z.

Inductive Operation : Type := OpCreate | OpRead | OpUpdate | OpDelete.

Section Handlers.

(** From the plugin framework: [types.List], [timeouts.Value] with its four
    accessors, and what [State.Set] reports for a model. *)
Variable tfList : Type.
Variable TimeoutsValue : Type.
Variable Timeout :
  Operation -> TimeoutsValue -> Duration -> Duration * Diagnostics.

(** part000, lines 35-47 *)
Record AssignmentFilterResourceModel : Type := {
  ID : types.String;
  DisplayName : types.String;
  Description : types.String;
  Platform : types.String;
  Rule : types.String;
  AssignmentFilterManagementType : types.String;
  CreatedDateTime : types.String;
  LastModifiedDateTime : types.String;
  RoleScopeTags : tfList;
  Payloads : tfList;
  Timeouts : TimeoutsValue
}.

(** [data.ID = v] *)
Definition SetID (v : types.String) (data : AssignmentFilterResourceModel)
  : AssignmentFilterResourceModel :=
  {| ID := v; DisplayName := DisplayName data;
     Description := Description data; Platform := Platform data;
     Rule := Rule data;
     AssignmentFilterManagementType := AssignmentFilterManagementType data;
     CreatedDateTime := CreatedDateTime data;
     LastModifiedDateTime := LastModifiedDateTime data;
     RoleScopeTags := RoleScopeTags data; Payloads := Payloads data;
     Timeouts := Timeouts data |}.

Variable SetDiagnostics : AssignmentFilterResourceModel -> Diagnostics.

(** From the Graph SDK: the assignment filter model with its identifier, the
    errors of the client, and the four requests. *)
Variable Filterable : Type.
Variable GetId : Filterable -> option string.
Variable GraphError : Type.
Variable Error : GraphError -> string.

Record GraphServiceClient : Type := {
  Post : Duration -> Filterable -> Filterable + GraphError;
  Get : Duration -> string -> Filterable + GraphError;
  Patch : Duration -> string -> Filterable -> Filterable + GraphError;
  Delete : Duration -> string -> option GraphError
}.

Inductive Call : Type :=
| CallPost (requestBody : Filterable)
| CallGet (id : string)
| CallPatch (id : string) (requestBody : Filterable)
| CallDelete (id : string).

(** From the rest of the repository: the error classifier of package common,
    and the constructor and the state mapper of this package. *)
Variable IsNotFoundError : GraphError -> bool.
Variable constructResource : AssignmentFilterResourceModel -> outcome Filterable.
Variable mapRemoteStateToTerraform :
  AssignmentFilterResourceModel -> Filterable -> AssignmentFilterResourceModel.

(** crud.go reads [r.isCreate]; part000, lines 29-33, has the other fields. *)
Record AssignmentFilterResource : Type := {
  client : option GraphServiceClient;
  ProviderTypeName : string;
  TypeName : string;
  isCreate : bool
}.

(** [req.Plan.Get(ctx, &data)] and [req.State.Get(ctx, &data)]: the decoded
    model and the diagnostics of the decoding. *)
Record Decoded : Type := {
  Get_data : AssignmentFilterResourceModel;
  Get_diags : Diagnostics
}.

Record CreateRequest : Type := { CreateRequest_Plan : Decoded }.
Record ReadRequest : Type := { ReadRequest_State : Decoded }.
Record UpdateRequest : Type := { UpdateRequest_Plan : Decoded }.
Record DeleteRequest : Type := { DeleteRequest_State : Decoded }.

(** The response: the diagnostics, and the state, [None] when the resource is
    not or no longer in it. *)
Record Response : Type := {
  Response_Diagnostics : Diagnostics;
  Response_State : option AssignmentFilterResourceModel
}.

Definition Diagnostics_Append (more : Diagnostics) (resp : Response)
  : Response :=
  {| Response_Diagnostics := Append (Response_Diagnostics resp) more;
     Response_State := Response_State resp |}.

Definition Diagnostics_AddError (s d : string) (resp : Response) : Response :=
  {| Response_Diagnostics := AddError (Response_Diagnostics resp) s d;
     Response_State := Response_State resp |}.

Definition Diagnostics_AddWarning (s d : string) (resp : Response)
  : Response :=
  {| Response_Diagnostics := AddWarning (Response_Diagnostics resp) s d;
     Response_State := Response_State resp |}.

(** [resp.State.RemoveResource(ctx)] *)
Definition State_RemoveResource (resp : Response) : Response :=
  {| Response_Diagnostics := Response_Diagnostics resp;
     Response_State := None |}.

(** [resp.Diagnostics.Append(resp.State.Set(ctx, &data)...)]: the framework
    stores the model unless encoding it reports an error. *)
Definition State_Set (data : AssignmentFilterResourceModel) (resp : Response)
  : Response :=
  {| Response_Diagnostics :=
       Append (Response_Diagnostics resp) (SetDiagnostics data);
     Response_State :=
       if HasError (SetDiagnostics data) then Response_State resp
       else Some data |}.

Inductive Ran : Type :=
| Returned (resp : Response) (calls : list Call)
| Crashed (calls : list Call).

(** *** crud.go *)

(** crud.go, lines 15-58 *)
Definition crud_Create (r : AssignmentFilterResource) (req : CreateRequest)
  (resp : Response) : Ran :=
  let plan := Get_data (CreateRequest_Plan req) in
  let resp := Diagnostics_Append (Get_diags (CreateRequest_Plan req)) resp in
  if HasError (Response_Diagnostics resp) then Returned resp [] else
  let (createTimeout, diags) :=
    Timeout OpCreate (Timeouts plan) (30 * Second)%Z in
  let resp := Diagnostics_Append diags resp in
  if HasError (Response_Diagnostics resp) then Returned resp [] else
  match constructResource plan with
  | Failed err =>
      Returned
        (Diagnostics_AddError "Error constructing assignment filter"
           ("Could not construct resource: " +++ ProviderTypeName r +++ "_"
            +++ TypeName r +++ ": " +++ err) resp) []
  | Panicked => Crashed []
  | Done requestBody =>
      match client r with
      | None => Crashed []
      | Some graph =>
          match Post graph createTimeout requestBody with
          | inr err =>
              Returned
                (Diagnostics_AddError "Error creating assignment filter"
                   ("Could not create assignment filter: " +++ Error err)
                   resp) [CallPost requestBody]
          | inl assignmentFilter =>
              match GetId assignmentFilter with
              | None => Crashed [CallPost requestBody]
              | Some id =>
                  let plan := SetID (types.StringValue id) plan in
                  let plan :=
                    mapRemoteStateToTerraform plan assignmentFilter in
                  Returned (State_Set plan resp) [CallPost requestBody]
              end
          end
      end
  end.

(** crud.go, lines 60-110 *)
Definition crud_Read (r : AssignmentFilterResource) (req : ReadRequest)
  (resp : Response) : Ran :=
  let state := Get_data (ReadRequest_State req) in
  let resp := Diagnostics_Append (Get_diags (ReadRequest_State req)) resp in
  if HasError (Response_Diagnostics resp) then Returned resp [] else
  if IsNull (ID state) || String.eqb (ValueString (ID state)) ""
  then
    Returned
      (Diagnostics_AddWarning "Unable to read assignment filter"
         "Assignment filter ID is empty or null. Unable to read assignment filter."
         resp) []
  else
  let (readTimeout, diags) :=
    Timeout OpRead (Timeouts state) (30 * Second)%Z in
  let resp := Diagnostics_Append diags resp in
  if HasError (Response_Diagnostics resp) then Returned resp [] else
  match client r with
  | None => Crashed []
  | Some graph =>
      match Get graph readTimeout (ValueString (ID state)) with
      | inr err =>
          if IsNotFoundError err
          then
            let resp :=
              Diagnostics_AddWarning "Assignment filter not found"
                ("Assignment filter with ID " +++ ValueString (ID state)
                 +++ " was not found. Removing from state.") resp in
            Returned (State_RemoveResource resp)
              [CallGet (ValueString (ID state))]
          else
            Returned
              (Diagnostics_AddError "Error reading assignment filter"
                 ("Could not read assignment filter with ID "
                  +++ ValueString (ID state) +++ ": " +++ Error err) resp)
              [CallGet (ValueString (ID state))]
      | inl assignmentFilter =>
          let state := mapRemoteStateToTerraform state assignmentFilter in
          Returned (State_Set state resp)
            [CallGet (ValueString (ID (Get_data (ReadRequest_State req))))]
      end
  end.

(** crud.go, lines 113-161 *)
Definition crud_Update (r : AssignmentFilterResource) (req : UpdateRequest)
  (resp : Response) : Ran :=
  let data := Get_data (UpdateRequest_Plan req) in
  let resp := Diagnostics_Append (Get_diags (UpdateRequest_Plan req)) resp in
  if HasError (Response_Diagnostics resp) then Returned resp [] else
  let (updateTimeout, diags) :=
    Timeout OpUpdate (Timeouts data) (30 * Second)%Z in
  let resp := Diagnostics_Append diags resp in
  if HasError (Response_Diagnostics resp) then Returned resp [] else
  match constructResource data with
  | Failed err =>
      Returned
        (Diagnostics_AddError "Error constructing assignment filter"
           ("Could not construct resource: " +++ ProviderTypeName r +++ "_"
            +++ TypeName r +++ ": " +++ err) resp) []
  | Panicked => Crashed []
  | Done requestBody =>
      match client r with
      | None => Crashed []
      | Some graph =>
          let calls := [CallPatch (ValueString (ID data)) requestBody] in
          match
            Patch graph updateTimeout (ValueString (ID data)) requestBody
          with
          | inr err =>
              if IsNotFoundError err && negb (isCreate r)
              then
                let resp :=
                  Diagnostics_AddWarning "Resource Not Found"
                    ("The resource: " +++ ProviderTypeName r +++ "_"
                     +++ TypeName r +++ " with ID " +++ ValueString (ID data)
                     +++ " was not found and will be removed from the state.")
                    resp in
                Returned (State_RemoveResource resp) calls
              else
                Returned
                  (Diagnostics_AddError "Error reading assignment filter"
                     ("Could not update resource: " +++ ProviderTypeName r
                      +++ "_" +++ TypeName r +++ ": " +++ Error err) resp)
                  calls
          | inl _ => Returned (State_Set data resp) calls
          end
      end
  end.

(** crud.go, lines 164-191 *)
Definition crud_Delete (r : AssignmentFilterResource) (req : DeleteRequest)
  (resp : Response) : Ran :=
  let data := Get_data (DeleteRequest_State req) in
  let resp := Diagnostics_Append (Get_diags (DeleteRequest_State req)) resp in
  if HasError (Response_Diagnostics resp) then Returned resp [] else
  let (deleteTimeout, diags) :=
    Timeout OpDelete (Timeouts data) (30 * Second)%Z in
  let resp := Diagnostics_Append diags resp in
  if HasError (Response_Diagnostics resp) then Returned resp [] else
  match client r with
  | None => Crashed []
  | Some graph =>
      match Delete graph deleteTimeout (ValueString (ID data)) with
      | Some err =>
          Returned
            (Diagnostics_AddError
               ("Client error when deleting " +++ ProviderTypeName r +++ "_"
                +++ TypeName r) (Error err) resp)
            [CallDelete (ValueString (ID data))]
      | None =>
          Returned (State_RemoveResource resp)
            [CallDelete (ValueString (ID data))]
      end
  end.

(** *** The earlier revision *)

(** part000, lines 178-229 *)
Definition part000_Create (r : AssignmentFilterResource) (req : CreateRequest)
  (resp : Response) : Ran :=
  let data := Get_data (CreateRequest_Plan req) in
  let resp := Diagnostics_Append (Get_diags (CreateRequest_Plan req)) resp in
  if HasError (Response_Diagnostics resp) then Returned resp [] else
  match client r with
  | None =>
      Returned
        (Diagnostics_AddError "Client is not initialized"
           "Cannot create assignment filter because the client is not initialized."
           resp) []
  | Some graph =>
      let (createTimeout, diags) :=
        Timeout OpCreate (Timeouts data) (30 * Second)%Z in
      let resp := Diagnostics_Append diags resp in
      if HasError (Response_Diagnostics resp) then Returned resp [] else
      match constructResource data with
      | Failed err =>
          Returned
            (Diagnostics_AddError "Error constructing assignment filter"
               ("Could not construct resource: " +++ ProviderTypeName r
                +++ "_" +++ TypeName r +++ ": " +++ err) resp) []
      | Panicked => Crashed []
      | Done requestBody =>
          match Post graph createTimeout requestBody with
          | inr err =>
              Returned
                (Diagnostics_AddError "Error creating assignment filter"
                   ("Could not create assignment filter: " +++ Error err)
                   resp) [CallPost requestBody]
          | inl assignmentFilter =>
              match GetId assignmentFilter with
              | None => Crashed [CallPost requestBody]
              | Some id =>
                  let data := SetID (types.StringValue id) data in
                  Returned (State_Set data resp) [CallPost requestBody]
              end
          end
      end
  end.

(** part000, lines 232-261 *)
Definition part000_Read (r : AssignmentFilterResource) (req : ReadRequest)
  (resp : Response) : Ran :=
  let data := Get_data (ReadRequest_State req) in
  let resp := Diagnostics_Append (Get_diags (ReadRequest_State req)) resp in
  if HasError (Response_Diagnostics resp) then Returned resp [] else
  let (readTimeout, diags) :=
    Timeout OpRead (Timeouts data) (30 * Second)%Z in
  let resp := Diagnostics_Append diags resp in
  if HasError (Response_Diagnostics resp) then Returned resp [] else
  match client r with
  | None => Crashed []
  | Some graph =>
      match Get graph readTimeout (ValueString (ID data)) with
      | inr err =>
          Returned
            (Diagnostics_AddError "Error reading assignment filter"
               ("Could not read assignment filter: " +++ Error err) resp)
            [CallGet (ValueString (ID data))]
      | inl remoteResource =>
          let data' := mapRemoteStateToTerraform data remoteResource in
          Returned (State_Set data' resp) [CallGet (ValueString (ID data))]
      end
  end.

(** part000, lines 264-305 *)
Definition part000_Update (r : AssignmentFilterResource) (req : UpdateRequest)
  (resp : Response) : Ran :=
  let data := Get_data (UpdateRequest_Plan req) in
  let resp := Diagnostics_Append (Get_diags (UpdateRequest_Plan req)) resp in
  if HasError (Response_Diagnostics resp) then Returned resp [] else
  let (updateTimeout, diags) :=
    Timeout OpUpdate (Timeouts data) (30 * Second)%Z in
  let resp := Diagnostics_Append diags resp in
  if HasError (Response_Diagnostics resp) then Returned resp [] else
  match constructResource data with
  | Failed err =>
      Returned
        (Diagnostics_AddError "Error constructing assignment filter"
           ("Could not construct resource: " +++ ProviderTypeName r +++ "_"
            +++ TypeName r +++ ": " +++ err) resp) []
  | Panicked => Crashed []
  | Done requestBody =>
      match client r with
      | None => Crashed []
      | Some graph =>
          let calls := [CallPatch (ValueString (ID data)) requestBody] in
          match
            Patch graph updateTimeout (ValueString (ID data)) requestBody
          with
          | inr err =>
              Returned
                (Diagnostics_AddError "Error updating assignment filter"
                   ("Could not update assignment filter: " +++ Error err)
                   resp) calls
          | inl _ => Returned (State_Set data resp) calls
          end
      end
  end.

(** part000, lines 308-336 *)
Definition part000_Delete (r : AssignmentFilterResource) (req : DeleteRequest)
  (resp : Response) : Ran :=
  let data := Get_data (DeleteRequest_State req) in
  let resp := Diagnostics_Append (Get_diags (DeleteRequest_State req)) resp in
  if HasError (Response_Diagnostics resp) then Returned resp [] else
  let (deleteTimeout, diags) :=
    Timeout OpDelete (Timeouts data) (30 * Second)%Z in
  let resp := Diagnostics_Append diags resp in
  if HasError (Response_Diagnostics resp) then Returned resp [] else
  match client r with
  | None => Crashed []
  | Some graph =>
      match Delete graph deleteTimeout (ValueString (ID data)) with
      | Some err =>
          Returned
            (Diagnostics_AddError
               ("Client error when deleting " +++ ProviderTypeName r +++ "_"
                +++ TypeName r) (Error err) resp)
            [CallDelete (ValueString (ID data))]
      | None =>
          Returned (State_RemoveResource resp)
            [CallDelete (ValueString (ID data))]
      end
  end.

(** *** Both revisions at once *)

Inductive Revision : Type := crud | part000.

Definition Create (v : Revision) :=
  match v with crud => crud_Create | part000 => part000_Create end.
Definition Read (v : Revision) :=
  match v with crud => crud_Read | part000 => part000_Read end.
Definition Update (v : Revision) :=
  match v with crud => crud_Update | part000 => part000_Update end.
Definition Delete_ (v : Revision) :=
  match v with crud => crud_Delete | part000 => part000_Delete end.

(** *** The common opening of the handlers

    Every handler decodes the plan or the state, then reads its timeout, and
    returns after either if the diagnostics hold an error. *)

Definition decoded_resp (d : Decoded) (resp : Response) : Response :=
  Diagnostics_Append (Get_diags d) resp.

Definition timeout_of (op : Operation) (d : Decoded) : Duration :=
  fst (Timeout op (Timeouts (Get_data d)) (30 * Second)%Z).

Definition timed_resp (op : Operation) (d : Decoded) (resp : Response)
  : Response :=
  Diagnostics_Append (snd (Timeout op (Timeouts (Get_data d)) (30 * Second)%Z))
    (decoded_resp d resp).

(** The decoding and the timeout leave no error in the diagnostics. *)
Definition proceeds (op : Operation) (d : Decoded) (resp : Response) : Prop :=
  HasError (Response_Diagnostics (decoded_resp d resp)) = false /\
  HasError (Response_Diagnostics (timed_resp op d resp)) = false.

(** Where a Create can fail: decoding the plan, constructing the request
    body, or the POST. *)
Definition Create_fails (r : AssignmentFilterResource) (req : CreateRequest)
  (resp : Response) : Prop :=
  let plan := CreateRequest_Plan req in
  HasError (Response_Diagnostics (decoded_resp plan resp)) = true
  \/ (proceeds OpCreate plan resp /\
      exists err, constructResource (Get_data plan) = Failed err)
  \/ (proceeds OpCreate plan resp /\
      exists requestBody graph err,
        constructResource (Get_data plan) = Done requestBody /\
        client r = Some graph /\
        Post graph (timeout_of OpCreate plan) requestBody = inr err).

(** The PATCH of an Update is reached and answers with an error. *)
Definition Patch_fails (r : AssignmentFilterResource) (req : UpdateRequest)
  (resp : Response) (requestBody : Filterable) (err : GraphError) : Prop :=
  let plan := UpdateRequest_Plan req in
  proceeds OpUpdate plan resp /\
  constructResource (Get_data plan) = Done requestBody /\
  exists graph,
    client r = Some graph /\
    Patch graph (timeout_of OpUpdate plan) (ValueString (ID (Get_data plan)))
      requestBody = inr err.

Definition warning (s d : string) : Diagnostic :=
  {| severity := SeverityWarning; summary := s; detail := d |}.

Definition error (s d : string) : Diagnostic :=
  {| severity := SeverityError; summary := s; detail := d |}.

Ltac open_handler Hp :=
  let Hd := fresh "Hd" in
  let Ht := fresh "Ht" in
  destruct Hp as [Hd Ht];
  unfold timed_resp, decoded_resp, timeout_of in *;
  cbv zeta;
  rewrite Hd;
  match goal with
  | |- context [Timeout ?op ?t ?d] =>
      destruct (Timeout op t d) as [timeout diags] eqn:?
  end;
  simpl fst in *; simpl snd in *;
  rewrite Ht.

(** *** Read *)

Lemma crud_Read_not_found r req resp graph err :
  let state := Get_data (ReadRequest_State req) in
  proceeds OpRead (ReadRequest_State req) resp ->
  IsNull (ID state) || String.eqb (ValueString (ID state)) "" = false ->
  client r = Some graph ->
  Get graph (timeout_of OpRead (ReadRequest_State req))
    (ValueString (ID state)) = inr err ->
  IsNotFoundError err = true ->
  crud_Read r req resp
  = Returned
      (State_RemoveResource
         (Diagnostics_AddWarning "Assignment filter not found"
            ("Assignment filter with ID " +++ ValueString (ID state)
             +++ " was not found. Removing from state.")
            (timed_resp OpRead (ReadRequest_State req) resp)))
      [CallGet (ValueString (ID state))].
Proof.
  intros state Hp Hid Hclient Hget Hnf. unfold crud_Read. subst state.
  open_handler Hp. rewrite Hid, Hclient, Hget, Hnf. reflexivity.
Qed.

Lemma part000_Read_error r req resp graph err :
  let data := Get_data (ReadRequest_State req) in
  proceeds OpRead (ReadRequest_State req) resp ->
  client r = Some graph ->
  Get graph (timeout_of OpRead (ReadRequest_State req))
    (ValueString (ID data)) = inr err ->
  part000_Read r req resp
  = Returned
      (Diagnostics_AddError "Error reading assignment filter"
         ("Could not read assignment filter: " +++ Error err)
         (timed_resp OpRead (ReadRequest_State req) resp))
      [CallGet (ValueString (ID data))].
Proof.
  intros data Hp Hclient Hget. unfold part000_Read. subst data.
  open_handler Hp. rewrite Hclient, Hget. reflexivity.
Qed.

Lemma crud_Read_without_ID r req resp :
  let state := Get_data (ReadRequest_State req) in
  HasError (Response_Diagnostics (decoded_resp (ReadRequest_State req) resp))
  = false ->
  IsNull (ID state) || String.eqb (ValueString (ID state)) "" = true ->
  crud_Read r req resp
  = Returned
      (Diagnostics_AddWarning "Unable to read assignment filter"
         "Assignment filter ID is empty or null. Unable to read assignment filter."
         (decoded_resp (ReadRequest_State req) resp))
      [].
Proof.
  intros state Hd Hid. unfold crud_Read. subst state.
  unfold decoded_resp in *. cbv zeta. rewrite Hd, Hid. reflexivity.
Qed.

(** *** Create *)

Lemma crud_Create_success r req resp graph requestBody assignmentFilter id :
  let plan := Get_data (CreateRequest_Plan req) in
  proceeds OpCreate (CreateRequest_Plan req) resp ->
  constructResource plan = Done requestBody ->
  client r = Some graph ->
  Post graph (timeout_of OpCreate (CreateRequest_Plan req)) requestBody
  = inl assignmentFilter ->
  GetId assignmentFilter = Some id ->
  crud_Create r req resp
  = Returned
      (State_Set
         (mapRemoteStateToTerraform (SetID (types.StringValue id) plan)
            assignmentFilter)
         (timed_resp OpCreate (CreateRequest_Plan req) resp))
      [CallPost requestBody].
Proof.
  intros plan Hp Hc Hclient Hpost Hid. unfold crud_Create. subst plan.
  open_handler Hp. rewrite Hc, Hclient, Hpost, Hid. reflexivity.
Qed.

Lemma part000_Create_success r req resp graph requestBody assignmentFilter id :
  let data := Get_data (CreateRequest_Plan req) in
  proceeds OpCreate (CreateRequest_Plan req) resp ->
  constructResource data = Done requestBody ->
  client r = Some graph ->
  Post graph (timeout_of OpCreate (CreateRequest_Plan req)) requestBody
  = inl assignmentFilter ->
  GetId assignmentFilter = Some id ->
  part000_Create r req resp
  = Returned
      (State_Set (SetID (types.StringValue id) data)
         (timed_resp OpCreate (CreateRequest_Plan req) resp))
      [CallPost requestBody].
Proof.
  intros data Hp Hc Hclient Hpost Hid. unfold part000_Create. subst data.
  destruct Hp as [Hd Ht].
  unfold timed_resp, decoded_resp, timeout_of in *. cbv zeta.
  rewrite Hd, Hclient.
  destruct (Timeout _ _ _) as [timeout diags]. simpl fst in *. simpl snd in *.
  rewrite Ht, Hc, Hpost, Hid. reflexivity.
Qed.

(** C6: a Create that fails at decoding the plan, at constructing the request
    body or at the POST returns with an error diagnostic and with the state
    as it was, in both revisions. *)
Theorem Create_failure_writes_no_state v r req resp :
  Create_fails r req resp ->
  exists resp' calls,
    Create v r req resp = Returned resp' calls /\
    HasError (Response_Diagnostics resp') = true /\
    Response_State resp' = Response_State resp.
Proof.
  intros [Hd|[[Hp (err & Hc)]|[Hp (requestBody & graph & err & Hc & Hcl & Hpost)]]].
  - destruct v; unfold Create, crud_Create, part000_Create;
      unfold decoded_resp in Hd; cbv zeta; rewrite Hd;
      eexists; eexists; (split; [reflexivity|]); (split; [exact Hd|reflexivity]).
  - destruct v; unfold Create.
    + unfold crud_Create. open_handler Hp. rewrite Hc.
      eexists; eexists. split; [reflexivity|].
      split; [apply HasError_AddError | reflexivity].
    + unfold part000_Create. destruct Hp as [Hd Ht].
      unfold timed_resp, decoded_resp, timeout_of in *. cbv zeta.
      rewrite Hd. destruct (client r).
      * destruct (Timeout _ _ _) as [timeout diags].
        simpl fst in *. simpl snd in *. rewrite Ht, Hc.
        eexists; eexists. split; [reflexivity|].
        split; [apply HasError_AddError | reflexivity].
      * eexists; eexists. split; [reflexivity|].
        split; [apply HasError_AddError | reflexivity].
  - destruct v; unfold Create.
    + unfold crud_Create. open_handler Hp. rewrite Hc, Hcl, Hpost.
      eexists; eexists. split; [reflexivity|].
      split; [apply HasError_AddError | reflexivity].
    + unfold part000_Create. destruct Hp as [Hd Ht].
      unfold timed_resp, decoded_resp, timeout_of in *. cbv zeta.
      rewrite Hd, Hcl.
      destruct (Timeout _ _ _) as [timeout diags].
      simpl fst in *. simpl snd in *. rewrite Ht, Hc, Hpost.
      eexists; eexists. split; [reflexivity|].
      split; [apply HasError_AddError | reflexivity].
Qed.

Lemma crud_Create_construct_error r req resp err :
  proceeds OpCreate (CreateRequest_Plan req) resp ->
  constructResource (Get_data (CreateRequest_Plan req)) = Failed err ->
  crud_Create r req resp
  = Returned
      (Diagnostics_AddError "Error constructing assignment filter"
         ("Could not construct resource: " +++ ProviderTypeName r +++ "_"
          +++ TypeName r +++ ": " +++ err)
         (timed_resp OpCreate (CreateRequest_Plan req) resp))
      [].
Proof.
  intros Hp Hc. unfold crud_Create. open_handler Hp. now rewrite Hc.
Qed.

(** *** Update *)

Lemma crud_Update_construct_error r req resp err :
  proceeds OpUpdate (UpdateRequest_Plan req) resp ->
  constructResource (Get_data (UpdateRequest_Plan req)) = Failed err ->
  crud_Update r req resp
  = Returned
      (Diagnostics_AddError "Error constructing assignment filter"
         ("Could not construct resource: " +++ ProviderTypeName r +++ "_"
          +++ TypeName r +++ ": " +++ err)
         (timed_resp OpUpdate (UpdateRequest_Plan req) resp))
      [].
Proof.
  intros Hp Hc. unfold crud_Update. open_handler Hp. now rewrite Hc.
Qed.

Lemma crud_Update_not_found r req resp requestBody err :
  let data := Get_data (UpdateRequest_Plan req) in
  Patch_fails r req resp requestBody err ->
  IsNotFoundError err = true ->
  isCreate r = false ->
  crud_Update r req resp
  = Returned
      (State_RemoveResource
         (Diagnostics_AddWarning "Resource Not Found"
            ("The resource: " +++ ProviderTypeName r +++ "_" +++ TypeName r
             +++ " with ID " +++ ValueString (ID data)
             +++ " was not found and will be removed from the state.")
            (timed_resp OpUpdate (UpdateRequest_Plan req) resp)))
      [CallPatch (ValueString (ID data)) requestBody].
Proof.
  intros data (Hp & Hc & graph & Hcl & Hpatch) Hnf Hflag.
  unfold crud_Update. subst data. open_handler Hp.
  rewrite Hc, Hcl, Hpatch, Hnf, Hflag. reflexivity.
Qed.

Lemma crud_Update_error r req resp requestBody err :
  let data := Get_data (UpdateRequest_Plan req) in
  Patch_fails r req resp requestBody err ->
  IsNotFoundError err && negb (isCreate r) = false ->
  crud_Update r req resp
  = Returned
      (Diagnostics_AddError "Error reading assignment filter"
         ("Could not update resource: " +++ ProviderTypeName r +++ "_"
          +++ TypeName r +++ ": " +++ Error err)
         (timed_resp OpUpdate (UpdateRequest_Plan req) resp))
      [CallPatch (ValueString (ID data)) requestBody].
Proof.
  intros data (Hp & Hc & graph & Hcl & Hpatch) Hcond.
  unfold crud_Update. subst data. open_handler Hp.
  rewrite Hc, Hcl, Hpatch, Hcond. reflexivity.
Qed.

Lemma part000_Update_error r req resp requestBody err :
  let data := Get_data (UpdateRequest_Plan req) in
  Patch_fails r req resp requestBody err ->
  part000_Update r req resp
  = Returned
      (Diagnostics_AddError "Error updating assignment filter"
         ("Could not update assignment filter: " +++ Error err)
         (timed_resp OpUpdate (UpdateRequest_Plan req) resp))
      [CallPatch (ValueString (ID data)) requestBody].
Proof.
  intros data (Hp & Hc & graph & Hcl & Hpatch).
  unfold part000_Update. subst data. open_handler Hp.
  rewrite Hc, Hcl, Hpatch. reflexivity.
Qed.

(** *** Delete *)

Lemma Delete_error v r req resp graph err :
  let data := Get_data (DeleteRequest_State req) in
  proceeds OpDelete (DeleteRequest_State req) resp ->
  client r = Some graph ->
  Delete graph (timeout_of OpDelete (DeleteRequest_State req))
    (ValueString (ID data)) = Some err ->
  Delete_ v r req resp
  = Returned
      (Diagnostics_AddError
         ("Client error when deleting " +++ ProviderTypeName r +++ "_"
          +++ TypeName r) (Error err)
         (timed_resp OpDelete (DeleteRequest_State req) resp))
      [CallDelete (ValueString (ID data))].
Proof.
  intros data Hp Hcl Hdel. subst data.
  destruct v; unfold Delete_, crud_Delete, part000_Delete;
    open_handler Hp; rewrite Hcl, Hdel; reflexivity.
Qed.

Lemma Delete_success v r req resp graph :
  let data := Get_data (DeleteRequest_State req) in
  proceeds OpDelete (DeleteRequest_State req) resp ->
  client r = Some graph ->
  Delete graph (timeout_of OpDelete (DeleteRequest_State req))
    (ValueString (ID data)) = None ->
  Delete_ v r req resp
  = Returned
      (State_RemoveResource (timed_resp OpDelete (DeleteRequest_State req) resp))
      [CallDelete (ValueString (ID data))].
Proof.
  intros data Hp Hcl Hdel. subst data.
  destruct v; unfold Delete_, crud_Delete, part000_Delete;
    open_handler Hp; rewrite Hcl, Hdel; reflexivity.
Qed.

(** ** Properties of the handlers *)

(** In crud.go a not-found answer to the GET of a Read removes the resource
    from the state with a warning and without an error. *)
Lemma crud_Read_not_found_removes_state r req resp graph err :
  let state := Get_data (ReadRequest_State req) in
  proceeds OpRead (ReadRequest_State req) resp ->
  IsNull (ID state) || String.eqb (ValueString (ID state)) "" = false ->
  client r = Some graph ->
  Get graph (timeout_of OpRead (ReadRequest_State req))
    (ValueString (ID state)) = inr err ->
  IsNotFoundError err = true ->
  exists resp',
    crud_Read r req resp = Returned resp' [CallGet (ValueString (ID state))] /\
    Response_State resp' = None /\
    In (warning "Assignment filter not found"
          ("Assignment filter with ID " +++ ValueString (ID state)
           +++ " was not found. Removing from state."))
       (Response_Diagnostics resp') /\
    HasError (Response_Diagnostics resp') = false.
Proof.
  intros state Hp Hid Hcl Hget Hnf.
  rewrite (crud_Read_not_found r req resp graph err Hp Hid Hcl Hget Hnf).
  eexists. split; [reflexivity|]. split; [reflexivity|]. split.
  - simpl. unfold AddWarning. apply in_or_app. right. now left.
  - simpl. rewrite HasError_AddWarning. apply Hp.
Qed.

(** C1 (the earlier revision breaks it): when the GET of a Read fails with an
    error classified as not-found, the Read of the earlier revision adds an
    error diagnostic and leaves the resource in the state, where crud.go
    removes it with a warning. *)
Theorem part000_Read_not_found_is_hard_error r req resp graph err :
  let data := Get_data (ReadRequest_State req) in
  proceeds OpRead (ReadRequest_State req) resp ->
  client r = Some graph ->
  Get graph (timeout_of OpRead (ReadRequest_State req))
    (ValueString (ID data)) = inr err ->
  IsNotFoundError err = true ->
  exists resp',
    Read part000 r req resp
    = Returned resp' [CallGet (ValueString (ID data))] /\
    In (error "Error reading assignment filter"
          ("Could not read assignment filter: " +++ Error err))
       (Response_Diagnostics resp') /\
    HasError (Response_Diagnostics resp') = true /\
    Response_State resp' = Response_State resp.
Proof.
  intros data Hp Hcl Hget _. unfold Read.
  rewrite (part000_Read_error r req resp graph err Hp Hcl Hget).
  eexists. split; [reflexivity|]. split; [|split].
  - simpl. unfold AddError. apply in_or_app. right. now left.
  - apply HasError_AddError.
  - reflexivity.
Qed.

(** In crud.go a successful Create persists what the state mapper made of the
    plan, the new identifier and the Graph response. *)
Lemma crud_Create_persists_mapped_state
  r req resp graph requestBody assignmentFilter id :
  let plan := Get_data (CreateRequest_Plan req) in
  let mapped :=
    mapRemoteStateToTerraform (SetID (types.StringValue id) plan)
      assignmentFilter in
  proceeds OpCreate (CreateRequest_Plan req) resp ->
  constructResource plan = Done requestBody ->
  client r = Some graph ->
  Post graph (timeout_of OpCreate (CreateRequest_Plan req)) requestBody
  = inl assignmentFilter ->
  GetId assignmentFilter = Some id ->
  HasError (SetDiagnostics mapped) = false ->
  exists resp',
    crud_Create r req resp = Returned resp' [CallPost requestBody] /\
    Response_State resp' = Some mapped.
Proof.
  intros plan mapped Hp Hc Hcl Hpost Hid Hset.
  rewrite (crud_Create_success r req resp graph requestBody assignmentFilter id Hp Hc Hcl Hpost Hid).
  eexists. split; [reflexivity|]. simpl. fold plan. fold mapped.
  now rewrite Hset.
Qed.

(** C5 (the earlier revision breaks it): a successful Create of the earlier
    revision persists the plan with the new identifier and never calls the
    state mapper, so the computed fields stay as they were planned. *)
Theorem part000_Create_persists_without_state_mapper
  r req resp graph requestBody assignmentFilter id :
  let data := Get_data (CreateRequest_Plan req) in
  proceeds OpCreate (CreateRequest_Plan req) resp ->
  constructResource data = Done requestBody ->
  client r = Some graph ->
  Post graph (timeout_of OpCreate (CreateRequest_Plan req)) requestBody
  = inl assignmentFilter ->
  GetId assignmentFilter = Some id ->
  HasError (SetDiagnostics (SetID (types.StringValue id) data)) = false ->
  exists resp' persisted,
    Create part000 r req resp = Returned resp' [CallPost requestBody] /\
    Response_State resp' = Some persisted /\
    persisted = SetID (types.StringValue id) data /\
    CreatedDateTime persisted = CreatedDateTime data /\
    LastModifiedDateTime persisted = LastModifiedDateTime data.
Proof.
  intros data Hp Hc Hcl Hpost Hid Hset. unfold Create.
  rewrite (part000_Create_success r req resp graph requestBody assignmentFilter id Hp Hc Hcl Hpost Hid).
  eexists. eexists. split; [reflexivity|]. simpl. fold data.
  rewrite Hset. repeat split; reflexivity.
Qed.

(** C7: on a PATCH error the earlier revision always adds an error diagnostic
    and leaves the state; crud.go does the same unless the error is
    not-found and [isCreate] is unset, in which case it removes the resource
    from the state with a warning. The two then differ. *)
Theorem Update_revisions_differ_on_not_found r req resp requestBody err :
  let calls :=
    [CallPatch (ValueString (ID (Get_data (UpdateRequest_Plan req))))
       requestBody] in
  Patch_fails r req resp requestBody err ->
  (exists resp',
      Update part000 r req resp = Returned resp' calls /\
      HasError (Response_Diagnostics resp') = true /\
      Response_State resp' = Response_State resp)
  /\ (IsNotFoundError err && negb (isCreate r) = false ->
      exists resp',
        Update crud r req resp = Returned resp' calls /\
        HasError (Response_Diagnostics resp') = true /\
        Response_State resp' = Response_State resp)
  /\ (IsNotFoundError err = true -> isCreate r = false ->
      (exists resp',
          Update crud r req resp = Returned resp' calls /\
          HasError (Response_Diagnostics resp') = false /\
          existsb is_warning (Response_Diagnostics resp') = true /\
          Response_State resp' = None)
      /\ Update crud r req resp <> Update part000 r req resp).
Proof.
  intros calls Hfail. unfold Update. split; [|split].
  - rewrite (part000_Update_error r req resp requestBody err Hfail).
    eexists. split; [reflexivity|].
    split; [apply HasError_AddError | reflexivity].
  - intros Hcond. rewrite (crud_Update_error r req resp requestBody err Hfail Hcond).
    eexists. split; [reflexivity|].
    split; [apply HasError_AddError | reflexivity].
  - intros Hnf Hflag.
    rewrite (crud_Update_not_found r req resp requestBody err Hfail Hnf Hflag).
    rewrite (part000_Update_error r req resp requestBody err Hfail).
    split.
    + eexists. split; [reflexivity|]. simpl. split; [|split].
      * rewrite HasError_AddWarning. apply Hfail.
      * unfold AddWarning. rewrite existsb_app. simpl.
        now rewrite orb_true_r.
      * reflexivity.
    + intros Heq. injection Heq as Heq.
      unfold AddWarning, AddError in Heq.
      apply app_inv_head in Heq. discriminate.
Qed.

(** C8: when the DELETE answers with an error, not-found or other, a Delete
    adds an error diagnostic and leaves the state; when it succeeds the
    resource is removed from the state. Both revisions. *)
Theorem Delete_error_keeps_state_success_removes_it v r req resp graph :
  let data := Get_data (DeleteRequest_State req) in
  let answer :=
    Delete graph (timeout_of OpDelete (DeleteRequest_State req))
      (ValueString (ID data)) in
  proceeds OpDelete (DeleteRequest_State req) resp ->
  client r = Some graph ->
  exists resp',
    Delete_ v r req resp = Returned resp' [CallDelete (ValueString (ID data))]
    /\ match answer with
       | Some err =>
           In (error ("Client error when deleting " +++ ProviderTypeName r
                      +++ "_" +++ TypeName r) (Error err))
             (Response_Diagnostics resp') /\
           HasError (Response_Diagnostics resp') = true /\
           Response_State resp' = Response_State resp
       | None =>
           Response_State resp' = None /\
           HasError (Response_Diagnostics resp') = false
       end.
Proof.
  intros data answer Hp Hcl. destruct answer as [err|] eqn:E.
  - rewrite (Delete_error v r req resp graph err Hp Hcl E).
    eexists. split; [reflexivity|]. split; [|split].
    + simpl. unfold AddError. apply in_or_app. right. now left.
    + apply HasError_AddError.
    + reflexivity.
  - rewrite (Delete_success v r req resp graph Hp Hcl E).
    eexists. split; [reflexivity|]. split; [reflexivity|]. apply Hp.
Qed.

(** C10: a Read of crud.go whose stored identifier is null or the empty
    string returns with one more warning, no error of its own, no call to the
    Graph API, and the state as it was. *)
Theorem crud_Read_without_ID_returns_early r req resp :
  let state := Get_data (ReadRequest_State req) in
  HasError (Response_Diagnostics (decoded_resp (ReadRequest_State req) resp))
  = false ->
  IsNull (ID state) = true \/ ValueString (ID state) = "" ->
  exists resp',
    Read crud r req resp = Returned resp' [] /\
    In (warning "Unable to read assignment filter"
          "Assignment filter ID is empty or null. Unable to read assignment filter.")
       (Response_Diagnostics resp') /\
    HasError (Response_Diagnostics resp') = false /\
    Response_State resp' = Response_State resp.
Proof.
  intros state Hd Hid. unfold Read.
  assert (Hguard : IsNull (ID state)
                   || String.eqb (ValueString (ID state)) "" = true).
  { destruct Hid as [-> | ->]; [reflexivity | apply orb_true_r]. }
  rewrite (crud_Read_without_ID r req resp Hd Hguard).
  eexists. split; [reflexivity|]. split; [|split].
  - simpl. unfold AddWarning. apply in_or_app. right. now left.
  - simpl. rewrite HasError_AddWarning. exact Hd.
  - reflexivity.
Qed.

(** A constructor error makes Create and Update of crud.go return with an
    error diagnostic that carries it, before any call to the Graph API, and
    with the state as it was. *)
Lemma crud_construct_error_aborts r err :
  (forall req resp,
      proceeds OpCreate (CreateRequest_Plan req) resp ->
      constructResource (Get_data (CreateRequest_Plan req)) = Failed err ->
      exists resp',
        crud_Create r req resp = Returned resp' [] /\
        In (error "Error constructing assignment filter"
              ("Could not construct resource: " +++ ProviderTypeName r
               +++ "_" +++ TypeName r +++ ": " +++ err))
           (Response_Diagnostics resp') /\
        HasError (Response_Diagnostics resp') = true /\
        Response_State resp' = Response_State resp)
  /\ (forall req resp,
      proceeds OpUpdate (UpdateRequest_Plan req) resp ->
      constructResource (Get_data (UpdateRequest_Plan req)) = Failed err ->
      exists resp',
        crud_Update r req resp = Returned resp' [] /\
        In (error "Error constructing assignment filter"
              ("Could not construct resource: " +++ ProviderTypeName r
               +++ "_" +++ TypeName r +++ ": " +++ err))
           (Response_Diagnostics resp') /\
        HasError (Response_Diagnostics resp') = true /\
        Response_State resp' = Response_State resp).
Proof.
  split; intros req resp Hp Hc.
  - rewrite (crud_Create_construct_error r req resp err Hp Hc).
    eexists. split; [reflexivity|]. split; [|split].
    + simpl. unfold AddError. apply in_or_app. right. now left.
    + apply HasError_AddError.
    + reflexivity.
  - rewrite (crud_Update_construct_error r req resp err Hp Hc).
    eexists. split; [reflexivity|]. split; [|split].
    + simpl. unfold AddError. apply in_or_app. right. now left.
    + apply HasError_AddError.
    + reflexivity.
Qed.


(** ** The handlers as one function

    The four operations of a revision, so that a property of all of them is
    stated once. *)

Inductive Invocation : Type :=
| InvokeCreate (req : CreateRequest)
| InvokeRead (req : ReadRequest)
| InvokeUpdate (req : UpdateRequest)
| InvokeDelete (req : DeleteRequest).

Definition invoke (v : Revision) (r : AssignmentFilterResource)
  (i : Invocation) (resp : Response) : Ran :=
  match i with
  | InvokeCreate req => Create v r req resp
  | InvokeRead req => Read v r req resp
  | InvokeUpdate req => Update v r req resp
  | InvokeDelete req => Delete_ v r req resp
  end.

Definition operation_of (i : Invocation) : Operation :=
  match i with
  | InvokeCreate _ => OpCreate
  | InvokeRead _ => OpRead
  | InvokeUpdate _ => OpUpdate
  | InvokeDelete _ => OpDelete
  end.

(** What the handler decodes: the plan for Create and Update, the state for
    Read and Delete. *)
Definition decoded_of (i : Invocation) : Decoded :=
  match i with
  | InvokeCreate req => CreateRequest_Plan req
  | InvokeRead req => ReadRequest_State req
  | InvokeUpdate req => UpdateRequest_Plan req
  | InvokeDelete req => DeleteRequest_State req
  end.

Definition calls_of (ran : Ran) : list Call :=
  match ran with
  | Returned _ calls => calls
  | Crashed calls => calls
  end.

(** The request an operation sends, if it gets that far: the constructed
    request body for Create and Update, the identifier of the decoded model
    for all but Create. *)
Definition request_of (i : Invocation) : option Call :=
  let data := Get_data (decoded_of i) in
  match i with
  | InvokeCreate _ =>
      match constructResource data with
      | Done requestBody => Some (CallPost requestBody)
      | _ => None
      end
  | InvokeRead _ => Some (CallGet (ValueString (ID data)))
  | InvokeUpdate _ =>
      match constructResource data with
      | Done requestBody =>
          Some (CallPatch (ValueString (ID data)) requestBody)
      | _ => None
      end
  | InvokeDelete _ => Some (CallDelete (ValueString (ID data)))
  end.

(** Only the Read of crud.go looks at the identifier before its request
    (lines 70-76): it returns if the identifier is null or empty. *)
Definition stops_without_ID (v : Revision) (i : Invocation) : bool :=
  match v, i with
  | crud, InvokeRead req =>
      let state := Get_data (ReadRequest_State req) in
      IsNull (ID state) || String.eqb (ValueString (ID state)) ""
  | _, _ => false
  end.

Lemma HasError_Append ds more :
  HasError (Append ds more) = HasError ds || HasError more.
Proof. unfold HasError, Append. apply existsb_app. Qed.

(** Every path through a handler. *)
Ltac handler_paths :=
  unfold invoke, Create, Read, Update, Delete_,
    crud_Create, crud_Read, crud_Update, crud_Delete,
    part000_Create, part000_Read, part000_Update, part000_Delete;
  cbv zeta;
  repeat match goal with
         | |- context [if ?b then _ else _] => destruct b eqn:?
         | |- context [match ?x with _ => _ end] => destruct x eqn:?
         end.

(** From the boolean facts the paths leave behind. *)
Ltac no_error :=
  unfold HasError, Append, AddWarning, AddError in *;
  rewrite ?existsb_app in *; simpl in *;
  repeat match goal with
         | H : _ || _ = false |- _ =>
             apply orb_false_elim in H; destruct H
         end;
  repeat match goal with
         | H : existsb is_error ?x = false, H' : context [existsb is_error ?x]
           |- _ => rewrite H in H'
         | H : existsb is_error ?x = false |- context [existsb is_error ?x] =>
             rewrite H
         end;
  simpl in *; try discriminate; try congruence.

Ltac use_timeout :=
  repeat match goal with
         | E : Timeout _ _ _ = _, H : context [Timeout _ _ _] |- _ =>
             rewrite E in H; simpl in H
         end.

(** X6: whatever the operation and the revision, a handler that returns with
    an error among the diagnostics returns the state it was given. *)
Theorem error_leaves_state v r i resp resp' calls :
  invoke v r i resp = Returned resp' calls ->
  HasError (Response_Diagnostics resp') = true ->
  Response_State resp' = Response_State resp.
Proof.
  destruct v, i; handler_paths; intros H Herr;
    try discriminate; injection H as <- <-; simpl in *;
    try reflexivity; no_error.
  all: match goal with
       | H : ?b = true |- (if ?b then _ else _) = _ => now rewrite H
       end.
Qed.

(** X7: a handler only adds to the diagnostics: those of the response it was
    given come first in the response it returns, unchanged. *)
Theorem diagnostics_only_grow v r i resp resp' calls :
  invoke v r i resp = Returned resp' calls ->
  exists more,
    Response_Diagnostics resp' = Response_Diagnostics resp ++ more.
Proof.
  destruct v, i; handler_paths; intros H;
    try discriminate; injection H as <- <-; simpl;
    unfold Append, AddError, AddWarning; rewrite <- ?app_assoc;
    eexists; reflexivity.
Qed.

(** X8: whatever happens, crash included, a handler makes at most one call
    to the Graph API, and that call is the request of its operation: the POST
    of the constructed request body for Create, the GET, PATCH or DELETE on
    the decoded model's identifier for the others. *)
Theorem at_most_the_one_request v r i resp :
  calls_of (invoke v r i resp) = []
  \/ exists call,
      request_of i = Some call /\ calls_of (invoke v r i resp) = [call].
Proof.
  destruct v, i; unfold request_of, decoded_of; handler_paths; simpl;
    first [ now left | right; eexists; split; reflexivity ].
Qed.

(** X9: when decoding the plan or the state, or reading the timeout, leaves
    an error in the diagnostics, the handler returns without calling the
    Graph API and with the state it was given; it does so even without a
    client and whatever the constructor would do. *)
Theorem early_error_makes_no_call v r i resp :
  HasError
    (Response_Diagnostics (timed_resp (operation_of i) (decoded_of i) resp))
  = true ->
  exists resp',
    invoke v r i resp = Returned resp' [] /\
    Response_State resp' = Response_State resp.
Proof.
  unfold timed_resp, decoded_resp. simpl. intros Herr.
  destruct v, i; handler_paths; simpl in *;
    try (eexists; split; reflexivity);
    exfalso; use_timeout; no_error.
Qed.


(** X11: without a client, the Create of the earlier revision reports that
    the client is not initialized, before it reads the timeout or constructs
    anything; every other handler that gets as far as its request crashes. *)
Theorem handlers_without_client v r i resp :
  client r = None ->
  proceeds (operation_of i) (decoded_of i) resp ->
  request_of i <> None ->
  stops_without_ID v i = false ->
  match v, i with
  | part000, InvokeCreate _ =>
      invoke v r i resp
      = Returned
          (Diagnostics_AddError "Client is not initialized"
             "Cannot create assignment filter because the client is not initialized."
             (decoded_resp (decoded_of i) resp))
          []
  | _, _ => invoke v r i resp = Crashed []
  end.
Proof.
  intros Hclient [Hd Ht] Hrequest Hguard.
  unfold timed_resp, decoded_resp in *. simpl in Hd, Ht.
  destruct v, i; unfold request_of in Hrequest; simpl in *;
    handler_paths; simpl in *;
    try reflexivity; try congruence; try (exfalso; use_timeout; no_error).
Qed.

(** X12: once decoding and timeout pass and, for Create and Update, the
    request body is constructed, the request is sent, whatever identifier the
    decoded model holds, the empty one included; only the Read of crud.go
    first returns on a missing identifier. *)
Theorem request_is_sent v r i resp graph call :
  proceeds (operation_of i) (decoded_of i) resp ->
  client r = Some graph ->
  request_of i = Some call ->
  stops_without_ID v i = false ->
  calls_of (invoke v r i resp) = [call].
Proof.
  intros [Hd Ht] Hclient Hrequest Hguard.
  unfold timed_resp, decoded_resp in *. simpl in Hd, Ht.
  destruct v, i; unfold request_of in Hrequest; simpl in *;
    handler_paths; simpl in *;
    try congruence; try (exfalso; use_timeout; no_error).
Qed.

(** X13: the Read of crud.go takes the resource out of a state that held it
    exactly when its GET failed with an error classified as not-found; the
    Read of the earlier revision never takes it out. *)
Theorem Read_removes_only_on_not_found r req resp resp' calls :
  Response_State resp <> None ->
  (Read crud r req resp = Returned resp' calls ->
   (Response_State resp' = None <->
    exists graph err,
      client r = Some graph /\
      calls = [CallGet (ValueString (ID (Get_data (ReadRequest_State req))))]
      /\ Get graph (timeout_of OpRead (ReadRequest_State req))
           (ValueString (ID (Get_data (ReadRequest_State req)))) = inr err
      /\ IsNotFoundError err = true))
  /\ (Read part000 r req resp = Returned resp' calls ->
      Response_State resp' <> None).
Proof.
  intros Hstate. unfold timeout_of. split.
  - handler_paths; intros H; try discriminate; injection H as <- <-;
      simpl; use_timeout; split.
    all: try (intros (graph & err & Hc & Hcalls & Hget & Hnf);
              first [ discriminate | reflexivity
                    | injection Hc as <-; congruence ]).
    all: intros Hnone; try contradiction.
    all: try (now (do 2 eexists; repeat split; eauto)).
    all: exfalso;
      match goal with
      | H : (if ?b then _ else _) = None |- _ =>
          destruct b; [contradiction | discriminate]
      end.
  - handler_paths; intros H; try discriminate; injection H as <- <-;
      simpl; try assumption;
      match goal with
      | |- (if ?b then _ else _) <> None =>
          destruct b; [assumption | discriminate]
      end.
Qed.

(** X14: a Read whose GET succeeds persists what the state mapper makes of
    the decoded state and the answer, and adds to the diagnostics only what
    storing it reports; both revisions, the one request made. *)
Theorem Read_persists_mapped_state v r req resp graph remote :
  let state := Get_data (ReadRequest_State req) in
  proceeds OpRead (ReadRequest_State req) resp ->
  stops_without_ID v (InvokeRead req) = false ->
  client r = Some graph ->
  Get graph (timeout_of OpRead (ReadRequest_State req))
    (ValueString (ID state)) = inl remote ->
  Read v r req resp
  = Returned
      (State_Set (mapRemoteStateToTerraform state remote)
         (timed_resp OpRead (ReadRequest_State req) resp))
      [CallGet (ValueString (ID state))].
Proof.
  intros state [Hd Ht] Hguard Hclient Hget. subst state.
  unfold timed_resp, decoded_resp, timeout_of in *. simpl in Hd, Ht, Hguard.
  destruct v; handler_paths; simpl in *;
    try congruence; try (exfalso; use_timeout; no_error).
  all: use_timeout; congruence.
Qed.

(** X15: an Update whose PATCH succeeds persists the plan as it was decoded:
    the answer to the PATCH is not looked at and the state mapper is not
    called, in either revision. *)
Theorem Update_persists_the_plan v r req resp graph requestBody answer :
  let data := Get_data (UpdateRequest_Plan req) in
  proceeds OpUpdate (UpdateRequest_Plan req) resp ->
  constructResource data = Done requestBody ->
  client r = Some graph ->
  Patch graph (timeout_of OpUpdate (UpdateRequest_Plan req))
    (ValueString (ID data)) requestBody = inl answer ->
  Update v r req resp
  = Returned
      (State_Set data (timed_resp OpUpdate (UpdateRequest_Plan req) resp))
      [CallPatch (ValueString (ID data)) requestBody].
Proof.
  intros data [Hd Ht] Hc Hclient Hpatch. subst data.
  unfold timed_resp, decoded_resp, timeout_of in *. simpl in Hd, Ht.
  destruct v; handler_paths; simpl in *;
    try congruence; try (exfalso; use_timeout; no_error).
  all: use_timeout; congruence.
Qed.

(** What a Create stores after its POST: the plan with the new identifier,
    passed through the state mapper in crud.go only. *)
Definition created_model (v : Revision) (plan : AssignmentFilterResourceModel)
  (assignmentFilter : Filterable) (id : string)
  : AssignmentFilterResourceModel :=
  match v with
  | crud =>
      mapRemoteStateToTerraform (SetID (types.StringValue id) plan)
        assignmentFilter
  | part000 => SetID (types.StringValue id) plan
  end.

(** X16: a POST that succeeded is not undone. If the answer carries no
    identifier the Create crashes, and if storing the model reports an error
    the Create returns that error with the state it was given; either way
    the POST is the only call that was made. *)
Theorem created_but_not_recorded v r req resp graph requestBody created :
  let plan := Get_data (CreateRequest_Plan req) in
  proceeds OpCreate (CreateRequest_Plan req) resp ->
  constructResource plan = Done requestBody ->
  client r = Some graph ->
  Post graph (timeout_of OpCreate (CreateRequest_Plan req)) requestBody
  = inl created ->
  match GetId created with
  | None => Create v r req resp = Crashed [CallPost requestBody]
  | Some id =>
      HasError (SetDiagnostics (created_model v plan created id)) = true ->
      exists resp',
        Create v r req resp = Returned resp' [CallPost requestBody] /\
        HasError (Response_Diagnostics resp') = true /\
        Response_State resp' = Response_State resp
  end.
Proof.
  intros plan [Hd Ht] Hc Hclient Hpost. subst plan.
  unfold timed_resp, decoded_resp, timeout_of in *. simpl in Hd, Ht.
  destruct (GetId created) as [id|] eqn:Hid; [intros Hset|].
  - destruct v; unfold created_model in Hset; handler_paths; simpl in *;
      try congruence; try solve [exfalso; use_timeout; no_error].
    all: use_timeout.
    all: match goal with
         | Hb : Done ?a = Done ?b, Hg : Some ?g = Some ?g',
           Hp : Post ?g ?d ?a = inl ?f, Hp' : Post ?g' ?d ?b = inl ?f',
           Hs : GetId ?f = Some ?s, Hs' : GetId ?f' = Some ?s' |- _ =>
             assert (a = b) by congruence; assert (g = g') by congruence;
             subst a g; assert (f = f') by congruence; subst f;
             assert (s = s') by congruence; subst s
         end.
    all: eexists; split; [reflexivity|]; simpl; rewrite Hset;
      split; [|reflexivity].
    all: rewrite HasError_Append, Hset; apply orb_true_r.
  - destruct v; handler_paths; simpl in *;
      try congruence; try solve [exfalso; use_timeout; no_error].
    all: use_timeout; congruence.
Qed.

(** ** The resource before its handlers run

    The earlier revision has the resource's constructor, [Metadata] and
    [Configure] next to the handlers. *)

(** The stable client of the provider data, which this package never uses. *)
Variable StableGraphServiceClient : Type.

(** part000, lines 25-27 *)
Definition NewAssignmentFilterResource : AssignmentFilterResource :=
  {| client := None; ProviderTypeName := ""; TypeName := "";
     isCreate := false |}.

(** part000, lines 50-52: what is left in [resp.TypeName] *)
Definition part000_Metadata (providerTypeName : string) : string :=
  providerTypeName
  +++ "_graph_beta_device_and_app_management_assignment_filter".

(** [r.client = v] *)
Definition set_client (v : GraphServiceClient) (r : AssignmentFilterResource)
  : AssignmentFilterResource :=
  {| client := Some v; ProviderTypeName := ProviderTypeName r;
     TypeName := TypeName r; isCreate := isCreate r |}.

(** part000, lines 55-85: the resource and [resp.Diagnostics] as Configure
    leaves them; [None] when it dereferences a nil [*client.GraphClients]. *)
Definition part000_Configure (r : AssignmentFilterResource)
  (ProviderData :
     client.ProviderData StableGraphServiceClient GraphServiceClient)
  (diags : Diagnostics) : option (AssignmentFilterResource * Diagnostics) :=
  match ProviderData with
  | client.NoData =>
      Some (r,
        AddError diags "Provider not configured"
          "The provider hasn't been configured before apply, likely because it depends on an unknown value from another resource. This leads to weird stuff happening, so we reject this. Please report this to the provider developers.")
  | client.Other goType =>
      Some (r,
        AddError diags "Unexpected Provider Data Type"
          ("Expected *client.GraphClients, got: " +++ goType
           +++ ". Please report this issue to the provider developers."))
  | client.Clients None => None
  | client.Clients (Some clients) =>
      match client.BetaClient clients with
      | None =>
          Some (r,
            AddError diags "BetaClient is nil"
              "The BetaClient in the provider data is nil. This could indicate a configuration error in the provider. Please check your provider configuration and try again.")
      | Some beta => Some (set_client beta r, diags)
      end
  end.

(** X17: when Configure returns, either it has stored the beta client of the
    provider data and added no diagnostic, or it has added one error and left
    the resource as it was; so a Configure without error leaves a resource
    with a client. The two name fields are never written. *)
Theorem Configure_sets_client_or_reports r data diags r' diags' :
  part000_Configure r data diags = Some (r', diags') ->
  (ProviderTypeName r' = ProviderTypeName r /\ TypeName r' = TypeName r) /\
  (HasError diags' = false ->
   exists clients beta,
     data = client.Clients (Some clients) /\
     client.BetaClient clients = Some beta /\
     client r' = Some beta /\ diags' = diags) /\
  (HasError diags' = true -> HasError diags = false ->
   r' = r /\ exists s d, diags' = AddError diags s d).
Proof.
  unfold part000_Configure. intros H.
  destruct data as [|[clients|]|goType]; try discriminate.
  - injection H as <- <-. rewrite HasError_AddError.
    repeat split; try discriminate. now eexists _, _.
  - destruct (client.BetaClient clients) as [beta|] eqn:Hbeta;
      injection H as <- <-.
    + repeat split; try congruence. now exists clients, beta.
    + rewrite HasError_AddError.
      repeat split; try discriminate. now eexists _, _.
  - injection H as <- <-. rewrite HasError_AddError.
    repeat split; try discriminate. now eexists _, _.
Qed.

(** X18: nothing in the earlier revision writes the resource's two name
    fields: a resource made by its constructor and configured without error
    still has them empty, so the detail of a construction error of its
    Create and Update reads "Could not construct resource: _: <error>" and
    does not name the resource, whatever [Metadata] reported. *)
Theorem construct_error_names_no_resource data diags r' diags' err :
  part000_Configure NewAssignmentFilterResource data diags
  = Some (r', diags') ->
  HasError diags' = false ->
  (forall req resp,
     proceeds OpCreate (CreateRequest_Plan req) resp ->
     constructResource (Get_data (CreateRequest_Plan req)) = Failed err ->
     Create part000 r' req resp
     = Returned
         (Diagnostics_AddError "Error constructing assignment filter"
            ("Could not construct resource: _: " +++ err)
            (timed_resp OpCreate (CreateRequest_Plan req) resp)) []) /\
  (forall req resp,
     proceeds OpUpdate (UpdateRequest_Plan req) resp ->
     constructResource (Get_data (UpdateRequest_Plan req)) = Failed err ->
     Update part000 r' req resp
     = Returned
         (Diagnostics_AddError "Error constructing assignment filter"
            ("Could not construct resource: _: " +++ err)
            (timed_resp OpUpdate (UpdateRequest_Plan req) resp)) []).
Proof.
  unfold part000_Configure. intros H Herr.
  destruct data as [|[clients|]|goType]; try discriminate;
    try (injection H as <- <-; now rewrite HasError_AddError in Herr).
  destruct (client.BetaClient clients) as [beta|];
    injection H as <- <-; [|now rewrite HasError_AddError in Herr].
  split; intros req resp [Hd Ht] Hc;
    unfold timed_resp, decoded_resp in *; simpl in Hd, Ht.
  - unfold Create, part000_Create. cbv zeta. simpl in *. rewrite Hd.
    destruct (Timeout _ _ _) as [t ds]. simpl in *. now rewrite Ht, Hc.
  - unfold Update, part000_Update. cbv zeta. simpl in *. rewrite Hd.
    destruct (Timeout _ _ _) as [t ds]. simpl in *. now rewrite Ht, Hc.
Qed.
End Handlers.

Arguments ID {tfList TimeoutsValue} _.
Arguments DisplayName {tfList TimeoutsValue} _.
Arguments Description {tfList TimeoutsValue} _.
Arguments Platform {tfList TimeoutsValue} _.
Arguments Rule {tfList TimeoutsValue} _.
Arguments AssignmentFilterManagementType {tfList TimeoutsValue} _.
Arguments CreatedDateTime {tfList TimeoutsValue} _.
Arguments LastModifiedDateTime {tfList TimeoutsValue} _.
Arguments RoleScopeTags {tfList TimeoutsValue} _.
Arguments Payloads {tfList TimeoutsValue} _.
Arguments Timeouts {tfList TimeoutsValue} _.
Arguments SetID {tfList TimeoutsValue} _ _.
Arguments Get_data {tfList TimeoutsValue} _.
Arguments Get_diags {tfList TimeoutsValue} _.
Arguments CreateRequest_Plan {tfList TimeoutsValue} _.
Arguments ReadRequest_State {tfList TimeoutsValue} _.
Arguments UpdateRequest_Plan {tfList TimeoutsValue} _.
Arguments DeleteRequest_State {tfList TimeoutsValue} _.
Arguments Response_Diagnostics {tfList TimeoutsValue} _.
Arguments Response_State {tfList TimeoutsValue} _.
Arguments Post {Filterable GraphError} _.
Arguments Get {Filterable GraphError} _.
Arguments Patch {Filterable GraphError} _.
Arguments Delete {Filterable GraphError} _.
Arguments client {Filterable GraphError} _.
Arguments ProviderTypeName {Filterable GraphError} _.
Arguments TypeName {Filterable GraphError} _.
Arguments isCreate {Filterable GraphError} _.
Arguments CallPost {Filterable} _.
Arguments CallGet {Filterable} _.
Arguments CallPatch {Filterable} _ _.
Arguments CallDelete {Filterable} _.
Arguments Returned {tfList TimeoutsValue Filterable} _ _.
Arguments Crashed {tfList TimeoutsValue Filterable} _.
Arguments Create {tfList TimeoutsValue} _ _ {Filterable} _ {GraphError} _ _ _ _ _ _ _.
Arguments Read {tfList TimeoutsValue} _ _ {Filterable GraphError} _ _ _ _ _ _ _.
Arguments Update {tfList TimeoutsValue} _ _ {Filterable GraphError} _ _ _ _ _ _ _.
Arguments Delete_ {tfList TimeoutsValue} _ {Filterable GraphError} _ _ _ _ _.
Arguments InvokeCreate {tfList TimeoutsValue} req.
Arguments InvokeRead {tfList TimeoutsValue} req.
Arguments InvokeUpdate {tfList TimeoutsValue} req.
Arguments InvokeDelete {tfList TimeoutsValue} req.
Arguments invoke {tfList TimeoutsValue} Timeout SetDiagnostics {Filterable}
  GetId {GraphError} Error IsNotFoundError constructResource
  mapRemoteStateToTerraform v r i resp.
Arguments operation_of {tfList TimeoutsValue} i.
Arguments decoded_of {tfList TimeoutsValue} i.
Arguments calls_of {tfList TimeoutsValue Filterable} ran.
Arguments request_of {tfList TimeoutsValue Filterable} constructResource i.
Arguments stops_without_ID {tfList TimeoutsValue} v i.
Arguments created_model {tfList TimeoutsValue Filterable}
  mapRemoteStateToTerraform v plan assignmentFilter id.
Arguments NewAssignmentFilterResource {Filterable GraphError}.
Arguments set_client {Filterable GraphError} v r.
Arguments part000_Configure {Filterable GraphError StableGraphServiceClient}
  r ProviderData diags.
Arguments timed_resp {tfList TimeoutsValue} Timeout op d resp.
Arguments timeout_of {tfList TimeoutsValue} Timeout op d.
Arguments proceeds {tfList TimeoutsValue} Timeout op d resp.
Arguments Diagnostics_AddError {tfList TimeoutsValue} s d resp.
Arguments State_Set {tfList TimeoutsValue} SetDiagnostics data resp.

End graphBetaAssignmentFilter.

(** * Package graphCloudPcProvisioningPolicy

    The resource of the stable API (resource.go), as far as it decides
    whether the resource gets a client. *)

Module graphCloudPcProvisioningPolicy.

Section Resource.

(** The two clients of the Graph SDKs; this package uses the stable one. *)
Variable GraphServiceClient : Type.
Variable BetaGraphServiceClient : Type.

(** resource.go, lines 28-32 *)
Record CloudPcProvisioningPolicyResource : Type := {
  client : option GraphServiceClient;
  ProviderTypeName : string;
  TypeName : string
}.

(** resource.go, lines 24-26 *)
Definition NewCloudPcProvisioningPolicyResource
  : CloudPcProvisioningPolicyResource :=
  {| client := None; ProviderTypeName := ""; TypeName := "" |}.

(** resource.go, lines 75-77 *)
Definition GetTypeName (r : CloudPcProvisioningPolicyResource) : string :=
  TypeName r.

(** resource.go, lines 80-82: what is left in [resp.TypeName] *)
Definition Metadata (providerTypeName : string) : string :=
  providerTypeName +++ "_graph_cloud_pc_provisioning_policy".

(** [r.client = v] *)
Definition set_client (v : GraphServiceClient)
  (r : CloudPcProvisioningPolicyResource) : CloudPcProvisioningPolicyResource :=
  {| client := Some v; ProviderTypeName := ProviderTypeName r;
     TypeName := TypeName r |}.

(** resource.go, lines 85-113: the resource and [resp.Diagnostics] as
    Configure leaves them; [None] when it dereferences a nil
    [*client.GraphClients]. The two warnings only go to the log. *)
Definition Configure (r : CloudPcProvisioningPolicyResource)
  (ProviderData : client.ProviderData GraphServiceClient BetaGraphServiceClient)
  (diags : Diagnostics)
  : option (CloudPcProvisioningPolicyResource * Diagnostics) :=
  match ProviderData with
  | client.NoData => Some (r, diags)
  | client.Other goType =>
      Some (r,
        AddError diags "Unexpected Provider Data Type"
          ("Expected *client.GraphClients, got: " +++ goType
           +++ ". Please report this issue to the provider developers."))
  | client.Clients None => None
  | client.Clients (Some clients) =>
      match client.StableClient clients with
      | None => Some (r, diags)
      | Some stable => Some (set_client stable r, diags)
      end
  end.

(** X19: this Configure reports an error for provider data of another type
    and for nothing else. For a resource that has no client yet it returns
    without a client exactly when the provider data is nil or its stable
    client is nil, and it is then silent: the diagnostics are the ones it
    was given. *)
Theorem Configure_can_be_silent_without_client r data diags r' diags' :
  client r = None ->
  HasError diags = false ->
  Configure r data diags = Some (r', diags') ->
  (HasError diags' = true <-> exists goType, data = client.Other goType) /\
  (client r' = None <->
   data = client.NoData \/ (exists goType, data = client.Other goType) \/
   exists clients,
     data = client.Clients (Some clients) /\
     client.StableClient clients = None) /\
  (client r' = None -> HasError diags' = false -> diags' = diags).
Proof.
  unfold Configure. intros Hclient Hdiags H.
  destruct data as [|[clients|]|goType]; try discriminate.
  - injection H as <- <-. rewrite Hdiags, Hclient.
    repeat split; try discriminate; try (intros [? ?]; discriminate).
    intros _. now left.
  - destruct (client.StableClient clients) as [stable|] eqn:Hstable;
      injection H as <- <-; rewrite Hdiags.
    + simpl. repeat split; try discriminate;
        try (intros [? ?]; discriminate).
      intros [?|[[? ?]|(c & Hc & Hnone)]]; try discriminate.
      injection Hc as <-. congruence.
    + rewrite Hclient.
      repeat split; try discriminate; try (intros [? ?]; discriminate).
      intros _. right. right. now exists clients.
  - injection H as <- <-. rewrite HasError_AddError, Hclient.
    repeat split; try discriminate.
    + intros _. now exists goType.
    + intros _. right. left. now exists goType.
Qed.

End Resource.

Arguments client {GraphServiceClient} _.
Arguments ProviderTypeName {GraphServiceClient} _.
Arguments TypeName {GraphServiceClient} _.
Arguments NewCloudPcProvisioningPolicyResource {GraphServiceClient}.
Arguments set_client {GraphServiceClient} v r.
Arguments Configure {GraphServiceClient BetaGraphServiceClient}
  r ProviderData diags.

End graphCloudPcProvisioningPolicy.

(** * Package provider

    The provider's Configure (provider.go) and the validators of its schema
    (validators.go). *)

Module provider.

(** [IsUnknown] of the framework's values. *)
Definition String_IsUnknown (v : types.String) : bool :=
  match v with types.StringUnknown => true | _ => false end.

Definition Bool_IsUnknown (v : types.Bool) : bool :=
  match v with types.BoolUnknown => true | _ => false end.

(** provider.go, lines 31-48 *)
Record M365ProviderModel : Type := {
  TenantID : types.String;
  AuthMethod : types.String;
  ClientID : types.String;
  ClientSecret : types.String;
  ClientCertificateBase64 : types.String;
  ClientCertificateFilePath : types.String;
  ClientCertificatePassword : types.String;
  Username : types.String;
  Password : types.String;
  RedirectURL : types.String;
  UseProxy : types.Bool;
  ProxyURL : types.String;
  Cloud : types.String;
  EnableChaos : types.Bool;
  TelemetryOptout : types.Bool;
  Debug : types.Bool
}.

Section Provider.

(** From package helpers: the configured value of an attribute, or else
    that of an environment variable. *)
Variable GetValueOrEnv : types.String -> string -> string.
Variable GetValueOrEnvBool : types.Bool -> string -> bool.

(** From the other files of this package. *)
Variable ClientOptions : Type.
Variable Credential : Type.
Variable HttpClient : Type.
Variable setCloudConstants :
  string -> (string * string * string * string) + string.
Variable configureEntraIDClientOptions :
  bool -> string -> string -> bool -> ClientOptions + string.
Variable obtainCredential :
  M365ProviderModel -> ClientOptions -> Credential + string.
Variable configureGraphClientOptions :
  bool -> string -> bool -> HttpClient + string.

(** From the Graph SDKs: the authentication provider, the request adapter of
    each SDK with its base URL, and the client over an adapter. *)
Variable AuthProvider : Type.
Variable NewAzureIdentityAuthenticationProviderWithScopes :
  Credential -> list string -> AuthProvider + string.
Variable StableAdapter : Type.
Variable BetaAdapter : Type.
Variable msgraphsdk_NewGraphRequestAdapter :
  AuthProvider -> HttpClient -> StableAdapter + string.
Variable msgraphbetasdk_NewGraphRequestAdapter :
  AuthProvider -> HttpClient -> BetaAdapter + string.
Variable msgraphsdk_SetBaseUrl : string -> StableAdapter -> StableAdapter.
Variable msgraphbetasdk_SetBaseUrl : string -> BetaAdapter -> BetaAdapter.
Variable StableClient : Type.
Variable BetaClient : Type.
Variable msgraphsdk_NewGraphServiceClient : StableAdapter -> StableClient.
Variable msgraphbetasdk_NewGraphServiceClient : BetaAdapter -> BetaClient.

(** provider.go, lines 25-28 *)
Record M365Provider : Type := {
  version : string;
  clients : option (client.GraphClients StableClient BetaClient)
}.

(** provider.go, lines 399-407 *)
Definition New (version : string) : M365Provider :=
  {| version := version;
     clients :=
       Some {| client.StableClient := None; client.BetaClient := None |} |}.

(** provider.go, lines 50-53: [resp.TypeName] and [resp.Version] *)
Definition Metadata (p : M365Provider) : string * string :=
  ("microsoft365", version p).

(** [req.Config.Get(ctx, &data)]: the decoded model and the diagnostics of
    the decoding. *)
Record ConfigureRequest : Type := {
  Config_data : M365ProviderModel;
  Config_diags : Diagnostics
}.

Record ConfigureResponse : Type := {
  ConfigureResponse_Diagnostics : Diagnostics;
  DataSourceData : client.ProviderData StableClient BetaClient;
  ResourceData : client.ProviderData StableClient BetaClient
}.

Definition Configure_AddError (s d : string) (resp : ConfigureResponse)
  : ConfigureResponse :=
  {| ConfigureResponse_Diagnostics :=
       AddError (ConfigureResponse_Diagnostics resp) s d;
     DataSourceData := DataSourceData resp;
     ResourceData := ResourceData resp |}.

(** provider.go, lines 214-396: the provider and the response as Configure
    leaves them. What only goes to the log is left out. *)
Definition Configure (p : M365Provider) (req : ConfigureRequest)
  (resp : ConfigureResponse) : M365Provider * ConfigureResponse :=
  let data := Config_data req in
  let resp :=
    {| ConfigureResponse_Diagnostics :=
         Append (ConfigureResponse_Diagnostics resp) (Config_diags req);
       DataSourceData := DataSourceData resp;
       ResourceData := ResourceData resp |} in
  if HasError (ConfigureResponse_Diagnostics resp) then (p, resp) else
  let cloud := GetValueOrEnv (Cloud data) "M365_CLOUD" in
  let authMethod := GetValueOrEnv (AuthMethod data) "M365_AUTH_METHOD" in
  let tenantID := GetValueOrEnv (TenantID data) "M365_TENANT_ID" in
  let clientID := GetValueOrEnv (ClientID data) "M365_CLIENT_ID" in
  let clientSecret :=
    GetValueOrEnv (ClientSecret data) "M365_CLIENT_SECRET" in
  let clientCertificateBase64 :=
    GetValueOrEnv (ClientCertificateBase64 data)
      "M365_CLIENT_CERTIFICATE_BASE64" in
  let clientCertificateFilePath :=
    GetValueOrEnv (ClientCertificateFilePath data)
      "M365_CLIENT_CERTIFICATE_FILE_PATH" in
  let clientCertificatePassword :=
    GetValueOrEnv (ClientCertificatePassword data)
      "M365_CLIENT_CERTIFICATE_PASSWORD" in
  let username := GetValueOrEnv (Username data) "M365_USERNAME" in
  let password := GetValueOrEnv (Password data) "M365_PASSWORD" in
  let redirectURL := GetValueOrEnv (RedirectURL data) "M365_REDIRECT_URL" in
  let useProxy := GetValueOrEnvBool (UseProxy data) "M365_USE_PROXY" in
  let proxyURL := GetValueOrEnv (ProxyURL data) "M365_PROXY_URL" in
  let enableChaos :=
    GetValueOrEnvBool (EnableChaos data) "M365_ENABLE_CHAOS" in
  let telemetryOptout :=
    GetValueOrEnvBool (TelemetryOptout data) "M365_TELEMETRY_OPTOUT" in
  let debugMode := GetValueOrEnvBool (Debug data) "M365_DEBUG_MODE" in
  let data :=
    {| TenantID := types.StringValue tenantID;
       AuthMethod := types.StringValue authMethod;
       ClientID := types.StringValue clientID;
       ClientSecret := types.StringValue clientSecret;
       ClientCertificateBase64 := types.StringValue clientCertificateBase64;
       ClientCertificateFilePath :=
         types.StringValue clientCertificateFilePath;
       ClientCertificatePassword :=
         types.StringValue clientCertificatePassword;
       Username := types.StringValue username;
       Password := types.StringValue password;
       RedirectURL := types.StringValue redirectURL;
       UseProxy := types.BoolValue useProxy;
       ProxyURL := types.StringValue proxyURL;
       Cloud := types.StringValue cloud;
       EnableChaos := types.BoolValue enableChaos;
       TelemetryOptout := types.BoolValue telemetryOptout;
       Debug := types.BoolValue debugMode |} in
  match setCloudConstants cloud with
  | inr err =>
      (p,
       Configure_AddError "Invalid Microsoft Cloud Type"
         ("An error occurred while attempting to get cloud constants for cloud type '"
          +++ cloud
          +++ "'. Please ensure the cloud type is valid. Detailed error: "
          +++ err) resp)
  | inl (authorityURL, apiScope, graphServiceRoot, graphBetaServiceRoot) =>
  match
    configureEntraIDClientOptions useProxy proxyURL authorityURL
      telemetryOptout
  with
  | inr err =>
      (p,
       Configure_AddError "Unable to configure client options"
         ("An error occurred while attempting to configure client options. Detailed error: "
          +++ err) resp)
  | inl clientOptions =>
  match obtainCredential data clientOptions with
  | inr err =>
      (p,
       Configure_AddError "Unable to create credentials"
         ("An error occurred while attempting to create the credentials using the provided authentication method '"
          +++ ValueString (AuthMethod data)
          +++ "'. This may be due to incorrect or missing credentials, misconfigured client options, or issues with the underlying authentication library. Please verify the authentication method and credentials configuration. Detailed error: "
          +++ err) resp)
  | inl cred =>
  match NewAzureIdentityAuthenticationProviderWithScopes cred [apiScope] with
  | inr err =>
      (p,
       Configure_AddError "Unable to create authentication provider"
         ("An error occurred while attempting to create the authentication provider using the provided credentials. This may be due to misconfigured client options, incorrect credentials, or issues with the underlying authentication library. Please verify your client options and credentials configuration. Detailed error: "
          +++ err) resp)
  | inl authProvider =>
  match configureGraphClientOptions useProxy proxyURL enableChaos with
  | inr err =>
      (p,
       Configure_AddError "Unable to configure Graph client options"
         ("An error occurred while attempting to configure the Microsoft Graph client options. Detailed error: "
          +++ err) resp)
  | inl httpClient =>
  match msgraphsdk_NewGraphRequestAdapter authProvider httpClient with
  | inr err =>
      (p,
       Configure_AddError "Failed to create Microsoft Graph Stable SDK Adapter"
         ("An error occurred while attempting to create the Microsoft Graph Stable SDK adapter. This might be due to issues with the authentication provider, HTTP client setup, or the SDK's internal components. Detailed error: "
          +++ err) resp)
  | inl stableAdapter =>
  match msgraphbetasdk_NewGraphRequestAdapter authProvider httpClient with
  | inr err =>
      (p,
       Configure_AddError "Failed to create Microsoft Graph Beta SDK Adapter"
         ("An error occurred while attempting to create the Microsoft Graph Beta SDK adapter. This might be due to issues with the authentication provider, HTTP client setup, or the SDK's internal components. Detailed error: "
          +++ err) resp)
  | inl betaAdapter =>
      let stableAdapter :=
        msgraphsdk_SetBaseUrl graphServiceRoot stableAdapter in
      let betaAdapter :=
        msgraphbetasdk_SetBaseUrl graphBetaServiceRoot betaAdapter in
      let clients :=
        {| client.StableClient :=
             Some (msgraphsdk_NewGraphServiceClient stableAdapter);
           client.BetaClient :=
             Some (msgraphbetasdk_NewGraphServiceClient betaAdapter) |} in
      ({| version := version p; clients := Some clients |},
       {| ConfigureResponse_Diagnostics := ConfigureResponse_Diagnostics resp;
          DataSourceData := client.Clients (Some clients);
          ResourceData := client.Clients (Some clients) |})
  end end end end end end end.

(** Without an error in the response, both clients are in it. *)
Lemma Configure_without_error p req resp :
  HasError (ConfigureResponse_Diagnostics (snd (Configure p req resp)))
  = false ->
  exists stable beta,
    ResourceData (snd (Configure p req resp))
    = client.Clients
        (Some {| client.StableClient := Some stable;
                 client.BetaClient := Some beta |}).
Proof.
  unfold Configure. cbv zeta.
  cbn [ConfigureResponse_Diagnostics DataSourceData ResourceData].
  destruct (HasError (Append _ _)) eqn:Hdecoded; simpl.
  { now rewrite Hdecoded. }
  repeat match goal with
  | |- context [match ?x with inl _ => _ | inr _ => _ end] =>
      destruct x as [?|?] eqn:?
  | |- context [let (_, _) := ?x in _] => destruct x
  end;
  simpl; rewrite ?HasError_AddError; try discriminate.
  intros _. now eexists _, _.
Qed.

(** X20: Configure hands the clients to the resources exactly when it
    reports no error. With an error in the response it has added at most one
    error of its own to those of the decoding, and the provider and both data
    fields of the response are as they were. Without one, both fields and the
    provider hold the same pair of clients, the stable one over an adapter
    whose base URL is the stable root of the configured cloud and the beta
    one over an adapter whose base URL is the beta root, and the diagnostics
    are those of the decoding. *)
Theorem Configure_publishes_or_reports p req resp :
  let p' := fst (Configure p req resp) in
  let resp' := snd (Configure p req resp) in
  let decoded :=
    Append (ConfigureResponse_Diagnostics resp) (Config_diags req) in
  if HasError (ConfigureResponse_Diagnostics resp')
  then
    p' = p /\ DataSourceData resp' = DataSourceData resp /\
    ResourceData resp' = ResourceData resp /\
    (ConfigureResponse_Diagnostics resp' = decoded \/
     exists s d, ConfigureResponse_Diagnostics resp' = AddError decoded s d)
  else
    exists authorityURL apiScope graphServiceRoot graphBetaServiceRoot
           stableAdapter betaAdapter,
      setCloudConstants (GetValueOrEnv (Cloud (Config_data req)) "M365_CLOUD")
      = inl (authorityURL, apiScope, graphServiceRoot, graphBetaServiceRoot)
      /\
      let published :=
        {| client.StableClient :=
             Some (msgraphsdk_NewGraphServiceClient
                     (msgraphsdk_SetBaseUrl graphServiceRoot stableAdapter));
           client.BetaClient :=
             Some (msgraphbetasdk_NewGraphServiceClient
                     (msgraphbetasdk_SetBaseUrl graphBetaServiceRoot
                        betaAdapter)) |} in
      ResourceData resp' = client.Clients (Some published) /\
      DataSourceData resp' = client.Clients (Some published) /\
      clients p' = Some published /\ version p' = version p /\
      ConfigureResponse_Diagnostics resp' = decoded.
Proof.
  unfold Configure. cbv zeta.
  cbn [ConfigureResponse_Diagnostics DataSourceData ResourceData].
  destruct (HasError (Append _ _)) eqn:Hdecoded; simpl.
  { rewrite Hdecoded. repeat split. now left. }
  repeat match goal with
  | |- context [match ?x with inl _ => _ | inr _ => _ end] =>
      destruct x as [?|?] eqn:?
  | |- context [let (_, _) := ?x in _] => destruct x
  end;
  simpl; rewrite ?HasError_AddError, ?Hdecoded;
  try (repeat split; right; now eexists _, _).
  eexists _, _, _, _, _, _. split; [reflexivity|]. simpl.
  now destruct p.
Qed.

End Provider.

Arguments Configure GetValueOrEnv GetValueOrEnvBool
  {ClientOptions Credential HttpClient}
  setCloudConstants configureEntraIDClientOptions obtainCredential
  configureGraphClientOptions {AuthProvider}
  NewAzureIdentityAuthenticationProviderWithScopes
  {StableAdapter BetaAdapter}
  msgraphsdk_NewGraphRequestAdapter msgraphbetasdk_NewGraphRequestAdapter
  msgraphsdk_SetBaseUrl msgraphbetasdk_SetBaseUrl {StableClient BetaClient}
  msgraphsdk_NewGraphServiceClient msgraphbetasdk_NewGraphServiceClient
  p req resp.
Arguments ConfigureResponse_Diagnostics {StableClient BetaClient} _.
Arguments DataSourceData {StableClient BetaClient} _.
Arguments ResourceData {StableClient BetaClient} _.
Arguments clients {StableClient BetaClient} _.
Arguments version {StableClient BetaClient} _.

(** Every attribute of the model is known. *)
Definition String_IsKnown (v : types.String) : bool :=
  negb (IsNull v) && negb (String_IsUnknown v).

Definition Bool_IsKnown (v : types.Bool) : bool :=
  negb (IsNull v) && negb (Bool_IsUnknown v).

Definition Known (data : M365ProviderModel) : bool :=
  String_IsKnown (TenantID data) && String_IsKnown (AuthMethod data)
  && String_IsKnown (ClientID data) && String_IsKnown (ClientSecret data)
  && String_IsKnown (ClientCertificateBase64 data)
  && String_IsKnown (ClientCertificateFilePath data)
  && String_IsKnown (ClientCertificatePassword data)
  && String_IsKnown (Username data) && String_IsKnown (Password data)
  && String_IsKnown (RedirectURL data) && Bool_IsKnown (UseProxy data)
  && String_IsKnown (ProxyURL data) && String_IsKnown (Cloud data)
  && Bool_IsKnown (EnableChaos data) && Bool_IsKnown (TelemetryOptout data)
  && Bool_IsKnown (Debug data).

(** X21: the credential helper is only ever given a model whose sixteen
    attributes are all known, whatever the configuration held: two helpers
    that agree on such models give the same Configure. *)
Theorem obtainCredential_is_given_known_values
  {ClientOptions Credential HttpClient AuthProvider StableAdapter BetaAdapter
   StableClient BetaClient : Type}
  (p : M365Provider StableClient BetaClient)
  GetValueOrEnv GetValueOrEnvBool setCloudConstants
  configureEntraIDClientOptions
  (obtainCredential obtainCredential' :
     M365ProviderModel -> ClientOptions -> Credential + string)
  (configureGraphClientOptions : bool -> string -> bool -> HttpClient + string)
  (NewAzureIdentityAuthenticationProviderWithScopes :
     Credential -> list string -> AuthProvider + string)
  (NewStableAdapter : AuthProvider -> HttpClient -> StableAdapter + string)
  (NewBetaAdapter : AuthProvider -> HttpClient -> BetaAdapter + string)
  StableSetBaseUrl BetaSetBaseUrl NewStableClient NewBetaClient req resp :
  (forall data clientOptions,
     Known data = true ->
     obtainCredential data clientOptions
     = obtainCredential' data clientOptions) ->
  Configure GetValueOrEnv GetValueOrEnvBool setCloudConstants
    configureEntraIDClientOptions obtainCredential
    configureGraphClientOptions
    NewAzureIdentityAuthenticationProviderWithScopes
    NewStableAdapter NewBetaAdapter StableSetBaseUrl BetaSetBaseUrl
    NewStableClient NewBetaClient p req resp
  = Configure GetValueOrEnv GetValueOrEnvBool setCloudConstants
      configureEntraIDClientOptions obtainCredential'
      configureGraphClientOptions
      NewAzureIdentityAuthenticationProviderWithScopes
      NewStableAdapter NewBetaAdapter StableSetBaseUrl BetaSetBaseUrl
      NewStableClient NewBetaClient p req resp.
Proof.
  intros Hsame. unfold Configure. cbv zeta.
  cbn [ConfigureResponse_Diagnostics DataSourceData ResourceData].
  destruct (HasError _); [reflexivity|].
  destruct (setCloudConstants _) as [[[[? ?] ?] ?]|?]; [|reflexivity].
  destruct (configureEntraIDClientOptions _ _ _ _); [|reflexivity].
  now rewrite Hsame.
Qed.

(** ** The validators of the schema (validators.go) *)

Section Validators.

(** From the framework: attribute paths, and the configuration with its
    typed reads. From the standard library: [regexp.MatchString], which
    answers with a match and an error, [url.Parse] with the two fields of
    the URL the file reads, and the quoting of [%q]. From package helpers:
    the two patterns. *)
Variable Path : Type.
Variable Root : string -> Path.
Variable MatchString : string -> string -> bool * option string.
Variable URL : Type.
Variable Scheme : URL -> string.
Variable Host : URL -> string.
Variable url_Parse : string -> URL + string.
Variable Quote : string -> string.
Variable GuidRegex : string.
Variable UrlValidStringRegex : string.

(** A diagnostic, with the attribute path it is attached to if any. *)
Record DiagnosticWithPath : Type := {
  Path_of : option Path;
  Diagnostic_of : Diagnostic
}.

Definition PathDiagnostics : Type := list DiagnosticWithPath.

Definition PathDiagnostics_HasError (ds : PathDiagnostics) : bool :=
  existsb (fun d => is_error (Diagnostic_of d)) ds.

Definition error_at (p : option Path) (s d : string) : DiagnosticWithPath :=
  {| Path_of := p;
     Diagnostic_of :=
       {| severity := SeverityError; summary := s; detail := d |} |}.

Variable Config : Type.
Variable GetAttribute_Bool : Config -> Path -> types.Bool * PathDiagnostics.
Variable GetAttribute_String :
  Config -> Path -> types.String * PathDiagnostics.

Record StringRequest : Type := {
  StringRequest_Path : Path;
  StringRequest_ConfigValue : types.String
}.

Record BoolRequest : Type := {
  BoolRequest_Path : Path;
  BoolRequest_ConfigValue : types.Bool;
  BoolRequest_Config : Config
}.

(** [validator.StringResponse] and [validator.BoolResponse] *)
Record Response : Type := { Response_Diagnostics : PathDiagnostics }.

(** [resp.Diagnostics.AddError(s, d)] *)
Definition Response_AddError (s d : string) (resp : Response) : Response :=
  {| Response_Diagnostics :=
       Response_Diagnostics resp ++ [error_at None s d] |}.

(** [resp.Diagnostics.AddAttributeError(p, s, d)] *)
Definition Response_AddAttributeError (p : Path) (s d : string)
  (resp : Response) : Response :=
  {| Response_Diagnostics :=
       Response_Diagnostics resp ++ [error_at (Some p) s d] |}.

(** The implementations of [validator.String] in the file, as their
    constructors make them (lines 57-59, 149-151 and 195-197). *)
Inductive StringValidator : Type :=
| validateGUID (attributeName : string)
| validateRedirectURL
| validateProxyURL.

(** validators.go, lines 28-55 *)
Definition guidValidator_ValidateString (attributeName : string)
  (req : StringRequest) (resp : Response) : Response :=
  if IsNull (StringRequest_ConfigValue req)
     || String_IsUnknown (StringRequest_ConfigValue req)
  then resp else
  let value := ValueString (StringRequest_ConfigValue req) in
  if String.eqb value "" then resp else
  match MatchString GuidRegex value with
  | (_, Some err) =>
      Response_AddError ("Invalid " +++ attributeName +++ " format")
        ("Error matching GUID format for " +++ attributeName +++ ": "
         +++ err) resp
  | (false, None) =>
      Response_AddError ("Invalid " +++ attributeName +++ " format")
        ("The value " +++ Quote value +++ " for " +++ attributeName
         +++ " is not a valid GUID. It must match the format: xxxxxxxx-xxxx-xxxx-xxxx-xxxxxxxxxxxx")
        resp
  | (true, None) => resp
  end.

(** validators.go, lines 109-147 *)
Definition redirectURLValidator_ValidateString (req : StringRequest)
  (resp : Response) : Response :=
  if IsNull (StringRequest_ConfigValue req)
     || String_IsUnknown (StringRequest_ConfigValue req)
  then resp else
  let redirectURL := ValueString (StringRequest_ConfigValue req) in
  if String.eqb redirectURL "" then resp else
  match url_Parse redirectURL with
  | inr err =>
      Response_AddAttributeError (StringRequest_Path req)
        "Invalid Redirect URL"
        ("The value " +++ Quote redirectURL
         +++ " for redirect_url is not a valid URL: " +++ err) resp
  | inl parsedURL =>
      if String.eqb (Scheme parsedURL) "" || String.eqb (Host parsedURL) ""
      then
        Response_AddAttributeError (StringRequest_Path req)
          "Invalid Redirect URL"
          ("The value " +++ Quote redirectURL
           +++ " for redirect_url must include a scheme and host (e.g., https://example.com)")
          resp
      else
        if negb (fst (MatchString UrlValidStringRegex redirectURL))
        then
          Response_AddAttributeError (StringRequest_Path req)
            "Invalid Redirect URL Format"
            ("The value " +++ Quote redirectURL
             +++ " for redirect_url contains invalid characters. It must match the format: [A-Za-z0-9-._~%/:/?=]+")
            resp
        else resp
  end.

(** validators.go, lines 165-193 *)
Definition proxyURLValidator_ValidateString (req : StringRequest)
  (resp : Response) : Response :=
  if IsNull (StringRequest_ConfigValue req)
     || String_IsUnknown (StringRequest_ConfigValue req)
  then resp else
  let proxyURL := ValueString (StringRequest_ConfigValue req) in
  if String.eqb proxyURL "" then resp else
  match url_Parse proxyURL with
  | inr err =>
      Response_AddAttributeError (StringRequest_Path req)
        "Invalid Proxy URL"
        ("The value " +++ Quote proxyURL
         +++ " for proxy_url is not a valid URL: " +++ err) resp
  | inl _ =>
      if negb (fst (MatchString UrlValidStringRegex proxyURL))
      then
        Response_AddAttributeError (StringRequest_Path req)
          "Invalid Proxy URL Format"
          ("The value " +++ Quote proxyURL
           +++ " for proxy_url contains invalid characters. It must match the format: [A-Za-z0-9-._~%/:/?=]+")
          resp
      else resp
  end.

(** The method the framework calls on a [validator.String]. *)
Definition ValidateString (v : StringValidator) (req : StringRequest)
  (resp : Response) : Response :=
  match v with
  | validateGUID attributeName =>
      guidValidator_ValidateString attributeName req resp
  | validateRedirectURL => redirectURLValidator_ValidateString req resp
  | validateProxyURL => proxyURLValidator_ValidateString req resp
  end.

(** validators.go, lines 77-96 *)
Definition useProxyValidator_ValidateBool (request : BoolRequest)
  (response : Response) : Response :=
  let (useProxy, diags) :=
    GetAttribute_Bool (BoolRequest_Config request) (Root "use_proxy") in
  if PathDiagnostics_HasError diags
  then {| Response_Diagnostics := Response_Diagnostics response ++ diags |}
  else
  let (proxyURL, diags) :=
    GetAttribute_String (BoolRequest_Config request) (Root "proxy_url") in
  if PathDiagnostics_HasError diags
  then {| Response_Diagnostics := Response_Diagnostics response ++ diags |}
  else
  if ValueBool useProxy
     && (IsNull proxyURL || String_IsUnknown proxyURL
         || String.eqb (ValueString proxyURL) "")
  then
    Response_AddError "Invalid Configuration"
      "The 'proxy_url' attribute must be set when 'use_proxy' is true."
      response
  else response.

(** A value the string validators do not look at. *)
Definition absent (v : types.String) : bool :=
  IsNull v || String_IsUnknown v || String.eqb (ValueString v) "".

(** A validator accepts a request when it returns the response it got. *)
Definition accepts (v : StringValidator) (req : StringRequest) : Prop :=
  forall resp, ValidateString v req resp = resp.

Lemma added_is_not_same {A} (l : list A) (x : A) : l ++ [x] <> l.
Proof.
  intros H. apply (f_equal (@length A)) in H.
  rewrite length_app in H. simpl in H.
  rewrite Nat.add_1_r in H. now apply Nat.neq_succ_diag_l in H.
Qed.

Lemma Response_AddError_changes s d resp : Response_AddError s d resp <> resp.
Proof.
  destruct resp as [ds]. unfold Response_AddError. simpl. intros H.
  injection H as H. now apply added_is_not_same in H.
Qed.

Lemma Response_AddAttributeError_changes p s d resp :
  Response_AddAttributeError p s d resp <> resp.
Proof.
  destruct resp as [ds]. unfold Response_AddAttributeError. simpl. intros H.
  injection H as H. now apply added_is_not_same in H.
Qed.

Ltac validator_paths :=
  unfold ValidateString, guidValidator_ValidateString,
    redirectURLValidator_ValidateString, proxyURLValidator_ValidateString;
  cbv zeta;
  repeat match goal with
  | |- context [if ?b then _ else _] => destruct b eqn:?
  | |- context [match ?x with _ => _ end] => destruct x eqn:?
  end.

(** X22: none of the three string validators looks at a value that is null,
    unknown or the empty string: the response comes back as it was given. *)
Theorem absent_values_are_not_validated v req :
  absent (StringRequest_ConfigValue req) = true -> accepts v req.
Proof.
  unfold absent, accepts. intros Habsent resp.
  apply orb_true_iff in Habsent as [Habsent|Hempty].
  - destruct v; simpl;
      unfold guidValidator_ValidateString,
        redirectURLValidator_ValidateString,
        proxyURLValidator_ValidateString;
      now rewrite Habsent.
  - destruct v; simpl;
      unfold guidValidator_ValidateString,
        redirectURLValidator_ValidateString,
        proxyURLValidator_ValidateString;
      cbv zeta; rewrite Hempty; now destruct (_ || _).
Qed.

(** X23: a string validator adds nothing or exactly one diagnostic, an
    error, behind those the response held. The two URL validators attach it
    to the path of the attribute; the GUID validator attaches it to no path
    and names its attribute in the summary. *)
Theorem string_validators_add_one_error_at_most v req resp :
  ValidateString v req resp = resp \/
  exists s d,
    Response_Diagnostics (ValidateString v req resp)
    = Response_Diagnostics resp
      ++ [error_at
            match v with
            | validateGUID _ => None
            | _ => Some (StringRequest_Path req)
            end s d] /\
    match v with
    | validateGUID attributeName =>
        s = "Invalid " +++ attributeName +++ " format"
    | _ => True
    end.
Proof.
  destruct v; validator_paths; try (now left);
    right; eexists _, _; split; try reflexivity; exact I.
Qed.

(** X24: the redirect URL validator is the proxy URL validator with one
    more test: a request it accepts is accepted by the proxy URL validator
    too. *)
Theorem redirect_url_is_the_stricter req :
  accepts validateRedirectURL req -> accepts validateProxyURL req.
Proof.
  unfold accepts. intros H resp. specialize (H resp). revert H.
  validator_paths; intros H; try reflexivity;
    try (now apply Response_AddAttributeError_changes in H);
    congruence.
Qed.

(** X25: the GUID validator accepts a request exactly when the value is
    absent or [regexp.MatchString] reports a match of the GUID pattern and
    no error. *)
Theorem guid_is_accepted_iff attributeName req :
  accepts (validateGUID attributeName) req <->
  absent (StringRequest_ConfigValue req) = true \/
  MatchString GuidRegex (ValueString (StringRequest_ConfigValue req))
  = (true, None).
Proof.
  unfold accepts, absent. split.
  - intros H.
    specialize (H {| Response_Diagnostics := [] |}). revert H.
    validator_paths; intros H;
      try (now apply Response_AddError_changes in H);
      try (left; reflexivity); try (now right).
    all: left; now rewrite orb_true_r.
  - intros [Habsent|Hmatch] resp.
    + apply orb_true_iff in Habsent as [Habsent|Hempty]; simpl;
        unfold guidValidator_ValidateString; cbv zeta.
      * now rewrite Habsent.
      * rewrite Hempty. now destruct (_ || _).
    + simpl. unfold guidValidator_ValidateString. cbv zeta.
      rewrite Hmatch. destruct (_ || _); [reflexivity|].
      now destruct (String.eqb _ _).
Qed.

(** X26: the [use_proxy] validator. A response without error means that a
    [use_proxy] read as true comes with a [proxy_url] that is a known,
    non-empty string; and when both reads report no error (their warnings
    are dropped) and that condition holds, the response comes back as it was
    given. The validator reads [use_proxy] from the configuration, not from
    the request's value. *)
Theorem use_proxy_needs_proxy_url request response :
  let useProxy :=
    fst (GetAttribute_Bool (BoolRequest_Config request) (Root "use_proxy")) in
  let proxyURL :=
    fst (GetAttribute_String (BoolRequest_Config request)
           (Root "proxy_url")) in
  let reads :=
    snd (GetAttribute_Bool (BoolRequest_Config request) (Root "use_proxy"))
    ++ snd (GetAttribute_String (BoolRequest_Config request)
              (Root "proxy_url")) in
  let set := useProxy = types.BoolValue true ->
             exists s, proxyURL = types.StringValue s /\ s <> "" in
  (PathDiagnostics_HasError
     (Response_Diagnostics (useProxyValidator_ValidateBool request response))
   = false -> set) /\
  (PathDiagnostics_HasError reads = false -> set ->
   useProxyValidator_ValidateBool request response = response).
Proof.
  unfold useProxyValidator_ValidateBool, PathDiagnostics_HasError.
  destruct (GetAttribute_Bool _ _) as [useProxy d1].
  destruct (GetAttribute_String _ _) as [proxyURL d2].
  simpl. split.
  - destruct (existsb _ d1) eqn:H1; simpl.
    { rewrite existsb_app, H1, orb_true_r. discriminate. }
    destruct (existsb _ d2) eqn:H2; simpl.
    { rewrite existsb_app, H2, orb_true_r. discriminate. }
    intros H ->. simpl in H.
    destruct proxyURL as [| |s]; simpl in H;
      try (rewrite existsb_app in H; simpl in H;
           rewrite orb_true_r in H; discriminate).
    destruct (String.eqb s "") eqn:Hs; simpl in H.
    + rewrite existsb_app in H. simpl in H.
      rewrite orb_true_r in H. discriminate.
    + exists s. split; [reflexivity|]. now apply String.eqb_neq.
  - rewrite existsb_app. intros Hreads Hset.
    apply orb_false_iff in Hreads as [-> ->].
    destruct useProxy as [| |[|]]; simpl; try reflexivity.
    destruct (Hset eq_refl) as (s & -> & Hs). simpl.
    apply String.eqb_neq in Hs. now rewrite Hs.
Qed.

End Validators.

Arguments StringRequest_Path {Path} _.
Arguments StringRequest_ConfigValue {Path} _.
Arguments BoolRequest_Path {Path Config} _.
Arguments BoolRequest_ConfigValue {Path Config} _.
Arguments BoolRequest_Config {Path Config} _.
Arguments Response_Diagnostics {Path} _.
Arguments Path_of {Path} _.
Arguments Diagnostic_of {Path} _.
Arguments error_at {Path} p s d.
Arguments PathDiagnostics_HasError {Path} ds.
Arguments ValidateString {Path} MatchString {URL} Scheme Host url_Parse Quote
  GuidRegex UrlValidStringRegex v req resp.
Arguments accepts {Path} MatchString {URL} Scheme Host url_Parse Quote
  GuidRegex UrlValidStringRegex v req.
Arguments useProxyValidator_ValidateBool {Path} Root {Config}
  GetAttribute_Bool GetAttribute_String request response.

End provider.

(** * The provider and its resources

    The framework passes what the provider's Configure left in
    [resp.ResourceData] to the Configure of every resource, as
    [req.ProviderData]. *)

Section Lifecycle.

Variables Filterable GraphError : Type.
Variables ClientOptions Credential HttpClient AuthProvider : Type.
Variables StableAdapter BetaAdapter StableClient : Type.

Variable GetValueOrEnv : types.String -> string -> string.
Variable GetValueOrEnvBool : types.Bool -> string -> bool.
Variable setCloudConstants :
  string -> (string * string * string * string) + string.
Variable configureEntraIDClientOptions :
  bool -> string -> string -> bool -> ClientOptions + string.
Variable obtainCredential :
  provider.M365ProviderModel -> ClientOptions -> Credential + string.
Variable configureGraphClientOptions :
  bool -> string -> bool -> HttpClient + string.
Variable NewAzureIdentityAuthenticationProviderWithScopes :
  Credential -> list string -> AuthProvider + string.
Variable msgraphsdk_NewGraphRequestAdapter :
  AuthProvider -> HttpClient -> StableAdapter + string.
Variable msgraphbetasdk_NewGraphRequestAdapter :
  AuthProvider -> HttpClient -> BetaAdapter + string.
Variable msgraphsdk_SetBaseUrl : string -> StableAdapter -> StableAdapter.
Variable msgraphbetasdk_SetBaseUrl : string -> BetaAdapter -> BetaAdapter.
Variable msgraphsdk_NewGraphServiceClient : StableAdapter -> StableClient.
Variable msgraphbetasdk_NewGraphServiceClient :
  BetaAdapter ->
  graphBetaAssignmentFilter.GraphServiceClient Filterable GraphError.

(** The provider's Configure in this setting. *)
Definition provider_Configure :=
  provider.Configure GetValueOrEnv GetValueOrEnvBool setCloudConstants
    configureEntraIDClientOptions obtainCredential
    configureGraphClientOptions
    NewAzureIdentityAuthenticationProviderWithScopes
    msgraphsdk_NewGraphRequestAdapter msgraphbetasdk_NewGraphRequestAdapter
    msgraphsdk_SetBaseUrl msgraphbetasdk_SetBaseUrl
    msgraphsdk_NewGraphServiceClient msgraphbetasdk_NewGraphServiceClient.

(** X27: after a Configure of the provider that reports no error, the
    Configure of the assignment filter resource and that of the Cloud PC
    provisioning policy resource both find their client in the provider
    data, the beta and the stable one, and add no diagnostic. *)
Theorem configured_provider_configures_its_resources p req resp
  (filter : graphBetaAssignmentFilter.AssignmentFilterResource
              Filterable GraphError)
  (policy : graphCloudPcProvisioningPolicy.CloudPcProvisioningPolicyResource
              StableClient)
  diags :
  let resp' := snd (provider_Configure p req resp) in
  HasError (provider.ConfigureResponse_Diagnostics resp') = false ->
  exists clients stable beta,
    provider.ResourceData resp' = client.Clients (Some clients) /\
    client.StableClient clients = Some stable /\
    client.BetaClient clients = Some beta /\
    graphBetaAssignmentFilter.part000_Configure filter
      (provider.ResourceData resp') diags
    = Some (graphBetaAssignmentFilter.set_client beta filter, diags) /\
    graphCloudPcProvisioningPolicy.Configure policy
      (provider.ResourceData resp') diags
    = Some (graphCloudPcProvisioningPolicy.set_client stable policy, diags).
Proof.
  intros resp' Hclean. subst resp'. unfold provider_Configure in *.
  destruct (provider.Configure_without_error _ _ _ _ _ _ _ _ _ _ _ _ _ _ _ _
              _ _ _ _ _ p req resp Hclean) as (stable & beta & Hdata).
  rewrite Hdata. eexists _, stable, beta. repeat split.
Qed.

End Lifecycle.

(** * Examples

    A concrete setting to run the definitions in: an SDK whose parsers know
    the wire names below and report any other string in an error that quotes
    it, nested objects that are empty, and a marshaller that works. *)

Import graphBetaConditionalAccessPolicy.

Definition enumerators (t : models.EnumType) : list string :=
  match t with
  | models.ConditionalAccessPolicyState =>
      ["enabled"; "disabled"; "enabledForReportingButNotEnforced"]
  | models.ConditionalAccessClientApp =>
      ["all"; "browser"; "mobileAppsAndDesktopClients"; "exchangeActiveSync";
       "easSupported"; "other"; "unknownFutureValue"]
  | models.ConditionalAccessInsiderRiskLevels =>
      ["minor"; "moderate"; "elevated"; "unknownFutureValue"]
  | models.RiskLevel =>
      ["low"; "medium"; "high"; "hidden"; "none"; "unknownFutureValue"]
  | models.ConditionalAccessGuestOrExternalUserTypes =>
      ["none"; "internalGuest"; "b2bCollaborationGuest";
       "b2bCollaborationMember"; "b2bDirectConnectUser"; "otherExternalUser";
       "serviceProvider"; "unknownFutureValue"]
  | models.ConditionalAccessGrantControlOperator => ["AND"; "OR"]
  | models.ConditionalAccessGrantControl =>
      ["block"; "mfa"; "compliantDevice"; "domainJoinedDevice";
       "approvedApplication"; "compliantApplication"; "passwordChange";
       "unknownFutureValue"]
  | models.ContinuousAccessEvaluationMode =>
      ["strictEnforcement"; "disabled"; "unknownFutureValue"; "strictLocation"]
  | models.PersistentBrowserSessionMode => ["always"; "never"]
  | models.SigninFrequencyType => ["days"; "hours"]
  | models.SignInFrequencyInterval =>
      ["timeBased"; "everyTime"; "unknownFutureValue"]
  | models.SignInFrequencyAuthenticationType =>
      ["primaryAndSecondaryAuthentication"; "secondaryAuthentication";
       "unknownFutureValue"]
  end.

Fixpoint index_of (v : string) (names : list string) : option Z :=
  match names with
  | [] => None
  | name :: rest =>
      if String.eqb v name then Some 0%Z
      else option_map Z.succ (index_of v rest)
  end.

Definition example_Parse (t : models.EnumType) (v : string)
  : parsed (models.enum t) :=
  match index_of v (enumerators t) with
  | Some i => ParseValue i
  | None => ParseError ("Unknown value: " +++ v)
  end.

Definition NoModel (n : Nested) : Type := unit.
Definition NoObject (n : Nested) : Type := unit.

Definition example_constructNested (n : Nested) (m : option (NoModel n))
  : outcome (option (NoObject n)) :=
  Done m.

Definition example_MarshalIndent (requestBody : ConditionalAccessPolicy NoObject)
  : string + string :=
  inl "{}".

(** A marshaller that gives up on every request body. *)
Definition failing_MarshalIndent (requestBody : ConditionalAccessPolicy NoObject)
  : string + string :=
  inr "json: unsupported value".

Definition strings (l : list string) : slice types.String :=
  Some (map types.StringValue l).

Definition no_conditions : ConditionalAccessConditionsModel NoModel :=
  {| Cond_Applications := None; Cond_AuthenticationFlows := None;
     Cond_ClientApplications := None; Cond_ClientAppTypes := None;
     Cond_Devices := None; Cond_DeviceStates := None;
     Cond_InsiderRiskLevels := types.StringNull; Cond_Locations := None;
     Cond_Platforms := None; Cond_ServicePrincipalRiskLevels := None;
     Cond_SignInRiskLevels := None; Cond_UserRiskLevels := None;
     Cond_Users := None |}.

(** Two applications, none excluded, and two client app types. *)
Definition example_conditions : ConditionalAccessConditionsModel NoModel :=
  {| Cond_Applications :=
       Some {| Apps_IncludeApplications := strings ["Office365"; "All"];
               Apps_ExcludeApplications := None;
               Apps_IncludeUserActions := Some [] |};
     Cond_AuthenticationFlows := None;
     Cond_ClientApplications := None;
     Cond_ClientAppTypes := strings ["browser"; "all"];
     Cond_Devices := None; Cond_DeviceStates := None;
     Cond_InsiderRiskLevels := types.StringNull; Cond_Locations := None;
     Cond_Platforms := None; Cond_ServicePrincipalRiskLevels := None;
     Cond_SignInRiskLevels := None; Cond_UserRiskLevels := None;
     Cond_Users := None |}.

Definition example_policy : ConditionalAccessPolicyResourceModel NoModel :=
  {| Policy_DisplayName := types.StringValue "Require MFA";
     Policy_Description := types.StringNull;
     Policy_State := types.StringValue "enabled";
     Policy_Conditions := Some example_conditions;
     Policy_GrantControls := None;
     Policy_SessionControls := None |}.

(** Session controls with nothing set. *)
Definition empty_session : ConditionalAccessSessionControlsModel :=
  {| Session_ApplicationEnforcedRestrictions := None;
     Session_ContinuousAccessEvaluation := None;
     Session_PersistentBrowser := None;
     Session_SignInFrequency := None;
     Session_SecureSignInSession := None;
     Session_DisableResilienceDefaults := types.BoolNull |}.

Definition policy_with_empty_session
  : ConditionalAccessPolicyResourceModel NoModel :=
  {| Policy_DisplayName := types.StringValue "Require MFA";
     Policy_Description := types.StringNull;
     Policy_State := types.StringNull;
     Policy_Conditions := None;
     Policy_GrantControls := None;
     Policy_SessionControls := Some empty_session |}.

(** A state outside the enumeration, and a risk level outside it as well. *)
Definition policy_with_bad_state
  : ConditionalAccessPolicyResourceModel NoModel :=
  {| Policy_DisplayName := types.StringValue "Require MFA";
     Policy_Description := types.StringNull;
     Policy_State := types.StringValue "on";
     Policy_Conditions :=
       Some {| Cond_Applications := None; Cond_AuthenticationFlows := None;
               Cond_ClientApplications := None; Cond_ClientAppTypes := None;
               Cond_Devices := None; Cond_DeviceStates := None;
               Cond_InsiderRiskLevels := types.StringNull;
               Cond_Locations := None; Cond_Platforms := None;
               Cond_ServicePrincipalRiskLevels := None;
               Cond_SignInRiskLevels := strings ["low"; "severe"];
               Cond_UserRiskLevels := None; Cond_Users := None |};
     Policy_GrantControls := None;
     Policy_SessionControls := None |}.

Definition example_constructResource :=
  constructResource example_Parse example_constructNested example_MarshalIndent.

Example example_policy_request :
  exists requestBody conditions applications,
    example_constructResource example_policy = Done requestBody /\
    cap_GetDisplayName requestBody = Some "Require MFA" /\
    cap_GetDescription requestBody = None /\
    cap_GetState requestBody = Some 0%Z /\
    cap_GetConditions requestBody = Some conditions /\
    cond_GetClientAppTypes conditions = Some [1%Z; 0%Z] /\
    cond_GetSignInRiskLevels conditions = None /\
    cond_GetApplications conditions = Some applications /\
    apps_GetIncludeApplications applications = Some ["Office365"; "All"] /\
    apps_GetExcludeApplications applications = None /\
    apps_GetIncludeUserActions applications = None.
Proof. do 3 eexists. repeat split; reflexivity. Qed.

Example bad_state_is_reported :
  example_constructResource policy_with_bad_state
  = Failed "invalid state: Unknown value: on".
Proof. reflexivity. Qed.

Example example_steps :
  steps policy_with_bad_state
  = [ParseStep F_State "invalid state: " "on";
     ParseStep F_SignInRiskLevels
       "error constructing conditions: error parsing sign-in risk level: "
       "low";
     ParseStep F_SignInRiskLevels
       "error constructing conditions: error parsing sign-in risk level: "
       "severe"].
Proof. reflexivity. Qed.

(** ** The constructor on the examples *)

Lemma null_disableResilienceDefaults_witness :
  exists requestBody,
    example_constructResource policy_with_empty_session = Done requestBody /\
    exists sessionControls,
      cap_GetSessionControls requestBody = Some sessionControls /\
      session_GetDisableResilienceDefaults sessionControls = Some false.
Proof.
  eexists. split; [reflexivity|].
  apply (null_disableResilienceDefaults_is_sent_as_false
           NoModel NoObject example_Parse example_constructNested example_MarshalIndent
           policy_with_empty_session empty_session);
    reflexivity.
Defined.


(** C3, as the specification states it, fails: the request body of
    [example_policy] is built, the marshaller gives up on it, and
    [constructResource] returns the marshaller's error. *)
Lemma marshalling_failure_fails_the_constructor :
  (exists requestBody,
      example_constructResource example_policy = Done requestBody /\
      failing_MarshalIndent requestBody = inr "json: unsupported value") /\
  constructResource example_Parse example_constructNested failing_MarshalIndent
    example_policy
  = Failed "error marshalling request body to JSON: json: unsupported value".
Proof. split; [eexists; split; reflexivity | reflexivity]. Qed.

Lemma marshalling_error_witness :
  exists requestBody,
    constructResource example_Parse example_constructNested
      (fun _ => inl "") example_policy = Done requestBody /\
    (forall err,
        failing_MarshalIndent requestBody = inr err ->
        constructResource example_Parse example_constructNested
          failing_MarshalIndent example_policy
        = Failed ("error marshalling request body to JSON: " +++ err))
    /\ (forall json,
        failing_MarshalIndent requestBody = inl json ->
        constructResource example_Parse example_constructNested
          failing_MarshalIndent example_policy
        = Done requestBody).
Proof.
  eexists. split; [reflexivity|].
  apply (marshalling_error_fails_constructResource
           NoModel NoObject example_Parse example_constructNested failing_MarshalIndent
           example_policy).
  reflexivity.
Defined.

(** ** The handlers on the examples

    A Graph API that is up and answers every request, and one that answers
    every request with the same error status; 404 is the not-found error. *)

Import graphBetaAssignmentFilter.

Record ExampleFilter : Type := {
  filter_Id : option string;
  filter_DisplayName : string;
  filter_CreatedDateTime : string
}.

Definition ExampleModel : Type :=
  AssignmentFilterResourceModel (list string) unit.

Definition example_Timeout (op : Operation) (t : unit) (default : Duration)
  : Duration * Diagnostics :=
  (default, []).

Definition example_SetDiagnostics (data : ExampleModel) : Diagnostics := [].

Definition example_Error (status : nat) : string :=
  if Nat.eqb status 404 then "Not Found" else "Bad Gateway".

Definition example_IsNotFoundError (status : nat) : bool := Nat.eqb status 404.

Definition example_construct (data : ExampleModel) : outcome ExampleFilter :=
  Done {| filter_Id := None;
          filter_DisplayName := ValueString (DisplayName data);
          filter_CreatedDateTime := "" |}.

(** A constructor that rejects the platform of every plan. *)
Definition failing_construct (data : ExampleModel) : outcome ExampleFilter :=
  Failed "error parsing platform: Unknown value: amiga".

(** The state mapper fills in the name and the creation time of the remote
    resource. *)
Definition example_mapRemoteStateToTerraform (data : ExampleModel)
  (remote : ExampleFilter) : ExampleModel :=
  {| ID := ID data;
     DisplayName := types.StringValue (filter_DisplayName remote);
     Description := Description data; Platform := Platform data;
     Rule := Rule data;
     AssignmentFilterManagementType := AssignmentFilterManagementType data;
     CreatedDateTime := types.StringValue (filter_CreatedDateTime remote);
     LastModifiedDateTime := LastModifiedDateTime data;
     RoleScopeTags := RoleScopeTags data; Payloads := Payloads data;
     Timeouts := Timeouts data |}.

Definition created (requestBody : ExampleFilter) : ExampleFilter :=
  {| filter_Id := Some "af-1";
     filter_DisplayName := filter_DisplayName requestBody;
     filter_CreatedDateTime := "2024-05-01T00:00:00Z" |}.

Definition graph_up : GraphServiceClient ExampleFilter nat :=
  {| Post := fun _ requestBody => inl (created requestBody);
     Get := fun _ id =>
       inl {| filter_Id := Some id; filter_DisplayName := "Windows devices";
              filter_CreatedDateTime := "2024-05-01T00:00:00Z" |};
     Patch := fun _ _ requestBody => inl requestBody;
     Delete := fun _ _ => None |}.

Definition graph_answering (status : nat) : GraphServiceClient ExampleFilter nat :=
  {| Post := fun _ _ => inr status;
     Get := fun _ _ => inr status;
     Patch := fun _ _ _ => inr status;
     Delete := fun _ _ => Some status |}.

Definition resource_on (graph : GraphServiceClient ExampleFilter nat)
  : AssignmentFilterResource ExampleFilter nat :=
  {| client := Some graph;
     ProviderTypeName := "microsoft365";
     TypeName := "graph_beta_device_and_app_management_assignment_filter";
     isCreate := false |}.

Definition example_plan : ExampleModel :=
  {| ID := types.StringUnknown;
     DisplayName := types.StringValue "Windows devices";
     Description := types.StringNull;
     Platform := types.StringValue "windows10AndLater";
     Rule := types.StringValue "(device.manufacturer -eq Contoso)";
     AssignmentFilterManagementType := types.StringNull;
     CreatedDateTime := types.StringUnknown;
     LastModifiedDateTime := types.StringUnknown;
     RoleScopeTags := []; Payloads := []; Timeouts := tt |}.

Definition example_state : ExampleModel :=
  SetID (types.StringValue "af-1") example_plan.

Definition decoding (data : ExampleModel) : Decoded (list string) unit :=
  {| Get_data := data; Get_diags := [] |}.

Definition fresh_response : Response (list string) unit :=
  {| Response_Diagnostics := []; Response_State := None |}.

Definition response_over (state : ExampleModel) : Response (list string) unit :=
  {| Response_Diagnostics := []; Response_State := Some state |}.

Definition example_Create (construct : ExampleModel -> outcome ExampleFilter) :=
  Create example_Timeout example_SetDiagnostics filter_Id example_Error
    construct example_mapRemoteStateToTerraform.

Definition example_Read :=
  Read example_Timeout example_SetDiagnostics example_Error
    example_IsNotFoundError example_mapRemoteStateToTerraform.

Definition example_Update :=
  Update example_Timeout example_SetDiagnostics example_Error
    example_IsNotFoundError example_construct.

Definition example_Delete :=
  @Delete_ (list string) unit example_Timeout ExampleFilter nat example_Error.

Definition read_request : ReadRequest (list string) unit :=
  {| ReadRequest_State := decoding example_state |}.

Definition create_request : CreateRequest (list string) unit :=
  {| CreateRequest_Plan := decoding example_plan |}.

Definition update_request : UpdateRequest (list string) unit :=
  {| UpdateRequest_Plan := decoding example_state |}.

Definition delete_request : DeleteRequest (list string) unit :=
  {| DeleteRequest_State := decoding example_state |}.

(** The two revisions on a Read of a resource that is gone. *)
Example crud_Read_of_a_resource_that_is_gone :
  example_Read crud (resource_on (graph_answering 404)) read_request
    (response_over example_state)
  = Returned
      {| Response_Diagnostics :=
           [warning "Assignment filter not found"
              "Assignment filter with ID af-1 was not found. Removing from state."];
         Response_State := None |}
      [CallGet "af-1"].
Proof. reflexivity. Qed.

Example part000_Read_of_a_resource_that_is_gone :
  example_Read part000 (resource_on (graph_answering 404)) read_request
    (response_over example_state)
  = Returned
      {| Response_Diagnostics :=
           [error "Error reading assignment filter"
              "Could not read assignment filter: Not Found"];
         Response_State := Some example_state |}
      [CallGet "af-1"].
Proof. reflexivity. Qed.

(** The two revisions on a Create that succeeds. *)
Example crud_Create_fills_in_the_computed_fields :
  exists persisted,
    example_Create example_construct crud (resource_on graph_up)
      create_request fresh_response
    = Returned
        {| Response_Diagnostics := []; Response_State := Some persisted |}
        [CallPost {| filter_Id := None;
                     filter_DisplayName := "Windows devices";
                     filter_CreatedDateTime := "" |}] /\
    ID persisted = types.StringValue "af-1" /\
    CreatedDateTime persisted = types.StringValue "2024-05-01T00:00:00Z".
Proof. eexists. repeat split; reflexivity. Qed.

Example part000_Create_leaves_the_computed_fields :
  exists persisted,
    example_Create example_construct part000 (resource_on graph_up)
      create_request fresh_response
    = Returned
        {| Response_Diagnostics := []; Response_State := Some persisted |}
        [CallPost {| filter_Id := None;
                     filter_DisplayName := "Windows devices";
                     filter_CreatedDateTime := "" |}] /\
    ID persisted = types.StringValue "af-1" /\
    CreatedDateTime persisted = types.StringUnknown.
Proof. eexists. repeat split; reflexivity. Qed.

Lemma part000_Read_not_found_witness :
  exists resp',
    example_Read part000 (resource_on (graph_answering 404)) read_request
      (response_over example_state)
    = Returned resp' [CallGet "af-1"] /\
    In (error "Error reading assignment filter"
          ("Could not read assignment filter: " +++ example_Error 404))
       (Response_Diagnostics resp') /\
    HasError (Response_Diagnostics resp') = true /\
    Response_State resp' = Some example_state.
Proof.
  apply (part000_Read_not_found_is_hard_error
           _ _ example_Timeout example_SetDiagnostics _ _ example_Error
           example_IsNotFoundError example_mapRemoteStateToTerraform
           (resource_on (graph_answering 404)) read_request
           (response_over example_state) (graph_answering 404) 404);
    try reflexivity.
  split; reflexivity.
Defined.

Lemma part000_Create_witness :
  exists resp' persisted,
    example_Create example_construct part000 (resource_on graph_up)
      create_request fresh_response
    = Returned resp'
        [CallPost {| filter_Id := None;
                     filter_DisplayName := "Windows devices";
                     filter_CreatedDateTime := "" |}] /\
    Response_State resp' = Some persisted /\
    persisted = SetID (types.StringValue "af-1") example_plan /\
    CreatedDateTime persisted = CreatedDateTime example_plan /\
    LastModifiedDateTime persisted = LastModifiedDateTime example_plan.
Proof.
  apply (part000_Create_persists_without_state_mapper
           _ _ example_Timeout example_SetDiagnostics _ filter_Id _
           example_Error example_construct example_mapRemoteStateToTerraform
           (resource_on graph_up) create_request fresh_response graph_up
           {| filter_Id := None; filter_DisplayName := "Windows devices";
              filter_CreatedDateTime := "" |}
           (created {| filter_Id := None;
                       filter_DisplayName := "Windows devices";
                       filter_CreatedDateTime := "" |})
           "af-1");
    try reflexivity.
  split; reflexivity.
Defined.

(** A Create whose POST is answered with an error. *)
Lemma Create_failure_witness :
  exists resp' calls,
    example_Create example_construct crud (resource_on (graph_answering 502))
      create_request fresh_response
    = Returned resp' calls /\
    HasError (Response_Diagnostics resp') = true /\
    Response_State resp' = Response_State fresh_response.
Proof.
  apply (Create_failure_writes_no_state
           _ _ example_Timeout example_SetDiagnostics _ filter_Id _
           example_Error example_construct example_mapRemoteStateToTerraform
           crud (resource_on (graph_answering 502)) create_request
           fresh_response).
  right. right. split; [split; reflexivity|].
  exists {| filter_Id := None; filter_DisplayName := "Windows devices";
            filter_CreatedDateTime := "" |}, (graph_answering 502), 502.
  repeat split; reflexivity.
Defined.

(** An Update of a resource that is gone, outside of a Create. *)
Lemma Update_revisions_witness :
  let r := resource_on (graph_answering 404) in
  let resp := response_over example_state in
  exists requestBody,
    (exists resp',
        example_Update crud r update_request resp
        = Returned resp' [CallPatch "af-1" requestBody] /\
        HasError (Response_Diagnostics resp') = false /\
        existsb is_warning (Response_Diagnostics resp') = true /\
        Response_State resp' = None)
    /\ (exists resp',
        example_Update part000 r update_request resp
        = Returned resp' [CallPatch "af-1" requestBody] /\
        HasError (Response_Diagnostics resp') = true /\
        Response_State resp' = Some example_state)
    /\ example_Update crud r update_request resp
       <> example_Update part000 r update_request resp.
Proof.
  intros r resp.
  exists {| filter_Id := None; filter_DisplayName := "Windows devices";
            filter_CreatedDateTime := "" |}.
  destruct (Update_revisions_differ_on_not_found
              _ _ example_Timeout example_SetDiagnostics _ _ example_Error
              example_IsNotFoundError example_construct r update_request resp
              {| filter_Id := None; filter_DisplayName := "Windows devices";
                 filter_CreatedDateTime := "" |} 404)
    as (Hpart & _ & Hcrud).
  { split; [split; reflexivity|]. split; [reflexivity|].
    exists (graph_answering 404). split; reflexivity. }
  destruct (Hcrud eq_refl eq_refl) as [Hremoved Hdiffer].
  split; [exact Hremoved|]. split; [exact Hpart | exact Hdiffer].
Defined.

(** A Delete of a resource that is gone already, and one that works. *)
Lemma Delete_witness :
  (exists resp',
      example_Delete crud (resource_on (graph_answering 404)) delete_request
        (response_over example_state)
      = Returned resp' [CallDelete "af-1"] /\
      HasError (Response_Diagnostics resp') = true /\
      Response_State resp' = Some example_state)
  /\ (exists resp',
      example_Delete part000 (resource_on graph_up) delete_request
        (response_over example_state)
      = Returned resp' [CallDelete "af-1"] /\
      Response_State resp' = None).
Proof.
  split.
  - destruct (Delete_error_keeps_state_success_removes_it
                _ _ example_Timeout _ _ example_Error crud
                (resource_on (graph_answering 404)) delete_request
                (response_over example_state) (graph_answering 404))
      as (resp' & Hrun & Hanswer);
      [split; reflexivity | reflexivity |].
    exists resp'. split; [exact Hrun|]. simpl in Hanswer. apply Hanswer.
  - destruct (Delete_error_keeps_state_success_removes_it
                _ _ example_Timeout _ _ example_Error part000
                (resource_on graph_up) delete_request
                (response_over example_state) graph_up)
      as (resp' & Hrun & Hanswer);
      [split; reflexivity | reflexivity |].
    exists resp'. split; [exact Hrun|]. simpl in Hanswer. apply Hanswer.
Defined.

Definition request_without_ID : ReadRequest (list string) unit :=
  {| ReadRequest_State := decoding (SetID types.StringNull example_plan) |}.

Lemma crud_Read_without_ID_witness :
  exists resp',
    example_Read crud (resource_on graph_up) request_without_ID
      (response_over example_state)
    = Returned resp' [] /\
    In (warning "Unable to read assignment filter"
          "Assignment filter ID is empty or null. Unable to read assignment filter.")
       (Response_Diagnostics resp') /\
    HasError (Response_Diagnostics resp') = false /\
    Response_State resp' = Some example_state.
Proof.
  apply (crud_Read_without_ID_returns_early
           _ _ example_Timeout example_SetDiagnostics _ _ example_Error
           example_IsNotFoundError example_mapRemoteStateToTerraform
           (resource_on graph_up) request_without_ID
           (response_over example_state)).
  - reflexivity.
  - left. reflexivity.
Defined.


(** ** More of the constructor on the examples *)

(** An SDK parser that answers with neither a value nor an error. *)
Definition silent_Parse (t : models.EnumType) (v : string)
  : parsed (models.enum t) :=
  ParseNil.

(** Session controls with a persistent browser whose flag is unknown, and a
    sign-in frequency of four hours. *)
Definition example_session : ConditionalAccessSessionControlsModel :=
  {| Session_ApplicationEnforcedRestrictions := None;
     Session_ContinuousAccessEvaluation := None;
     Session_PersistentBrowser :=
       Some {| Pb_IsEnabled := types.BoolUnknown;
               Pb_Mode := types.StringValue "never" |};
     Session_SignInFrequency :=
       Some {| Sif_IsEnabled := types.BoolValue true;
               Sif_Type := types.StringValue "hours";
               Sif_Value := types.Int32Value 4;
               Sif_FrequencyInterval := types.StringNull;
               Sif_AuthenticationType := types.StringNull |};
     Session_SecureSignInSession := None;
     Session_DisableResilienceDefaults := types.BoolValue true |}.

Definition policy_with_session
  : ConditionalAccessPolicyResourceModel NoModel :=
  {| Policy_DisplayName := types.StringValue "Sign in every four hours";
     Policy_Description := types.StringUnknown;
     Policy_State := types.StringValue "disabled";
     Policy_Conditions := None;
     Policy_GrantControls := None;
     Policy_SessionControls := Some example_session |}.

Example example_session_request :
  exists requestBody session browser frequency,
    example_constructResource policy_with_session = Done requestBody /\
    cap_GetDescription requestBody = Some "" /\
    cap_GetSessionControls requestBody = Some session /\
    session_GetPersistentBrowser session = Some browser /\
    pb_GetIsEnabled browser = Some false /\
    pb_GetMode browser = Some 1%Z /\
    session_GetSignInFrequency session = Some frequency /\
    sif_GetValue frequency = Some 4%Z /\
    sif_GetFrequencyInterval frequency = None /\
    session_GetDisableResilienceDefaults session = Some true.
Proof. do 4 eexists. repeat split; reflexivity. Qed.

Lemma every_error_has_a_source_witness :
  let msg := "invalid state: Unknown value: on" in
  (exists requestBody err,
     example_MarshalIndent requestBody = inr err /\
     msg = "error marshalling request body to JSON: " +++ err) \/
  (exists f v err,
     In (ParseStep f (error_prefix f) v) (steps policy_with_bad_state) /\
     example_Parse (enum_type f) v = ParseError err /\
     msg = error_prefix f +++ err /\ contains (field_name f) msg) \/
  (exists n what m err,
     In (NestedStep n what m) (steps policy_with_bad_state) /\
     example_constructNested n m = Failed err /\ msg = what +++ err).
Proof.
  apply (every_error_has_a_source
           NoModel NoObject example_Parse example_constructNested
           example_MarshalIndent policy_with_bad_state).
  reflexivity.
Defined.

Lemma every_crash_has_a_source_witness :
  constructResource silent_Parse example_constructNested
    example_MarshalIndent example_policy = Panicked /\
  ((exists f what v,
      In (ParseStep f what v) (steps example_policy) /\
      dereferenced f = true /\ silent_Parse (enum_type f) v = ParseNil) \/
   (exists n what m,
      In (NestedStep n what m) (steps example_policy) /\
      example_constructNested n m = Panicked)).
Proof.
  split; [reflexivity|].
  apply (every_crash_has_a_source
           NoModel NoObject silent_Parse example_constructNested
           example_MarshalIndent example_policy).
  reflexivity.
Defined.


Lemma session_controls_are_written_witness :
  exists requestBody,
    example_constructResource policy_with_session = Done requestBody /\
    nested (SessionControlsWritten example_Parse)
      (Policy_SessionControls policy_with_session)
      (cap_GetSessionControls requestBody).
Proof.
  eexists. split; [reflexivity|].
  apply (session_controls_are_written
           NoModel NoObject example_Parse example_constructNested
           example_MarshalIndent policy_with_session).
  reflexivity.
Defined.

Lemma scalars_are_written_witness :
  exists requestBody,
    example_constructResource example_policy = Done requestBody /\
    ScalarsWritten example_Parse example_constructNested example_policy
      requestBody.
Proof.
  eexists. split; [reflexivity|].
  apply (scalars_are_written
           NoModel NoObject example_Parse example_constructNested
           example_MarshalIndent example_policy).
  reflexivity.
Defined.

(** ** More of the handlers on the examples *)

Definition example_invoke (construct : ExampleModel -> outcome ExampleFilter) :=
  invoke example_Timeout example_SetDiagnostics filter_Id example_Error
    example_IsNotFoundError construct example_mapRemoteStateToTerraform.

(** A plan the framework could not decode. *)
Definition undecoded_request : UpdateRequest (list string) unit :=
  {| UpdateRequest_Plan :=
       {| Get_data := example_state;
          Get_diags :=
            [error "Value Conversion Error"
               "An unexpected error was encountered trying to build a value."]
       |} |}.

(** A state encoder that rejects every model. *)
Definition rejecting_SetDiagnostics (data : ExampleModel) : Diagnostics :=
  [error "Value Conversion Error"
     "An unexpected error was encountered trying to convert the model."].

Definition windows_devices : ExampleFilter :=
  {| filter_Id := None; filter_DisplayName := "Windows devices";
     filter_CreatedDateTime := "" |}.

(** A resource as its constructor makes it. *)
Definition unconfigured : AssignmentFilterResource ExampleFilter nat :=
  NewAssignmentFilterResource.

Definition beta_only
  : client.ProviderData unit (GraphServiceClient ExampleFilter nat) :=
  client.Clients
    (Some {| client.StableClient := None;
             client.BetaClient := Some graph_up |}).

Lemma error_leaves_state_witness :
  exists resp' calls,
    example_invoke example_construct crud (resource_on (graph_answering 502))
      (InvokeCreate create_request) fresh_response
    = Returned resp' calls /\
    HasError (Response_Diagnostics resp') = true /\
    Response_State resp' = Response_State fresh_response.
Proof.
  eexists _, _. split; [reflexivity|]. split; [reflexivity|].
  apply (error_leaves_state
           _ _ example_Timeout example_SetDiagnostics _ filter_Id _
           example_Error example_IsNotFoundError example_construct
           example_mapRemoteStateToTerraform crud
           (resource_on (graph_answering 502)) (InvokeCreate create_request)
           fresh_response _ [CallPost windows_devices]);
    reflexivity.
Defined.

Lemma diagnostics_only_grow_witness :
  exists resp' calls,
    example_invoke example_construct part000
      (resource_on (graph_answering 404)) (InvokeRead read_request)
      (response_over example_state)
    = Returned resp' calls /\
    exists more,
      Response_Diagnostics resp'
      = Response_Diagnostics (response_over example_state) ++ more.
Proof.
  eexists _, _. split; [reflexivity|].
  apply (diagnostics_only_grow
           _ _ example_Timeout example_SetDiagnostics _ filter_Id _
           example_Error example_IsNotFoundError example_construct
           example_mapRemoteStateToTerraform part000
           (resource_on (graph_answering 404)) (InvokeRead read_request)
           (response_over example_state) _ [CallGet "af-1"]).
  reflexivity.
Defined.

Lemma early_error_makes_no_call_witness :
  exists resp',
    example_invoke example_construct crud (resource_on graph_up)
      (InvokeUpdate undecoded_request) (response_over example_state)
    = Returned resp' [] /\
    Response_State resp' = Response_State (response_over example_state).
Proof.
  apply (early_error_makes_no_call
           _ _ example_Timeout example_SetDiagnostics _ filter_Id _
           example_Error example_IsNotFoundError example_construct
           example_mapRemoteStateToTerraform crud (resource_on graph_up)
           (InvokeUpdate undecoded_request) (response_over example_state)).
  reflexivity.
Defined.


Lemma handlers_without_client_witness :
  example_invoke example_construct part000 unconfigured
    (InvokeCreate create_request) fresh_response
  = Returned
      (Diagnostics_AddError "Client is not initialized"
         "Cannot create assignment filter because the client is not initialized."
         fresh_response) [] /\
  example_invoke example_construct crud unconfigured
    (InvokeCreate create_request) fresh_response
  = Crashed [].
Proof.
  split.
  - apply (handlers_without_client
             _ _ example_Timeout example_SetDiagnostics _ filter_Id _
             example_Error example_IsNotFoundError example_construct
             example_mapRemoteStateToTerraform part000 unconfigured
             (InvokeCreate create_request) fresh_response);
      [reflexivity | split; reflexivity | discriminate | reflexivity].
  - apply (handlers_without_client
             _ _ example_Timeout example_SetDiagnostics _ filter_Id _
             example_Error example_IsNotFoundError example_construct
             example_mapRemoteStateToTerraform crud unconfigured
             (InvokeCreate create_request) fresh_response);
      [reflexivity | split; reflexivity | discriminate | reflexivity].
Defined.

Lemma request_is_sent_witness :
  calls_of
    (example_invoke example_construct crud (resource_on (graph_answering 502))
       (InvokeDelete delete_request) (response_over example_state))
  = [CallDelete "af-1"].
Proof.
  apply (request_is_sent
           _ _ example_Timeout example_SetDiagnostics _ filter_Id _
           example_Error example_IsNotFoundError example_construct
           example_mapRemoteStateToTerraform crud
           (resource_on (graph_answering 502)) (InvokeDelete delete_request)
           (response_over example_state) (graph_answering 502)
           (CallDelete "af-1"));
    [split; reflexivity | reflexivity | reflexivity | reflexivity].
Defined.

Lemma Read_removes_only_on_not_found_witness :
  let r := resource_on (graph_answering 404) in
  let resp := response_over example_state in
  exists resp' calls,
    example_Read crud r read_request resp = Returned resp' calls /\
    (Response_State resp' = None <->
     exists graph err,
       client r = Some graph /\ calls = [CallGet "af-1"] /\
       Get graph
         (timeout_of example_Timeout OpRead (ReadRequest_State read_request))
         "af-1" = inr err /\
       example_IsNotFoundError err = true).
Proof.
  intros r resp. eexists _, _. split; [reflexivity|].
  apply (Read_removes_only_on_not_found
           _ _ example_Timeout example_SetDiagnostics _ _ example_Error
           example_IsNotFoundError example_mapRemoteStateToTerraform
           r read_request resp);
    [discriminate | reflexivity].
Defined.

Lemma Read_persists_mapped_state_witness :
  exists remote,
    Get graph_up
      (timeout_of example_Timeout OpRead (ReadRequest_State read_request))
      "af-1" = inl remote /\
    example_Read crud (resource_on graph_up) read_request
      (response_over example_plan)
    = Returned
        (State_Set example_SetDiagnostics
           (example_mapRemoteStateToTerraform example_state remote)
           (timed_resp example_Timeout OpRead (ReadRequest_State read_request)
              (response_over example_plan)))
        [CallGet "af-1"].
Proof.
  eexists. split; [reflexivity|].
  apply (Read_persists_mapped_state
           _ _ example_Timeout example_SetDiagnostics _ _ example_Error
           example_IsNotFoundError example_mapRemoteStateToTerraform
           crud (resource_on graph_up) read_request
           (response_over example_plan) graph_up);
    [split; reflexivity | reflexivity | reflexivity | reflexivity].
Defined.

Lemma Update_persists_the_plan_witness :
  example_Update part000 (resource_on graph_up) update_request
    (response_over example_plan)
  = Returned
      (State_Set example_SetDiagnostics example_state
         (timed_resp example_Timeout OpUpdate
            (UpdateRequest_Plan update_request)
            (response_over example_plan)))
      [CallPatch "af-1" windows_devices].
Proof.
  apply (Update_persists_the_plan
           _ _ example_Timeout example_SetDiagnostics _ _ example_Error
           example_IsNotFoundError example_construct
           part000 (resource_on graph_up) update_request
           (response_over example_plan) graph_up windows_devices
           windows_devices);
    [split; reflexivity | reflexivity | reflexivity | reflexivity].
Defined.

Lemma created_but_not_recorded_witness :
  exists resp',
    Create example_Timeout rejecting_SetDiagnostics filter_Id example_Error
      example_construct example_mapRemoteStateToTerraform crud
      (resource_on graph_up) create_request fresh_response
    = Returned resp' [CallPost windows_devices] /\
    HasError (Response_Diagnostics resp') = true /\
    Response_State resp' = Response_State fresh_response.
Proof.
  apply (created_but_not_recorded
           _ _ example_Timeout rejecting_SetDiagnostics _ filter_Id _
           example_Error example_construct example_mapRemoteStateToTerraform
           crud (resource_on graph_up) create_request fresh_response
           graph_up windows_devices (created windows_devices));
    [split; reflexivity | reflexivity | reflexivity | reflexivity
    | reflexivity].
Defined.

Lemma Configure_sets_client_or_reports_witness :
  let r' := set_client graph_up unconfigured in
  (ProviderTypeName r' = ProviderTypeName unconfigured /\
   TypeName r' = TypeName unconfigured) /\
  (HasError [] = false ->
   exists clients beta,
     beta_only = client.Clients (Some clients) /\
     client.BetaClient clients = Some beta /\
     client r' = Some beta /\ @nil Diagnostic = []) /\
  (HasError [] = true -> HasError [] = false ->
   r' = unconfigured /\ exists s d, [] = AddError [] s d).
Proof.
  apply (Configure_sets_client_or_reports
           _ _ _ unconfigured beta_only [] (set_client graph_up unconfigured)
           []).
  reflexivity.
Defined.

Lemma construct_error_names_no_resource_witness :
  let r' := set_client graph_up unconfigured in
  let err := "error parsing platform: Unknown value: amiga" in
  (forall req resp,
     proceeds example_Timeout OpCreate (CreateRequest_Plan req) resp ->
     failing_construct (Get_data (CreateRequest_Plan req)) = Failed err ->
     example_Create failing_construct part000 r' req resp
     = Returned
         (Diagnostics_AddError "Error constructing assignment filter"
            ("Could not construct resource: _: " +++ err)
            (timed_resp example_Timeout OpCreate (CreateRequest_Plan req)
               resp)) []) /\
  (forall req resp,
     proceeds example_Timeout OpUpdate (UpdateRequest_Plan req) resp ->
     failing_construct (Get_data (UpdateRequest_Plan req)) = Failed err ->
     Update example_Timeout example_SetDiagnostics example_Error
       example_IsNotFoundError failing_construct part000 r' req resp
     = Returned
         (Diagnostics_AddError "Error constructing assignment filter"
            ("Could not construct resource: _: " +++ err)
            (timed_resp example_Timeout OpUpdate (UpdateRequest_Plan req)
               resp)) []).
Proof.
  apply (construct_error_names_no_resource
           _ _ example_Timeout example_SetDiagnostics _ filter_Id _
           example_Error example_IsNotFoundError failing_construct
           example_mapRemoteStateToTerraform unit beta_only []
           (set_client graph_up unconfigured) []);
    reflexivity.
Defined.

(** ** The provider and the other resource on the examples

    A machine without the provider's environment variables, the public
    cloud, helpers that always succeed except for an empty client secret,
    and a stable client that is the base URL of its adapter. *)

Definition example_GetValueOrEnv (v : types.String) (name : string)
  : string :=
  match v with
  | types.StringValue s => s
  | _ => if String.eqb name "M365_CLOUD" then "public" else ""
  end.

Definition example_GetValueOrEnvBool (v : types.Bool) (name : string) : bool :=
  ValueBool v.

Definition example_setCloudConstants (cloud : string)
  : (string * string * string * string) + string :=
  if String.eqb cloud "public"
  then inl ("https://login.microsoftonline.com/",
            "https://graph.microsoft.com/.default",
            "https://graph.microsoft.com/v1.0",
            "https://graph.microsoft.com/beta")
  else inr ("unsupported microsoft cloud type: " +++ cloud).

Definition example_configureEntraIDClientOptions (useProxy : bool)
  (proxyURL authorityURL : string) (telemetryOptout : bool)
  : string + string :=
  inl authorityURL.

Definition example_obtainCredential (data : provider.M365ProviderModel)
  (clientOptions : string) : string + string :=
  if String.eqb (ValueString (provider.ClientSecret data)) ""
  then inr "client secret is empty"
  else inl (ValueString (provider.ClientID data)).

(** The same helper, refusing a model with an attribute that is not known. *)
Definition strict_obtainCredential (data : provider.M365ProviderModel)
  (clientOptions : string) : string + string :=
  if provider.Known data then example_obtainCredential data clientOptions
  else inr "the provider model holds null or unknown values".

Definition example_NewAuthenticationProvider (cred : string)
  (scopes : list string) : (string * list string) + string :=
  inl (cred, scopes).

Definition example_configureGraphClientOptions (useProxy : bool)
  (proxyURL : string) (enableChaos : bool) : string + string :=
  inl proxyURL.

Definition example_NewGraphRequestAdapter
  (authProvider : string * list string) (httpClient : string)
  : string + string :=
  inl "".

Definition example_SetBaseUrl (url adapter : string) : string := url.

Definition example_provider_Configure
  (obtainCredential :
     provider.M365ProviderModel -> string -> string + string) :=
  provider_Configure ExampleFilter nat string string string
    (string * list string) string string string
    example_GetValueOrEnv example_GetValueOrEnvBool example_setCloudConstants
    example_configureEntraIDClientOptions obtainCredential
    example_configureGraphClientOptions example_NewAuthenticationProvider
    example_NewGraphRequestAdapter example_NewGraphRequestAdapter
    example_SetBaseUrl example_SetBaseUrl (fun adapter => adapter)
    (fun adapter => graph_up).

Definition example_config : provider.ConfigureRequest :=
  {| provider.Config_data :=
       {| provider.TenantID :=
            types.StringValue "2fd6bb84-ad40-4ec5-9369-a215b25c9952";
          provider.AuthMethod := types.StringValue "client_secret";
          provider.ClientID :=
            types.StringValue "63b1b1b0-e5b5-4b4c-bf5c-3b1c3a0a1c4e";
          provider.ClientSecret := types.StringValue "s3cret";
          provider.ClientCertificateBase64 := types.StringNull;
          provider.ClientCertificateFilePath := types.StringNull;
          provider.ClientCertificatePassword := types.StringNull;
          provider.Username := types.StringNull;
          provider.Password := types.StringNull;
          provider.RedirectURL := types.StringNull;
          provider.UseProxy := types.BoolNull;
          provider.ProxyURL := types.StringUnknown;
          provider.Cloud := types.StringNull;
          provider.EnableChaos := types.BoolNull;
          provider.TelemetryOptout := types.BoolNull;
          provider.Debug := types.BoolNull |};
     provider.Config_diags := [] |}.

Definition unconfigured_response
  : provider.ConfigureResponse string (GraphServiceClient ExampleFilter nat) :=
  {| provider.ConfigureResponse_Diagnostics := [];
     provider.DataSourceData := client.NoData;
     provider.ResourceData := client.NoData |}.

Definition example_provider
  : provider.M365Provider string (GraphServiceClient ExampleFilter nat) :=
  provider.New string (GraphServiceClient ExampleFilter nat) "1.0.0".

Example example_provider_is_configured :
  snd (example_provider_Configure example_obtainCredential example_provider
         example_config unconfigured_response)
  = {| provider.ConfigureResponse_Diagnostics := [];
       provider.DataSourceData :=
         client.Clients
           (Some {| client.StableClient :=
                      Some "https://graph.microsoft.com/v1.0";
                    client.BetaClient := Some graph_up |});
       provider.ResourceData :=
         client.Clients
           (Some {| client.StableClient :=
                      Some "https://graph.microsoft.com/v1.0";
                    client.BetaClient := Some graph_up |}) |}.
Proof. reflexivity. Qed.

Lemma Configure_can_be_silent_without_client_witness :
  let r :=
    @graphCloudPcProvisioningPolicy.NewCloudPcProvisioningPolicyResource
      string in
  let data : client.ProviderData string unit := client.NoData in
  (HasError [] = true <-> exists goType, data = client.Other goType) /\
  (graphCloudPcProvisioningPolicy.client r = None <->
   data = client.NoData \/ (exists goType, data = client.Other goType) \/
   exists clients,
     data = client.Clients (Some clients) /\
     client.StableClient clients = None) /\
  (graphCloudPcProvisioningPolicy.client r = None ->
   HasError [] = false -> @nil Diagnostic = []).
Proof.
  intros r data.
  apply (graphCloudPcProvisioningPolicy.Configure_can_be_silent_without_client
           string unit r data [] r []);
    reflexivity.
Defined.

Lemma obtainCredential_is_given_known_values_witness :
  example_provider_Configure example_obtainCredential example_provider
    example_config unconfigured_response
  = example_provider_Configure strict_obtainCredential example_provider
      example_config unconfigured_response.
Proof.
  apply (provider.obtainCredential_is_given_known_values example_provider
           example_GetValueOrEnv example_GetValueOrEnvBool
           example_setCloudConstants example_configureEntraIDClientOptions
           example_obtainCredential strict_obtainCredential
           example_configureGraphClientOptions
           example_NewAuthenticationProvider example_NewGraphRequestAdapter
           example_NewGraphRequestAdapter example_SetBaseUrl
           example_SetBaseUrl (fun adapter => adapter)
           (fun adapter => graph_up) example_config unconfigured_response).
  intros data clientOptions Hknown. unfold strict_obtainCredential.
  rewrite Hknown. reflexivity.
Defined.

Lemma configured_provider_configures_its_resources_witness :
  let resp' :=
    snd (example_provider_Configure example_obtainCredential example_provider
           example_config unconfigured_response) in
  exists clients stable beta,
    provider.ResourceData resp' = client.Clients (Some clients) /\
    client.StableClient clients = Some stable /\
    client.BetaClient clients = Some beta /\
    part000_Configure unconfigured (provider.ResourceData resp') []
    = Some (set_client beta unconfigured, []) /\
    graphCloudPcProvisioningPolicy.Configure
      graphCloudPcProvisioningPolicy.NewCloudPcProvisioningPolicyResource
      (provider.ResourceData resp') []
    = Some (graphCloudPcProvisioningPolicy.set_client stable
              graphCloudPcProvisioningPolicy.NewCloudPcProvisioningPolicyResource,
            []).
Proof.
  apply (configured_provider_configures_its_resources
           ExampleFilter nat string string string (string * list string)
           string string string
           example_GetValueOrEnv example_GetValueOrEnvBool
           example_setCloudConstants example_configureEntraIDClientOptions
           example_obtainCredential example_configureGraphClientOptions
           example_NewAuthenticationProvider example_NewGraphRequestAdapter
           example_NewGraphRequestAdapter example_SetBaseUrl
           example_SetBaseUrl (fun adapter => adapter)
           (fun adapter => graph_up) example_provider example_config
           unconfigured_response unconfigured
           graphCloudPcProvisioningPolicy.NewCloudPcProvisioningPolicyResource
           []).
  reflexivity.
Defined.

(** ** The validators on the examples

    Paths are attribute names. The example matcher knows two patterns: a
    GUID is any string of 36 characters, and a valid URL string is one
    without a blank. The example URL parser splits a string that starts with
    the https scheme and leaves both fields of any other empty. *)

Definition example_GuidRegex : string :=
  "^[0-9a-fA-F]{8}-[0-9a-fA-F]{4}-[0-9a-fA-F]{4}-[0-9a-fA-F]{4}-[0-9a-fA-F]{12}$".

Definition example_UrlValidStringRegex : string :=
  "^[A-Za-z0-9-._~%/:/?=]+$".

Definition example_MatchString (pattern s : string) : bool * option string :=
  if String.eqb pattern example_GuidRegex
  then (Nat.eqb (String.length s) 36, None)
  else if String.eqb pattern example_UrlValidStringRegex
       then (negb (containsb " " s), None)
       else (false, Some "error parsing regexp").

Definition example_url_Parse (s : string) : (string * string) + string :=
  if starts_with "https://" s
  then inl ("https", String.substring 8 (String.length s - 8) s)
  else inl ("", "").

Definition example_Quote (s : string) : string :=
  String "034" (s +++ String "034" "").

Definition example_accepts :=
  @provider.accepts string example_MatchString (string * string) fst snd
    example_url_Parse example_Quote example_GuidRegex
    example_UrlValidStringRegex.

Definition example_ValidateString :=
  @provider.ValidateString string example_MatchString (string * string)
    fst snd example_url_Parse example_Quote example_GuidRegex
    example_UrlValidStringRegex.

Definition string_request (name : string) (v : types.String)
  : provider.StringRequest string :=
  {| provider.StringRequest_Path := name;
     provider.StringRequest_ConfigValue := v |}.

Definition no_diagnostics : provider.Response string :=
  {| provider.Response_Diagnostics := [] |}.

Example a_tenant_id_that_is_no_GUID :
  example_ValidateString (provider.validateGUID "tenant_id")
    (string_request "tenant_id" (types.StringValue "contoso")) no_diagnostics
  = {| provider.Response_Diagnostics :=
         [provider.error_at None "Invalid tenant_id format"
            ("The value " +++ example_Quote "contoso"
             +++ " for tenant_id is not a valid GUID. It must match the format: xxxxxxxx-xxxx-xxxx-xxxx-xxxxxxxxxxxx")]
    |}.
Proof. reflexivity. Qed.

Example a_redirect_url_without_scheme :
  example_ValidateString provider.validateRedirectURL
    (string_request "redirect_url" (types.StringValue "localhost:8080"))
    no_diagnostics
  <> no_diagnostics /\
  example_ValidateString provider.validateProxyURL
    (string_request "proxy_url" (types.StringValue "localhost:8080"))
    no_diagnostics
  = no_diagnostics.
Proof. split; [discriminate | reflexivity]. Qed.

Lemma absent_values_are_not_validated_witness :
  example_accepts (provider.validateGUID "tenant_id")
    (string_request "tenant_id" types.StringUnknown).
Proof.
  apply (provider.absent_values_are_not_validated
           string example_MatchString (string * string) fst snd
           example_url_Parse example_Quote example_GuidRegex
           example_UrlValidStringRegex (provider.validateGUID "tenant_id")
           (string_request "tenant_id" types.StringUnknown)).
  reflexivity.
Defined.

Lemma redirect_url_is_the_stricter_witness :
  example_accepts provider.validateProxyURL
    (string_request "redirect_url"
       (types.StringValue "https://localhost:8080")).
Proof.
  apply (provider.redirect_url_is_the_stricter
           string example_MatchString (string * string) fst snd
           example_url_Parse example_Quote example_GuidRegex
           example_UrlValidStringRegex
           (string_request "redirect_url"
              (types.StringValue "https://localhost:8080"))).
  intros resp. reflexivity.
Defined.
